(** * etl.py: metadata retrieval and spreadsheet projection

    A shallow embedding of [src/etl.py] (classes [MetadataRetriever] and
    [SpreadsheetCreator]) together with the fragment of Python and pandas the
    file relies on, followed by the properties of the specification.

    Conventions of the embedding.
    - A raised exception is a value [Raise e]; a normal return is [Ok v].
    - A pandas [DataFrame] is a list of column labels plus a list of rows.
      The row index is always the default [RangeIndex] in this program
      ([pd.DataFrame(list)], [pd.merge] and [ignore_index=True] produce it),
      so alignment on the index is positional.  Column labels may repeat, as
      in pandas; the operations say what they do then.
    - A cell is [Some s] for a string and [None] for a missing value (NaN).
      Sample records are flat string-valued mappings, and the fields of a
      mapper entry are strings, as in the data model of the specification.
    - Python dictionaries are association lists in insertion order; their keys
      are distinct.
    - pandas is modelled as of its 2.x releases. *)

From Stdlib Require Import List String Ascii Bool Arith ZArith Lia.
Import ListNotations.
Open Scope string_scope.
Open Scope list_scope.
Open Scope nat_scope.

(** ** Exceptions and the error monad *)

Inductive exn : Type :=
| ValueError (msg : string)
| KeyError (key : string)
| IndexError
| AttributeError
| NotImplementedError
| HTTPError
| TypeError
| MergeError
| InvalidIndexError.

Inductive result (A : Type) : Type :=
| Ok (a : A)
| Raise (e : exn).

Arguments Ok {A} a.
Arguments Raise {A} e.

Definition bind {A B : Type} (m : result A) (k : A -> result B) : result B :=
  match m with
  | Ok a => k a
  | Raise e => Raise e
  end.

Notation "x <- m ;; k" := (bind m (fun x => k))
  (at level 61, m at next level, right associativity).

Definition is_ok {A : Type} (m : result A) : bool :=
  match m with Ok _ => true | Raise _ => false end.

(** [for x in l: ...] over a computation that may raise. *)
Fixpoint mapM {A B : Type} (f : A -> result B) (l : list A) : result (list B) :=
  match l with
  | [] => Ok []
  | x :: t => y <- f x ;; ys <- mapM f t ;; Ok (y :: ys)
  end.

(** ** Python strings *)

Module PyStr.

(** [s.split(sep)] for a non-empty separator: non-overlapping occurrences,
    scanned from the left; [skip] counts the characters of a separator that
    was just matched. *)
Fixpoint split_go (sep : string) (skip : nat) (cur : string) (s : string)
  : list string :=
  match s with
  | EmptyString => [cur]
  | String c s' =>
      match skip with
      | S k => split_go sep k cur s'
      | O =>
          if prefix sep s
          then cur :: split_go sep (String.length sep - 1) EmptyString s'
          else split_go sep 0 (cur ++ String c EmptyString) s'
      end
  end.

Definition split (sep s : string) : list string := split_go sep 0 EmptyString s.

(** [s.replace(old, new)] for a non-empty [old]. *)
Fixpoint replace_go (old new : string) (skip : nat) (s : string) : string :=
  match s with
  | EmptyString => EmptyString
  | String c s' =>
      match skip with
      | S k => replace_go old new k s'
      | O =>
          if prefix old s
          then new ++ replace_go old new (String.length old - 1) s'
          else String c (replace_go old new 0 s')
      end
  end.

Definition replace (old new s : string) : string := replace_go old new 0 s.

(** [int(s)] in base 10 on an ASCII string: optional surrounding white
    space, an optional sign, then digits that single underscores may
    separate.  [None] stands for [ValueError].  The bound of recent CPython
    on the number of digits is not modelled.  Text outside ASCII is outside
    the model: Python also reads the decimal digits and the white space of
    other scripts, which this function rejects. *)
Definition is_space (c : ascii) : bool :=
  let n := nat_of_ascii c in
  (((9 <=? n) && (n <=? 13)) || (n =? 32))%nat.

Definition digit_val (c : ascii) : option Z :=
  let n := nat_of_ascii c in
  if ((48 <=? n) && (n <=? 57))%nat then Some (Z.of_nat (n - 48)) else None.

Fixpoint lstrip (s : string) : string :=
  match s with
  | String c s' => if is_space c then lstrip s' else s
  | EmptyString => EmptyString
  end.

Fixpoint all_space (s : string) : bool :=
  match s with
  | String c s' => is_space c && all_space s'
  | EmptyString => true
  end.

Inductive int_state : Type := AtStart | AfterDigit | AfterUnderscore.

Fixpoint int_digits (acc : Z) (st : int_state) (s : string) : option Z :=
  match s with
  | EmptyString =>
      match st with AfterDigit => Some acc | _ => None end
  | String c s' =>
      match digit_val c with
      | Some d => int_digits (10 * acc + d) AfterDigit s'
      | None =>
          match st with
          | AfterDigit =>
              if Ascii.eqb c "_" then int_digits acc AfterUnderscore s'
              else if is_space c && all_space s' then Some acc
              else None
          | _ => None
          end
      end
  end.

Definition int (s : string) : option Z :=
  match lstrip s with
  | String "-" s' => option_map Z.opp (int_digits 0 AtStart s')
  | String "+" s' => int_digits 0 AtStart s'
  | s' => int_digits 0 AtStart s'
  end.

End PyStr.

(** ** The [calendar] module *)

Module calendar.

(** [calendar.month_name]: thirteen entries, the first one empty. *)
Definition month_names : list string :=
  [EmptyString; "January"; "February"; "March"; "April"; "May"; "June"; "July";
   "August"; "September"; "October"; "November"; "December"].

(** [calendar.month_name[i]]: list indexing, negative indices count from
    the end. *)
Definition month_name (i : Z) : result string :=
  let n := Z.of_nat (List.length month_names) in
  let j := (if i <? 0 then i + n else i)%Z in
  if ((0 <=? j) && (j <? n))%Z
  then Ok (nth (Z.to_nat j) month_names EmptyString)
  else Raise IndexError.

End calendar.

(** ** Python dictionaries *)

(** [d.get(k)] on an insertion-ordered dictionary. *)
Fixpoint dict_get {A : Type} (d : list (string * A)) (k : string) : option A :=
  match d with
  | [] => None
  | (k', v) :: t => if String.eqb k' k then Some v else dict_get t k
  end.

Definition dict_keys {A : Type} (d : list (string * A)) : list string :=
  map fst d.

(** [k in l] on labels. *)
Definition mem (c : string) (l : list string) : bool :=
  existsb (String.eqb c) l.

Definition count (c : string) (l : list string) : nat :=
  List.length (filter (String.eqb c) l).

(** ** pandas *)

Module pd.

Abbreviation cell := (option string).

Definition cell_eqb (a b : cell) : bool :=
  match a, b with
  | Some x, Some y => String.eqb x y
  | None, None => true
  | _, _ => false
  end.

(** One sample record: attribute name to value. *)
Definition record : Type := list (string * string).

Record DataFrame : Type := mkDF {
  columns : list string;
  rows : list (list cell)
}.

(** [pd.DataFrame()] and [pd.DataFrame({})]. *)
Definition empty_frame : DataFrame := mkDF [] [].

(** [df.empty]: some axis has length 0. *)
Definition empty (df : DataFrame) : bool :=
  (List.length (columns df) =? 0) || (List.length (rows df) =? 0).

(** [df.shape[0]]. *)
Definition shape0 (df : DataFrame) : nat := List.length (rows df).

(** Labels in order of first appearance. *)
Fixpoint uniq_from (seen l : list string) : list string :=
  match l with
  | [] => []
  | x :: t => if mem x seen then uniq_from seen t else x :: uniq_from (x :: seen) t
  end.

Definition uniq (l : list string) : list string := uniq_from [] l.

(** [Index.is_unique]. *)
Fixpoint is_unique (l : list string) : bool :=
  match l with
  | [] => true
  | x :: t => negb (mem x t) && is_unique t
  end.

(** [Index.duplicated()] with [keep='first']. *)
Fixpoint duplicated_from (seen l : list string) : list bool :=
  match l with
  | [] => []
  | x :: t => mem x seen :: duplicated_from (x :: seen) t
  end.

Definition duplicated (l : list string) : list bool := duplicated_from [] l.

(** [pd.DataFrame(data)] for a list of records: the columns are the keys in
    order of first appearance, a key a record lacks gives a missing cell. *)
Definition of_records (data : list record) : DataFrame :=
  let cols := uniq (flat_map (fun r => dict_keys r) data) in
  mkDF cols (map (fun r => map (dict_get r) cols) data).

Fixpoint index_of (c : string) (l : list string) : nat :=
  match l with
  | [] => 0
  | x :: t => if String.eqb x c then 0 else S (index_of c t)
  end.

Definition column_at (i : nat) (df : DataFrame) : list cell :=
  map (fun r => nth i r None) (rows df).

(** [df[c]]: a Series when the label occurs once, a DataFrame when it is
    repeated, [KeyError] when it is absent. *)
Inductive item : Type :=
| Series (values : list cell)
| SubFrame.

Definition getitem (df : DataFrame) (c : string) : result item :=
  match count c (columns df) with
  | 0 => Raise (KeyError c)
  | 1 => Ok (Series (column_at (index_of c (columns df)) df))
  | _ => Ok SubFrame
  end.

(** [df[c].str]: only a Series has the accessor. *)
Definition str (df : DataFrame) (c : string) : result (list cell) :=
  it <- getitem df c ;;
  match it with
  | Series v => Ok v
  | SubFrame => Raise AttributeError
  end.

(** Writing [v] under label [c] in one row: every column labelled [c] is
    overwritten, a new label is appended. *)
Definition set_cell (labels : list string) (c : string) (v : cell)
           (row : list cell) : list cell :=
  if mem c labels
  then map (fun lx => if String.eqb (fst lx) c then v else snd lx)
           (combine labels row)
  else row ++ [v].

Definition set_label (labels : list string) (c : string) : list string :=
  if mem c labels then labels else labels ++ [c].

(** [df[c] = scalar]. *)
Definition setitem_scalar (df : DataFrame) (c : string) (v : cell) : DataFrame :=
  mkDF (set_label (columns df) c) (map (set_cell (columns df) c v) (rows df)).

Fixpoint set_column (labels : list string) (c : string) (vals : list cell)
         (rs : list (list cell)) : list (list cell) :=
  match rs with
  | [] => []
  | r :: rs' =>
      set_cell labels c (hd None vals) r :: set_column labels c (tl vals) rs'
  end.

(** [df[c] = series]: aligned on the index, so row [i] receives the value
    at [i] and a missing cell past the end of the series.  A frame with no
    rows first takes the index of the series. *)
Definition setitem (df : DataFrame) (c : string) (vals : list cell) : DataFrame :=
  let base :=
    match rows df with
    | [] => map (fun _ => repeat None (List.length (columns df))) vals
    | _ => rows df
    end in
  mkDF (set_label (columns df) c) (set_column (columns df) c vals base).

Definition remove_at {A : Type} (i : nat) (l : list A) : list A :=
  firstn i l ++ skipn (S i) l.

(** Position of a join key: the label must exist and be unique. *)
Definition key_position (df : DataFrame) (k : string) : result nat :=
  match count k (columns df) with
  | 0 => Raise (KeyError k)
  | 1 => Ok (index_of k (columns df))
  | _ => Raise (ValueError "The column label is not unique.")
  end.

(** Labels that the suffixes turned into duplicates: renamed label repeated
    where the original one was not. *)
Definition suffix_dups (orig renamed : list string) : list string :=
  if is_unique renamed then []
  else
    map fst
        (filter (fun x => fst (snd x) && negb (snd (snd x)))
                (combine renamed (combine (duplicated renamed) (duplicated orig)))).

(** [pd.merge(left, right, on=on, how="left")] with the default suffixes
    ["_x"] and ["_y"].  The key column of [right] is dropped; a label the
    two sides share otherwise is renamed on both; each row of [left], in
    order, is paired with the rows of [right] whose key equals its own
    (missing keys equal each other), or with missing cells when there is
    none. *)
Definition merge (left right : DataFrame) (on : string) : result DataFrame :=
  rk <- key_position right on ;;
  lk <- key_position left on ;;
  let right_cols := remove_at rk (columns right) in
  let to_rename := filter (fun c => mem c right_cols) (columns left) in
  let renamer (suffix x : string) :=
    if mem x to_rename then (x ++ suffix)%string else x in
  let llabels := map (renamer "_x") (columns left) in
  let rlabels := map (renamer "_y") right_cols in
  match suffix_dups (columns left) llabels ++ suffix_dups right_cols rlabels with
  | _ :: _ => Raise MergeError
  | [] =>
      Ok (mkDF (llabels ++ rlabels)
               (flat_map
                  (fun l =>
                     match filter (fun r => cell_eqb (nth lk l None) (nth rk r None))
                                  (rows right) with
                     | [] => [l ++ repeat None (List.length right_cols)]
                     | ms => map (fun r => l ++ remove_at rk r) ms
                     end)
                  (rows left)))
  end.

(** The frame returned by [series.str.split(sep, expand=True)]: as many
    columns as the longest split, shorter rows padded with missing cells, a
    missing value giving a row of missing cells. *)
Record Expanded : Type := mkExpanded {
  width : nat;
  erows : list (list cell)
}.

Definition split_cell (sep : string) (v : cell) : list cell :=
  match v with
  | Some s => map Some (PyStr.split sep s)
  | None => [None]
  end.

Definition str_split_expand (sep : string) (vals : list cell) : Expanded :=
  let parts := map (split_cell sep) vals in
  let w := fold_right Nat.max 0 (map (@List.length _) parts) in
  mkExpanded w (map (fun p => p ++ repeat None (w - List.length p)) parts).

Definition ecolumn (j : nat) (e : Expanded) : list cell :=
  map (fun r => nth j r None) (erows e).

(** [series.str.split(sep).str[i]]: the [i]-th part, missing when there are
    fewer parts or no value. *)
Definition str_split_get (sep : string) (i : nat) (v : cell) : cell :=
  match v with
  | Some s => nth_error (PyStr.split sep s) i
  | None => None
  end.

(** [series.str.replace(old, new)]. *)
Definition str_replace (old new : string) (v : cell) : cell :=
  option_map (PyStr.replace old new) v.

Definition length_error : exn := ValueError "Columns must be same length as key".

Definition check_key_length (cols key : list string) (w : nat) : result unit :=
  let expected :=
    if is_unique cols then List.length key
    else list_sum (map (fun k => Nat.max 1 (count k cols)) key) in
  if expected =? w then Ok tt else Raise length_error.

(** [df[[k1, ..., kn]] = frame]: the number of columns of the frame must
    match, then the columns are assigned pairwise. *)
Definition setitem_frame (df : DataFrame) (key : list string) (value : Expanded)
  : result DataFrame :=
  u <- check_key_length (columns df) key (width value) ;;
  Ok (fold_left (fun d kj => setitem d (fst kj) (ecolumn (snd kj) value))
                (combine key (seq 0 (width value))) df).

Fixpoint set_occurrences (labels : list string) (c : string) (vals : list cell)
         (row : list cell) : list cell :=
  match labels, row with
  | l :: ls, x :: xs =>
      if String.eqb l c
      then hd None vals :: set_occurrences ls c (tl vals) xs
      else x :: set_occurrences ls c vals xs
  | _, _ => row
  end.

(** [df[[c]] = series]: a one-dimensional value under a list key is set
    column by column, column [i] of the key receiving the scalar
    [series[i]]. *)
Definition setitem_list1 (df : DataFrame) (c : string) (value : list cell)
  : result DataFrame :=
  if is_unique (columns df) then
    if List.length value =? 1
    then Ok (setitem_scalar df c (hd None value))
    else Raise length_error
  else
    match count c (columns df) with
    | 0 => Raise NotImplementedError
    | n =>
        if List.length value =? n
        then Ok (mkDF (columns df)
                      (map (set_occurrences (columns df) c value) (rows df)))
        else Raise length_error
    end.

(** [df.loc[df[c] == old, c] = new]. *)
Definition loc_replace (df : DataFrame) (c old new : string) : result DataFrame :=
  it <- getitem df c ;;
  match it with
  | Series v =>
      Ok (setitem df c
            (map (fun x => if cell_eqb x (Some old) then Some new else x) v))
  | SubFrame => Raise (ValueError "Index data must be 1-dimensional")
  end.

(** Reindexing the columns of a frame for [pd.concat]. *)
Definition reindex_columns (df : DataFrame) (labels : list string)
  : result DataFrame :=
  if list_eq_dec string_dec (columns df) labels then Ok df
  else if is_unique (columns df) then
    Ok (mkDF labels
          (map (fun r =>
                  map (fun c => if mem c (columns df)
                                then nth (index_of c (columns df)) r None
                                else None) labels)
               (rows df)))
  else Raise InvalidIndexError.

(** [pd.concat([a, b])]: rows stacked, columns the union in order of
    appearance. *)
Definition concat (a b : DataFrame) : result DataFrame :=
  let labels :=
    if list_eq_dec string_dec (columns a) (columns b) then columns a
    else match columns a, columns b with
         | _, [] => columns a
         | [], _ => columns b
         | _, _ => uniq (columns a ++ columns b)
         end in
  a' <- reindex_columns a labels ;;
  b' <- reindex_columns b labels ;;
  Ok (mkDF labels (rows a' ++ rows b')).

(** [pd.DataFrame(d)] for a dictionary of lists: one column per key, one
    row per position; lists of different lengths are rejected. *)
Definition of_dict (d : list (string * list string)) : result DataFrame :=
  match d with
  | [] => Ok empty_frame
  | (_, l0) :: _ =>
      let n := List.length l0 in
      if forallb (fun kv => List.length (snd kv) =? n) d
      then Ok (mkDF (dict_keys d)
                    (map (fun i => map (fun kv => nth_error (snd kv) i) d)
                         (seq 0 n)))
      else Raise (ValueError "All arrays must be of the same length")
  end.

(** [df.iloc[-1]]. *)
Definition iloc_last (df : DataFrame) : result (list cell) :=
  match rows df with
  | [] => Raise IndexError
  | r :: rs => Ok (last rs r)
  end.

(** A cell used as a column label; a missing value would give the label
    [nan]. *)
Definition label_of (c : cell) : string :=
  match c with
  | Some s => s
  | None => "nan"
  end.

End pd.

(** ** etl.py *)

Module etl.

Import pd.

(** What one call observes of the environment and of the submission
    portal: the refresh token of the process environment, whether the
    refresh request succeeded, the access token of its body, and the
    [sampleData] mapping of the fetched record (group key to record
    list), when the response has one. *)
Record Portal : Type := mkPortal {
  refresh_token : option string;
  refresh_ok : bool;
  access_token : option string;
  sampleData : option (list (string * list record))
}.

(** *** class MetadataRetriever *)

Record MetadataRetriever : Type := mkRetriever {
  metadata_submission_id : string;
  user_facility : string
}.

Definition USER_FACILITY_DICT : list (string * string) :=
  [("emsl", "emsl_data"); ("jgi_mg", "jgi_mg_data"); ("jgi_mt", "jgi_mt_data")].

Definition user_facility_keys : list string :=
  ["emsl_data"; "jgi_mg_data"; "jgi_mt_data"].

(** [response["metadata_submission"]["sampleData"]]. *)
Definition response_sampleData (p : Portal)
  : result (list (string * list record)) :=
  match sampleData p with
  | Some sd => Ok sd
  | None => Raise (KeyError "sampleData")
  end.

(** [pd.DataFrame(sampleData.get(key, {}))]. *)
Definition group_frame (sd : list (string * list record)) (key : string)
  : DataFrame :=
  match dict_get sd key with
  | Some data => of_records data
  | None => empty_frame
  end.

(** Lines 53-68: token refresh and fetch. *)
Definition authenticate (p : Portal) : result string :=
  match refresh_token p with
  | None => Raise (KeyError "DATA_PORTAL_REFRESH_TOKEN")
  | Some _ =>
      if refresh_ok p then
        match access_token p with
        | Some t => Ok t
        | None => Raise (KeyError "access_token")
        end
      else Raise HTTPError
  end.

(** Lines 71-76. *)
Definition load_common_df (self : MetadataRetriever) (p : Portal)
  : result DataFrame :=
  match dict_get USER_FACILITY_DICT (user_facility self) with
  | Some group =>
      sd <- response_sampleData p ;;
      Ok (group_frame sd group)
  | None => Ok empty_frame
  end.

Definition missing_facility_data (self : MetadataRetriever) : exn :=
  ValueError ("No key " ++ user_facility self
              ++ " exists in submission metadata record "
              ++ metadata_submission_id self)%string.

(** Lines 88-91. *)
Definition sample_data_keys (all_keys_data : list (string * list record))
  : list string :=
  filter (fun key => negb (mem key user_facility_keys)) (dict_keys all_keys_data).

(** One iteration of the loop of lines 94-105. *)
Definition merge_step (sd : list (string * list record)) (df : DataFrame)
           (key : string) : result DataFrame :=
  let sample_data_df := group_frame sd key in
  df1 <- (if negb (empty sample_data_df)
          then merge df sample_data_df "samp_name"
          else Ok df) ;;
  Ok (setitem_scalar df1 "sample_isolated_from" (Some key)).

Fixpoint merge_loop (sd : list (string * list record)) (keys : list string)
         (df : DataFrame) : result DataFrame :=
  match keys with
  | [] => Ok df
  | key :: rest =>
      df1 <- merge_step sd df key ;;
      merge_loop sd rest df1
  end.

(** Lines 109-110. *)
Definition split_lat_lon (df : DataFrame) : result DataFrame :=
  if mem "lat_lon" (columns df) then
    v <- str df "lat_lon" ;;
    setitem_frame df ["latitude"; "longitude"] (str_split_expand " " v)
  else Ok df.

(** Lines 112-123. *)
Definition split_depth (df : DataFrame) : result DataFrame :=
  if mem "depth" (columns df) then
    v <- str df "depth" ;;
    let df1 := setitem df "depth" (map (str_replace "-" " - ") v) in
    v1 <- str df1 "depth" ;;
    let dfNew := str_split_expand " - " v1 in
    if List.length (erows dfNew) =? 1 then
      df2 <- setitem_list1 df1 "minimum_depth" (ecolumn 0 dfNew) ;;
      setitem_list1 df2 "maximum_depth" (ecolumn 0 dfNew)
    else
      v2 <- str df1 "depth" ;;
      setitem_frame df1 ["minimum_depth"; "maximum_depth"]
                    (str_split_expand " - " v2)
  else Ok df.

(** Lines 125-126. *)
Definition split_geo_loc_name (df : DataFrame) : result DataFrame :=
  if mem "geo_loc_name" (columns df) then
    v <- str df "geo_loc_name" ;;
    Ok (setitem df "country_name" (map (str_split_get ":" 0) v))
  else Ok df.

(** [lambda x: calendar.month_name[int(x)]]; a missing value is the float
    NaN, which [int] rejects. *)
Definition month_name_of (x : cell) : result cell :=
  match x with
  | None => Raise (ValueError "cannot convert float NaN to integer")
  | Some s =>
      match PyStr.int s with
      | None => Raise (ValueError "invalid literal for int() with base 10")
      | Some i => name <- calendar.month_name i ;; Ok (Some name)
      end
  end.

(** Lines 128-135. *)
Definition split_collection_date (df : DataFrame) : result DataFrame :=
  if mem "collection_date" (columns df) then
    v0 <- str df "collection_date" ;;
    let df1 := setitem df "collection_year" (map (str_split_get "-" 0) v0) in
    v1 <- str df1 "collection_date" ;;
    let df2 := setitem df1 "collection_month" (map (str_split_get "-" 1) v1) in
    v2 <- str df2 "collection_date" ;;
    let df3 := setitem df2 "collection_day" (map (str_split_get "-" 2) v2) in
    it <- getitem df3 "collection_month" ;;
    match it with
    | Series months =>
        names <- mapM month_name_of months ;;
        Ok (setitem df3 "collection_month_name" names)
    | SubFrame => Raise TypeError
    end
  else Ok df.

(** Lines 139-144. *)
Definition yes_no_to_Y_N (df : DataFrame) (c : string) : result DataFrame :=
  df1 <- loc_replace df c "yes" "Y" ;;
  loc_replace df1 c "no" "N".

Definition normalize_dnase (self : MetadataRetriever) (df : DataFrame)
  : result DataFrame :=
  df1 <- (if String.eqb (user_facility self) "jgi_mg"
          then yes_no_to_Y_N df "dna_dnase" else Ok df) ;;
  if String.eqb (user_facility self) "jgi_mt"
  then yes_no_to_Y_N df1 "dnase_rna" else Ok df1.

(** Lines 107-146. *)
Definition derive_columns (self : MetadataRetriever) (df : DataFrame)
  : result DataFrame :=
  df1 <- split_lat_lon df ;;
  df2 <- split_depth df1 ;;
  df3 <- split_geo_loc_name df2 ;;
  df4 <- split_collection_date df3 ;;
  normalize_dnase self df4.

Definition retrieve_metadata_records (self : MetadataRetriever) (p : Portal)
           (unique_field : string) : result DataFrame :=
  token <- authenticate p ;;
  common_df <- load_common_df self p ;;
  if empty common_df then Raise (missing_facility_data self)
  else
    all_keys_data <- response_sampleData p ;;
    df <- merge_loop all_keys_data (sample_data_keys all_keys_data) common_df ;;
    derive_columns self df.

(** *** class SpreadsheetCreator *)

(** The JSON mapper: output field key to its definition, a mapping from
    field names (header rows and [sub_port_mapping]) to strings. *)
Definition mapper : Type := list (string * list (string * string)).

Record SpreadsheetCreator : Type := mkCreator {
  json_mapper : mapper;
  metadata_df : DataFrame
}.

(** Lines 175-180: the header labels of every key. *)
Definition header_lists (m : mapper) : list (string * list string) :=
  map (fun kv =>
         (fst kv,
          map snd
              (filter (fun h => negb (String.eqb (fst h) "sub_port_mapping"))
                      (snd kv))))
      m.

(** Lines 185-195: promote the last row to column names, append the row of
    old column names, rotate the rows by one. *)
Definition promote_and_rotate (headers_df : DataFrame) : result DataFrame :=
  last_row <- iloc_last headers_df ;;
  let column_values := map label_of last_row in
  let dropped := removelast (rows headers_df) in
  let appended := dropped ++ [map Some (columns headers_df)] in
  let shift := 1 in
  let n := List.length appended in
  Ok (mkDF column_values
           (skipn (n - shift) appended ++ firstn (n - shift) appended)).

Definition combine_headers_df (self : SpreadsheetCreator) (header : bool)
  : result DataFrame :=
  headers_df <- of_dict (header_lists (json_mapper self)) ;;
  if header then promote_and_rotate headers_df else Ok headers_df.

(** The body of the loop of lines 206-214. *)
Definition add_sample_column (metadata : DataFrame) (rows_df : DataFrame)
           (kv : string * list (string * string)) : result DataFrame :=
  let k := fst kv in
  let v := snd kv in
  match dict_get v "sub_port_mapping" with
  | Some source =>
      if mem source (columns metadata) then
        let label :=
          match dict_get v "header" with
          | Some h => h
          | None => k
          end in
        it <- getitem metadata source ;;
        match it with
        | Series vals => Ok (setitem rows_df label vals)
        | SubFrame =>
            Raise (ValueError "Cannot set a DataFrame with multiple columns to the single column")
        end
      else Ok rows_df
  | None => Ok rows_df
  end.

Fixpoint foldM {A B : Type} (f : A -> B -> result A) (l : list B) (a : A)
  : result A :=
  match l with
  | [] => Ok a
  | x :: t => a' <- f a x ;; foldM f t a'
  end.

Definition combine_sample_rows_df (self : SpreadsheetCreator) : result DataFrame :=
  foldM (add_sample_column (metadata_df self)) (json_mapper self) empty_frame.

Definition combine_headers_and_rows (headers_df rows_df : DataFrame)
  : result DataFrame :=
  concat headers_df rows_df.

Definition create_spreadsheet (self : SpreadsheetCreator) (header : bool)
  : result DataFrame :=
  headers_df <- combine_headers_df self header ;;
  rows_df <- combine_sample_rows_df self ;;
  combine_headers_and_rows headers_df rows_df.

(** Lines 292-299 of [cli], up to the spreadsheet writer. *)
Definition cli (submission user_facility : string) (header : bool)
           (json_mapper : mapper) (unique_field : string) (p : Portal)
  : result DataFrame :=
  let metadata_retriever := mkRetriever submission user_facility in
  metadata_df <- retrieve_metadata_records metadata_retriever p unique_field ;;
  create_spreadsheet (mkCreator json_mapper metadata_df) header.

End etl.

(** ** Vocabulary of the properties *)

Module Props.

Import pd etl.

(** Every row has one cell per column label. *)
Definition wf (df : DataFrame) : Prop :=
  Forall (fun r => List.length r = List.length (columns df)) (rows df).

Definition wfb (df : DataFrame) : bool :=
  forallb (fun r => List.length r =? List.length (columns df)) (rows df).

(** A table: rows of the right length under distinct column labels. *)
Definition table (df : DataFrame) : bool :=
  wfb df && is_unique (columns df).

(** The values of the (first) column labelled [c]. *)
Definition col (c : string) (df : DataFrame) : list cell :=
  column_at (index_of c (columns df)) df.

(** Every cell under a label [c] holds [v]. *)
Definition cells_under (c : string) (v : cell) (df : DataFrame) : Prop :=
  Forall (fun r => forall i, nth_error (columns df) i = Some c ->
                             nth_error r i = Some v)
         (rows df).

(** The [j]-th part of a split value, missing when there is none. *)
Definition part (sep : string) (j : nat) (v : cell) : cell :=
  nth j (split_cell sep v) None.

(** The largest number of parts a value of the column splits into; a
    missing value counts for one. *)
Definition longest (sep : string) (vals : list cell) : nat :=
  fold_right Nat.max 0 (map (fun v => List.length (split_cell sep v)) vals).

(** The rewrite of lines 140-141 on one cell. *)
Definition Y_N (v : cell) : cell :=
  if cell_eqb v (Some "yes") then Some "Y"
  else if cell_eqb v (Some "no") then Some "N"
  else v.

(** The column labels of a frame as a set. *)
Definition same_column_set (a b : DataFrame) : Prop :=
  forall c, In c (columns a) <-> In c (columns b).

Definition add_suffix (suffix : string) (c : string) : string :=
  (c ++ suffix)%string.

(** The columns a join brings in: those of the right frame without the
    key. *)
Definition right_columns (right : DataFrame) (on : string) : list string :=
  remove_at (index_of on (columns right)) (columns right).

(** The labels the two sides of a join share, which the suffixes rename. *)
Definition shared (left right : DataFrame) (on : string) : list string :=
  filter (fun c => mem c (right_columns right on)) (columns left).

Definition renamed (suffix : string) (sh : list string) (x : string) : string :=
  if mem x sh then add_suffix suffix x else x.

(** A non-empty frame with well-formed rows, a column [c], and [v] in every
    cell under [c]. *)
Definition stamped (c : string) (v : cell) (df : DataFrame) : Prop :=
  wf df /\ 0 < shape0 df /\ In c (columns df) /\ cells_under c v df.

(** The labels the derivations of lines 109-135 may add. *)
Definition derived_labels : list string :=
  ["latitude"; "longitude"; "minimum_depth"; "maximum_depth"; "country_name";
   "collection_year"; "collection_month"; "collection_day";
   "collection_month_name"].

(** The labels lines 109-144 may write: the derived ones, [depth] and the
    two facility columns. *)
Definition written_labels : list string :=
  derived_labels ++ ["depth"; "dna_dnase"; "dnase_rna"].

(** [df'] has the rows of [df], well formed, keeps its labels and adds
    labels of [W] only. *)
Definition grown (W : list string) (df df' : DataFrame) : Prop :=
  wf df'
  /\ shape0 df' = shape0 df
  /\ (forall c, In c (columns df) -> In c (columns df'))
  /\ (forall c, In c (columns df') -> In c (columns df) \/ In c W).

(** [df'] is a table with the rows of [df] in which every column of [df]
    outside [W] is still there with its values. *)
Definition touches (W : list string) (df df' : DataFrame) : Prop :=
  table df' = true
  /\ shape0 df' = shape0 df
  /\ (forall c, In c (columns df) -> ~ In c W ->
                 In c (columns df') /\ col c df' = col c df).

(** The cells a left join appends to a row with key [k] when the keys of
    the right frame are distinct: those of the record with that key, or
    [n] missing cells. *)
Definition joined_cells (rk n : nat) (right_rows : list (list cell)) (k : cell)
  : list cell :=
  match find (fun r => cell_eqb k (nth rk r None)) right_rows with
  | Some r => remove_at rk r
  | None => repeat None n
  end.

(** A string without hyphen. *)
Fixpoint no_hyphen (s : string) : bool :=
  match s with
  | EmptyString => true
  | String c s' => negb (Ascii.eqb c "-") && no_hyphen s'
  end.

(** A cell that is missing or holds a string without hyphen. *)
Definition hyphenless (v : cell) : bool :=
  match v with
  | Some s => no_hyphen s
  | None => true
  end.

(** A mapper entry that yields a data column: it has a [sub_port_mapping]
    that names a column of the table. *)
Definition entry_source (kv : string * list (string * string)) : option string :=
  dict_get (snd kv) "sub_port_mapping".

Definition valid_entry (metadata : DataFrame) (kv : string * list (string * string))
  : bool :=
  match entry_source kv with
  | Some source => mem source (columns metadata)
  | None => false
  end.

(** The label of the data column of an entry: its [header] field, or its
    key. *)
Definition entry_label (kv : string * list (string * string)) : string :=
  match dict_get (snd kv) "header" with
  | Some h => h
  | None => fst kv
  end.

(** The text of [s] before the first occurrence of the character [c], all
    of [s] when [c] does not occur. *)
Fixpoint before (c : ascii) (s : string) : string :=
  match s with
  | EmptyString => EmptyString
  | String a s' => if Ascii.eqb a c then EmptyString else String a (before c s')
  end.

(** The values of [c] in a frame stacked by [pd.concat]: those of the
    column when the frame has it, missing cells otherwise. *)
Definition padded (c : string) (df : DataFrame) : list cell :=
  if mem c (columns df) then col c df else repeat None (shape0 df).

(** The frame [rows_df] of line 205 while the loop runs: still empty, or a
    table with the rows of the metadata table. *)
Definition rows_frame (metadata acc : DataFrame) : Prop :=
  acc = empty_frame \/ (table acc = true /\ shape0 acc = shape0 metadata).

(** The header labels of a mapper entry, as lines 177-179 collect them. *)
Definition entry_headers (kv : string * list (string * string)) : list string :=
  map snd (filter (fun h => negb (String.eqb (fst h) "sub_port_mapping")) (snd kv)).

(** The record of a list whose [samp_name] is [k]. *)
Definition record_of (recs : list record) (k : cell) : option record :=
  find (fun r => cell_eqb k (dict_get r "samp_name")) recs.

(** The value a join on [samp_name] gives a row with key [k] under the
    attribute [c] of the record list: that of the record with this
    [samp_name], missing when there is no such record or the record lacks
    the attribute. *)
Definition joined_value (recs : list record) (c : string) (k : cell) : cell :=
  match record_of recs k with
  | Some r => dict_get r c
  | None => None
  end.

(** A key of [sampleData] that names the record list of a user facility;
    every other key is an annotation group. *)
Definition facility_group (k : string) : Prop :=
  k = "emsl_data" \/ k = "jgi_mg_data" \/ k = "jgi_mt_data".









(** [l'] lists the elements of [l] in order, each one at least once: every
    [x] of [l] stands for a run of one or more consecutive elements of
    [l'], all related to [x] by [R]; [l'] holds nothing else. *)
Inductive copies {A B : Type} (R : A -> B -> Prop) : list A -> list B -> Prop :=
| copies_nil : copies R [] []
| copies_cons (x : A) (l : list A) (y : B) (ys l' : list B) :
    R x y -> Forall (R x) ys -> copies R l l' ->
    copies R (x :: l) (y :: ys ++ l').

(** Row [l'] has the cells of row [l] under every one of [labels] but
    [sample_isolated_from]. *)
Definition row_kept (labels : list string) (l l' : list cell) : Prop :=
  forall i c,
    nth_error labels i = Some c -> c <> "sample_isolated_from" ->
    nth_error l' i = nth_error l i.

(** A frame with well-formed rows and a column [c] that holds [vals]. *)
Definition held (c : string) (vals : list cell) (df : DataFrame) : Prop :=
  wf df /\ In c (columns df) /\ col c df = vals.

End Props.

(** ** Sample inputs *)

Module Samples.

Import pd etl.

(** A portal that authenticates and serves the given [sampleData]. *)
Definition serving (sd : list (string * list record)) : Portal :=
  mkPortal (Some "refresh") true (Some "access") (Some sd).

Definition emsl : MetadataRetriever := mkRetriever "sub-1" "emsl".
Definition jgi_mg : MetadataRetriever := mkRetriever "sub-1" "jgi_mg".
Definition jgi_mt : MetadataRetriever := mkRetriever "sub-1" "jgi_mt".

Definition no_emsl_records : list (string * list record) :=
  [("emsl_data", []); ("water", [[("samp_name", "s1")]])].

Definition lat_lon_pair : DataFrame :=
  of_records [[("samp_name", "s1"); ("lat_lon", "12.3 -45.6")];
              [("samp_name", "s2"); ("lat_lon", "7.5 8.25")]].

Definition lat_lon_short : list (string * list record) :=
  [("emsl_data", [[("samp_name", "s1"); ("lat_lon", "12.3 -45.6")];
                  [("samp_name", "s2"); ("lat_lon", "12.3")]])].

Definition depth_one_row : DataFrame :=
  of_records [[("samp_name", "s1"); ("depth", "0-10")]].

Definition depth_two_rows : DataFrame :=
  of_records [[("samp_name", "s1"); ("depth", "0-10")];
              [("samp_name", "s2"); ("depth", "5-7")]].

Definition dated : DataFrame :=
  of_records [[("samp_name", "s1"); ("collection_date", "2020-05-17")]].

Definition dnase : DataFrame :=
  of_records [[("samp_name", "s1"); ("dna_dnase", "yes"); ("dnase_rna", "no")];
              [("samp_name", "s2"); ("dna_dnase", "no"); ("dnase_rna", "yes")];
              [("samp_name", "s3"); ("dna_dnase", "unknown")]].


(** The same mapper with two header labels under [B] as well. *)
Definition mapper_level : mapper :=
  [("A", [("header_1", "Lab"); ("header_2", "Analyte");
          ("sub_port_mapping", "samp_name")]);
   ("B", [("header_1", "Lab1"); ("header_2", "Lab2")])].

Definition two_samples : DataFrame :=
  of_records [[("samp_name", "s1"); ("ph", "7")]; [("samp_name", "s2")]].

(** A base table and a submission in which two annotation groups hold the
    same record list. *)
Definition one_sample : DataFrame :=
  of_records [[("samp_name", "s1")]].

Definition ph_records : list record :=
  [[("samp_name", "s1"); ("ph", "7")]].

Definition same_group_twice : list (string * list record) :=
  [("water", ph_records); ("soil", ph_records)].

(** A whole retrieval: two annotation groups, the second without records;
    every derivation applies. *)
Definition full_submission : list (string * list record) :=
  [("jgi_mg_data", [[("samp_name", "s1"); ("dna_dnase", "yes")];
                    [("samp_name", "s2"); ("dna_dnase", "maybe")]]);
   ("water", [[("samp_name", "s1"); ("lat_lon", "12.3 -45.6"); ("depth", "0-10");
               ("collection_date", "2020-05-17");
               ("geo_loc_name", "USA: California")];
              [("samp_name", "s2"); ("lat_lon", "1 2"); ("depth", "3-4");
               ("collection_date", "2020-12-17")]]);
   ("soil", [])].

(** Two submissions that differ in the records of [emsl_data] only. *)
Definition full_submission_other_soil : list (string * list record) :=
  [("jgi_mg_data", [[("samp_name", "s1"); ("dna_dnase", "yes")];
                    [("samp_name", "s2"); ("dna_dnase", "maybe")]]);
   ("emsl_data", [[("samp_name", "s7"); ("project", "p1")]])].

Definition full_submission_other_emsl : list (string * list record) :=
  [("jgi_mg_data", [[("samp_name", "s1"); ("dna_dnase", "yes")];
                    [("samp_name", "s2"); ("dna_dnase", "maybe")]]);
   ("emsl_data", [])].

Definition depth_single_one_row : DataFrame :=
  of_records [[("samp_name", "s1"); ("depth", "5")]].

Definition depth_single_two_rows : DataFrame :=
  of_records [[("samp_name", "s1"); ("depth", "5")];
              [("samp_name", "s2"); ("depth", "7")]].

Definition located : DataFrame :=
  of_records [[("samp_name", "s1"); ("geo_loc_name", "USA: California")];
              [("samp_name", "s2"); ("geo_loc_name", "France")];
              [("samp_name", "s3")]].

Definition dated_incomplete : DataFrame :=
  of_records [[("samp_name", "s1"); ("collection_date", "2020-05-17")];
              [("samp_name", "s2"); ("collection_date", "2020")]].

(** A mapper in the usual form: one [header] field per key and a mapping. *)
Definition mapper_headed : mapper :=
  [("1", [("header", "Sample Name"); ("sub_port_mapping", "samp_name")]);
   ("2", [("header", "pH"); ("sub_port_mapping", "ph")])].

(** A mapper without any header label. *)
Definition mapper_bare : mapper :=
  [("Sample Name", [("sub_port_mapping", "samp_name")])].

Definition two_named : DataFrame :=
  of_records [[("samp_name", "s1")]; [("samp_name", "s2")]].

Definition ph_of_s3_s1 : list (string * list record) :=
  [("water", [[("samp_name", "s3"); ("ph", "8")];
              [("samp_name", "s1"); ("ph", "7")]])].

(** Annotation groups around the facility groups: [water] and [soil] with
    records, [air] without, and a facility group after the last of them. *)
Definition groups_around : list (string * list record) :=
  [("water", [[("samp_name", "s1"); ("ph", "7")]]);
   ("jgi_mg_data", [[("samp_name", "s1"); ("dna_dnase", "yes")];
                    [("samp_name", "s2"); ("dna_dnase", "no")]]);
   ("soil", [[("samp_name", "s2"); ("texture", "loam")]]);
   ("air", []);
   ("emsl_data", [])].

(** Two samples that give one depth value each, no range. *)
Definition single_depths : list (string * list record) :=
  [("emsl_data", [[("samp_name", "s1"); ("depth", "5")];
                  [("samp_name", "s2"); ("depth", "7")]])].



End Samples.

(** ** Labels and lists *)

Section Labels.

Lemma mem_In (c : string) (l : list string) : mem c l = true <-> In c l.
Proof.
  unfold mem. rewrite existsb_exists. split.
  - intros [x [Hx He]]. apply String.eqb_eq in He. now subst.
  - intros H. exists c. split; [assumption | apply String.eqb_refl].
Qed.

Lemma mem_false (c : string) (l : list string) : mem c l = false <-> ~ In c l.
Proof.
  rewrite <- mem_In. destruct (mem c l); split; congruence.
Qed.

Lemma count_cons (c x : string) (l : list string) :
  count c (x :: l) = (if String.eqb c x then 1 else 0) + count c l.
Proof.
  unfold count. simpl. destruct (String.eqb c x); reflexivity.
Qed.

Lemma count_app (c : string) (l1 l2 : list string) :
  count c (l1 ++ l2) = count c l1 + count c l2.
Proof.
  unfold count. rewrite filter_app, length_app. reflexivity.
Qed.

Lemma count_zero (c : string) (l : list string) : count c l = 0 <-> ~ In c l.
Proof.
  induction l as [|x l IH]; simpl.
  - split; [intros _ [] | reflexivity].
  - rewrite count_cons. destruct (String.eqb_spec c x) as [->|Hne].
    + split; [discriminate | intros H; exfalso; apply H; now left].
    + simpl. rewrite IH. split.
      * intros H [E|E]; [congruence | contradiction].
      * intros H E. apply H. now right.
Qed.

Lemma count_pos (c : string) (l : list string) : 0 < count c l <-> In c l.
Proof.
  destruct (in_dec string_dec c l) as [Hi|Hn].
  - split; [trivial|]. intros _.
    destruct (count c l) eqn:E; [|lia].
    apply count_zero in E. contradiction.
  - apply count_zero in Hn as E. rewrite E. split; [lia | contradiction].
Qed.

Lemma is_unique_count (l : list string) :
  pd.is_unique l = true -> forall c, count c l <= 1.
Proof.
  induction l as [|x l IH]; simpl; intros H c.
  - unfold count. simpl. lia.
  - apply andb_true_iff in H as [Hx Hl]. apply negb_true_iff in Hx.
    rewrite count_cons. destruct (String.eqb_spec c x) as [->|Hne].
    + apply mem_false in Hx. apply count_zero in Hx. lia.
    + specialize (IH Hl c). lia.
Qed.

Lemma is_unique_NoDup (l : list string) : pd.is_unique l = true <-> NoDup l.
Proof.
  induction l as [|x l IH]; simpl.
  - split; [constructor | reflexivity].
  - rewrite andb_true_iff, negb_true_iff, mem_false, IH. split.
    + intros [H1 H2]. now constructor.
    + intros H. inversion H; subst. now split.
Qed.

Lemma index_of_nth_error (c : string) (l : list string) :
  In c l -> nth_error l (pd.index_of c l) = Some c.
Proof.
  induction l as [|x l IH]; simpl; [intros []|].
  intros H. destruct (String.eqb_spec x c) as [->|Hne]; [reflexivity|].
  simpl. apply IH. destruct H; [contradiction | assumption].
Qed.

Lemma index_of_app (c : string) (l1 l2 : list string) :
  In c l1 -> pd.index_of c (l1 ++ l2) = pd.index_of c l1.
Proof.
  induction l1 as [|x l IH]; simpl; [intros []|].
  intros H. destruct (String.eqb_spec x c) as [->|Hne]; [reflexivity|].
  f_equal. apply IH. destruct H; [contradiction | assumption].
Qed.

Lemma set_label_In (labels : list string) (c : string) :
  In c (pd.set_label labels c).
Proof.
  unfold pd.set_label. destruct (mem c labels) eqn:E.
  - now apply mem_In.
  - apply in_or_app. right. now left.
Qed.

Lemma set_label_In_other (labels : list string) (c c' : string) :
  c' <> c -> (In c' (pd.set_label labels c) <-> In c' labels).
Proof.
  intros Hne. unfold pd.set_label. destruct (mem c labels); [tauto|].
  rewrite in_app_iff. simpl. split; [|tauto].
  intros [H|[H|[]]]; [assumption | congruence].
Qed.

Lemma set_label_unique (labels : list string) (c : string) :
  pd.is_unique labels = true -> pd.is_unique (pd.set_label labels c) = true.
Proof.
  unfold pd.set_label. destruct (mem c labels) eqn:E; [trivial|].
  rewrite !is_unique_NoDup. intros H.
  apply NoDup_app; [assumption | repeat constructor; intros [] | ].
  intros a Ha [<-|[]]. apply mem_false in E. contradiction.
Qed.

Lemma index_of_set_label_other (labels : list string) (c c' : string) :
  In c' labels -> pd.index_of c' (pd.set_label labels c) = pd.index_of c' labels.
Proof.
  intros H. unfold pd.set_label. destruct (mem c labels); [reflexivity|].
  now apply index_of_app.
Qed.

Lemma count_set_label_other (labels : list string) (c c' : string) :
  c' <> c -> count c' (pd.set_label labels c) = count c' labels.
Proof.
  intros Hne. unfold pd.set_label. destruct (mem c labels); [reflexivity|].
  rewrite count_app, count_cons.
  destruct (String.eqb_spec c' c); [contradiction|]. unfold count. simpl. lia.
Qed.

End Labels.

(** ** Column assignment *)

Section Frames.

Import pd Props.

Lemma nth_error_relabel (c : string) (v : cell) :
  forall (labels : list string) (row : list cell) (i : nat) (l : string),
    List.length row = List.length labels ->
    nth_error labels i = Some l ->
    nth_error (map (fun lx => if String.eqb (fst lx) c then v else snd lx)
                   (combine labels row)) i
    = Some (if String.eqb l c then v else nth i row None).
Proof.
  induction labels as [|a labels IH]; intros [|x row] [|i] l Hlen H;
    simpl in *; try congruence.
  - injection H as ->. reflexivity.
  - apply IH; [lia | assumption].
Qed.

Lemma nth_error_set_label_other (labels : list string) (c c' : string) (i : nat) :
  c' <> c ->
  nth_error (set_label labels c) i = Some c' ->
  nth_error labels i = Some c'.
Proof.
  unfold set_label. intros Hne H. destruct (mem c labels); [assumption|].
  destruct (Nat.lt_ge_cases i (List.length labels)) as [Hlt|Hge].
  - now rewrite nth_error_app1 in H.
  - rewrite nth_error_app2 in H by assumption.
    destruct (i - List.length labels) as [|[|n]]; simpl in H; congruence.
Qed.

Lemma nth_error_set_cell (labels : list string) (c : string) (v : cell)
      (row : list cell) (i : nat) (l : string) :
  List.length row = List.length labels ->
  nth_error (set_label labels c) i = Some l ->
  nth_error (set_cell labels c v row) i
  = Some (if String.eqb l c then v else nth i row None).
Proof.
  unfold set_label, set_cell. intros Hlen H. destruct (mem c labels) eqn:E.
  - now apply nth_error_relabel.
  - apply mem_false in E.
    destruct (Nat.lt_ge_cases i (List.length labels)) as [Hlt|Hge].
    + rewrite nth_error_app1 in H by assumption.
      rewrite nth_error_app1 by lia.
      assert (Hl : l <> c).
      { intros ->. apply E. eapply nth_error_In. eassumption. }
      destruct (String.eqb_spec l c); [contradiction|].
      apply nth_error_nth'. lia.
    + rewrite nth_error_app2 in H by assumption.
      rewrite nth_error_app2 by lia. rewrite Hlen.
      destruct (i - List.length labels) as [|[|n]]; simpl in *; try congruence.
      injection H as <-. now rewrite String.eqb_refl.
Qed.

Lemma set_cell_length (labels : list string) (c : string) (v : cell)
      (row : list cell) :
  List.length row = List.length labels ->
  List.length (set_cell labels c v row) = List.length (set_label labels c).
Proof.
  unfold set_cell, set_label. intros H. destruct (mem c labels).
  - rewrite length_map, length_combine. lia.
  - rewrite !length_app. simpl. lia.
Qed.

Lemma set_column_length (labels : list string) (c : string) :
  forall (rs : list (list cell)) (vals : list cell),
    List.length (set_column labels c vals rs) = List.length rs.
Proof.
  induction rs as [|r rs IH]; intros vals; simpl; [reflexivity|].
  now rewrite IH.
Qed.

Lemma set_column_wf (labels : list string) (c : string) :
  forall (rs : list (list cell)) (vals : list cell),
    Forall (fun r => List.length r = List.length labels) rs ->
    Forall (fun r => List.length r = List.length (set_label labels c))
           (set_column labels c vals rs).
Proof.
  induction rs as [|r rs IH]; intros vals H; simpl; [constructor|].
  inversion H; subst. constructor.
  - now apply set_cell_length.
  - now apply IH.
Qed.

Lemma column_set_column_same (labels : list string) (c : string) (i : nat) :
  nth_error (set_label labels c) i = Some c ->
  forall (rs : list (list cell)) (vals : list cell),
    List.length vals = List.length rs ->
    Forall (fun r => List.length r = List.length labels) rs ->
    map (fun r => nth i r None) (set_column labels c vals rs) = vals.
Proof.
  intros Hi. induction rs as [|r rs IH]; intros [|v vals] Hlen H;
    simpl in *; try congruence.
  inversion H; subst. f_equal.
  - apply nth_error_nth.
    rewrite (nth_error_set_cell _ _ _ _ _ _ H2 Hi). now rewrite String.eqb_refl.
  - apply IH; [lia | assumption].
Qed.

Lemma column_set_column_other (labels : list string) (c l : string) (i : nat) :
  nth_error (set_label labels c) i = Some l ->
  l <> c ->
  forall (rs : list (list cell)) (vals : list cell),
    Forall (fun r => List.length r = List.length labels) rs ->
    map (fun r => nth i r None) (set_column labels c vals rs)
    = map (fun r => nth i r None) rs.
Proof.
  intros Hi Hne. induction rs as [|r rs IH]; intros vals H; simpl;
    [reflexivity|].
  inversion H; subst. f_equal.
  - apply nth_error_nth.
    rewrite (nth_error_set_cell _ _ _ _ _ _ H2 Hi).
    destruct (String.eqb_spec l c); [contradiction | reflexivity].
  - now apply IH.
Qed.

Lemma setitem_rows (df : DataFrame) (c : string) (vals : list cell) :
  List.length vals = shape0 df ->
  setitem df c vals
  = mkDF (set_label (columns df) c) (set_column (columns df) c vals (rows df)).
Proof.
  unfold setitem, shape0. destruct (rows df) as [|r rs]; [|reflexivity].
  destruct vals; [reflexivity | discriminate].
Qed.

Lemma wf_setitem (df : DataFrame) (c : string) (vals : list cell) :
  wf df -> wf (setitem df c vals).
Proof.
  unfold wf, setitem. simpl. intros H. apply set_column_wf.
  destruct (rows df); [|assumption].
  apply Forall_forall. intros r Hr. apply in_map_iff in Hr as [x [<- _]].
  apply repeat_length.
Qed.

Lemma shape0_setitem (df : DataFrame) (c : string) (vals : list cell) :
  List.length vals = shape0 df -> shape0 (setitem df c vals) = shape0 df.
Proof.
  intros H. rewrite setitem_rows by assumption. unfold shape0. simpl.
  apply set_column_length.
Qed.

Lemma col_setitem_same (df : DataFrame) (c : string) (vals : list cell) :
  wf df -> List.length vals = shape0 df -> col c (setitem df c vals) = vals.
Proof.
  intros Hwf Hlen. rewrite setitem_rows by assumption.
  unfold col, column_at. simpl.
  apply column_set_column_same; try assumption.
  apply index_of_nth_error, set_label_In.
Qed.

Lemma col_setitem_other (df : DataFrame) (c c' : string) (vals : list cell) :
  wf df -> List.length vals = shape0 df -> In c' (columns df) -> c' <> c ->
  col c' (setitem df c vals) = col c' df.
Proof.
  intros Hwf Hlen Hin Hne. rewrite setitem_rows by assumption.
  unfold col, column_at. simpl.
  rewrite (index_of_set_label_other _ c _ Hin).
  apply column_set_column_other with (l := c'); try assumption.
  rewrite <- (index_of_set_label_other _ c _ Hin).
  apply index_of_nth_error. now apply set_label_In_other.
Qed.

Lemma col_length (c : string) (df : DataFrame) :
  List.length (col c df) = shape0 df.
Proof. unfold col, column_at, shape0. apply length_map. Qed.

Lemma getitem_col (df : DataFrame) (c : string) :
  count c (columns df) = 1 -> getitem df c = Ok (Series (col c df)).
Proof. unfold getitem, col. now intros ->. Qed.

Lemma str_col (df : DataFrame) (c : string) :
  count c (columns df) = 1 -> str df c = Ok (col c df).
Proof. unfold str. intros H. now rewrite getitem_col. Qed.

Lemma unique_count_one (l : list string) (c : string) :
  is_unique l = true -> In c l -> count c l = 1.
Proof.
  intros Hu Hi. apply count_pos in Hi.
  pose proof (is_unique_count _ Hu c). lia.
Qed.

Lemma set_column_cells_under (labels : list string) (c c' : string) (v : cell) :
  c' <> c ->
  forall (rs : list (list cell)) (vals : list cell),
    Forall (fun r => List.length r = List.length labels) rs ->
    Forall (fun r => forall i, nth_error labels i = Some c' ->
                               nth_error r i = Some v) rs ->
    Forall (fun r => forall i, nth_error (set_label labels c) i = Some c' ->
                               nth_error r i = Some v)
           (set_column labels c vals rs).
Proof.
  intros Hne. induction rs as [|r rs IH]; intros vals Hwf H; simpl;
    [constructor|].
  inversion Hwf; subst. inversion H; subst. constructor.
  - intros i Hi. rewrite (nth_error_set_cell _ _ _ _ _ _ H2 Hi).
    destruct (String.eqb_spec c' c); [contradiction|].
    apply nth_error_set_label_other in Hi; [|assumption].
    apply H4 in Hi. apply nth_error_nth with (d := None) in Hi. now rewrite Hi.
  - now apply IH.
Qed.

Lemma cells_under_setitem_other (df : DataFrame) (c c' : string) (v : cell)
      (vals : list cell) :
  wf df -> List.length vals = shape0 df -> c' <> c ->
  cells_under c' v df -> cells_under c' v (setitem df c vals).
Proof.
  intros Hwf Hlen Hne H. rewrite setitem_rows by assumption.
  unfold cells_under. simpl. now apply set_column_cells_under.
Qed.

Lemma setitem_scalar_setitem (df : DataFrame) (c : string) (v : cell) :
  setitem_scalar df c v = setitem df c (repeat v (shape0 df)).
Proof.
  rewrite setitem_rows by apply repeat_length.
  unfold setitem_scalar, shape0. f_equal.
  induction (rows df) as [|r rs IH]; simpl; [reflexivity|]. now rewrite IH.
Qed.

Lemma wf_setitem_scalar (df : DataFrame) (c : string) (v : cell) :
  wf df -> wf (setitem_scalar df c v).
Proof. rewrite setitem_scalar_setitem. apply wf_setitem. Qed.

Lemma cells_under_setitem_scalar (df : DataFrame) (c : string) (v : cell) :
  wf df -> cells_under c v (setitem_scalar df c v).
Proof.
  unfold wf, cells_under, setitem_scalar. simpl. intros H.
  apply Forall_forall. intros r Hr. apply in_map_iff in Hr as [r0 [<- Hr0]].
  rewrite Forall_forall in H. specialize (H _ Hr0).
  intros i Hi. rewrite (nth_error_set_cell _ _ _ _ _ _ H Hi).
  now rewrite String.eqb_refl.
Qed.

End Frames.

(** ** Tables *)

Section Tables.

Import pd Props.

Lemma wfb_wf (df : DataFrame) : wfb df = true <-> wf df.
Proof.
  unfold wfb, wf. rewrite forallb_forall, Forall_forall.
  split; intros H r Hr; specialize (H r Hr); now apply Nat.eqb_eq.
Qed.

Lemma table_spec (df : DataFrame) :
  table df = true <-> wf df /\ is_unique (columns df) = true.
Proof. unfold table. now rewrite andb_true_iff, wfb_wf. Qed.

Lemma set_label_mem (labels : list string) (c : string) :
  In c labels -> set_label labels c = labels.
Proof. intros H. unfold set_label. apply mem_In in H. now rewrite H. Qed.

(** What [df[c] = vals] does to a table. *)
Lemma setitem_table (df : DataFrame) (c : string) (vals : list cell) :
  table df = true -> List.length vals = shape0 df ->
  table (setitem df c vals) = true
  /\ shape0 (setitem df c vals) = shape0 df
  /\ columns (setitem df c vals) = set_label (columns df) c
  /\ In c (columns (setitem df c vals))
  /\ col c (setitem df c vals) = vals
  /\ (forall c', In c' (columns df) -> c' <> c ->
                 In c' (columns (setitem df c vals))
                 /\ col c' (setitem df c vals) = col c' df).
Proof.
  intros Ht Hlen. apply table_spec in Ht as [Hwf Hu].
  assert (Hc : columns (setitem df c vals) = set_label (columns df) c)
    by reflexivity.
  repeat split.
  - apply table_spec. split; [now apply wf_setitem|].
    rewrite Hc. now apply set_label_unique.
  - now apply shape0_setitem.
  - rewrite Hc. apply set_label_In.
  - now apply col_setitem_same.
  - rewrite Hc. now apply set_label_In_other.
  - now apply col_setitem_other.
Qed.

Lemma table_count (df : DataFrame) (c : string) :
  table df = true -> In c (columns df) -> count c (columns df) = 1.
Proof.
  intros Ht Hin. apply table_spec in Ht as [_ Hu]. now apply unique_count_one.
Qed.

Lemma table_str (df : DataFrame) (c : string) :
  table df = true -> In c (columns df) -> str df c = Ok (col c df).
Proof. intros Ht Hin. apply str_col. now apply table_count. Qed.

Lemma table_getitem (df : DataFrame) (c : string) :
  table df = true -> In c (columns df) -> getitem df c = Ok (Series (col c df)).
Proof. intros Ht Hin. apply getitem_col. now apply table_count. Qed.

Lemma getitem_absent (df : DataFrame) (c : string) :
  ~ In c (columns df) -> getitem df c = Raise (KeyError c).
Proof. intros H. apply count_zero in H. unfold getitem. now rewrite H. Qed.

Lemma Y_N_twice (x : cell) :
  (fun y => if cell_eqb y (Some "no") then Some "N" else y)
    (if cell_eqb x (Some "yes") then Some "Y" else x)
  = Y_N x.
Proof.
  unfold Y_N. destruct (cell_eqb x (Some "yes")) eqn:E; [reflexivity|].
  reflexivity.
Qed.

(** Lines 140-141 (and 143-144) on a table that has the column. *)
Lemma yes_no_to_Y_N_table (df : DataFrame) (c : string) :
  table df = true -> In c (columns df) ->
  exists df',
    etl.yes_no_to_Y_N df c = Ok df'
    /\ table df' = true
    /\ columns df' = columns df
    /\ col c df' = map Y_N (col c df)
    /\ (forall c', In c' (columns df) -> c' <> c -> col c' df' = col c' df).
Proof.
  intros Ht Hin. unfold etl.yes_no_to_Y_N, loc_replace.
  rewrite (table_getitem _ _ Ht Hin). cbn [bind].
  set (v1 := map _ (col c df)).
  assert (L1 : List.length v1 = shape0 df).
  { unfold v1. now rewrite length_map, col_length. }
  destruct (setitem_table df c v1 Ht L1) as (Ht1 & Hs1 & Hc1 & Hi1 & Hv1 & Ho1).
  rewrite (table_getitem _ _ Ht1 Hi1). cbn [bind]. rewrite Hv1.
  set (v2 := map _ v1).
  assert (L2 : List.length v2 = shape0 (setitem df c v1)).
  { unfold v2. rewrite length_map. congruence. }
  destruct (setitem_table _ c v2 Ht1 L2) as (Ht2 & Hs2 & Hc2 & Hi2 & Hv2 & Ho2).
  eexists. split; [reflexivity|]. repeat split.
  - exact Ht2.
  - rewrite Hc2, Hc1. rewrite (set_label_mem _ _ Hin). now apply set_label_mem.
  - rewrite Hv2. unfold v2, v1. rewrite map_map. apply map_ext. intros x.
    apply Y_N_twice.
  - intros c' Hc' Hne. destruct (Ho1 c' Hc' Hne) as [Hi' He'].
    destruct (Ho2 c' Hi' Hne) as [_ He2]. congruence.
Qed.

End Tables.

(** ** Splitting a column *)

Section Splitting.

Import pd Props.

Lemma nth_pad (p : list cell) (k j : nat) :
  nth j (p ++ repeat None k) None = nth j p None.
Proof.
  destruct (Nat.lt_ge_cases j (List.length p)) as [Hlt|Hge].
  - now apply app_nth1.
  - rewrite app_nth2 by assumption. rewrite (nth_overflow p) by assumption.
    apply nth_repeat.
Qed.

Lemma ecolumn_part (sep : string) (vals : list cell) (j : nat) :
  ecolumn j (str_split_expand sep vals) = map (part sep j) vals.
Proof.
  unfold ecolumn, str_split_expand. cbn [erows]. rewrite !map_map.
  apply map_ext. intros x. unfold part. apply nth_pad.
Qed.

Lemma erows_length (sep : string) (vals : list cell) :
  List.length (erows (str_split_expand sep vals)) = List.length vals.
Proof. unfold str_split_expand. cbn [erows]. now rewrite !length_map. Qed.

Lemma width_longest (sep : string) (vals : list cell) :
  width (str_split_expand sep vals) = longest sep vals.
Proof. unfold str_split_expand, longest. cbn [width]. now rewrite map_map. Qed.

Lemma ecolumn_length (j : nat) (e : Expanded) :
  List.length (ecolumn j e) = List.length (erows e).
Proof. unfold ecolumn. apply length_map. Qed.

(** Two columns assigned one after the other. *)
Lemma setitem2_table (df : DataFrame) (k1 k2 : string) (a b : list cell) :
  table df = true -> List.length a = shape0 df -> List.length b = shape0 df ->
  k1 <> k2 ->
  table (setitem (setitem df k1 a) k2 b) = true
  /\ shape0 (setitem (setitem df k1 a) k2 b) = shape0 df
  /\ col k1 (setitem (setitem df k1 a) k2 b) = a
  /\ col k2 (setitem (setitem df k1 a) k2 b) = b
  /\ (forall c', In c' (columns df) -> c' <> k1 -> c' <> k2 ->
                 In c' (columns (setitem (setitem df k1 a) k2 b))
                 /\ col c' (setitem (setitem df k1 a) k2 b) = col c' df).
Proof.
  intros Ht La Lb Hne.
  destruct (setitem_table df k1 a Ht La) as (Ht1 & Hs1 & Hc1 & Hi1 & Hv1 & Ho1).
  assert (Lb' : List.length b = shape0 (setitem df k1 a)) by congruence.
  destruct (setitem_table _ k2 b Ht1 Lb') as (Ht2 & Hs2 & Hc2 & Hi2 & Hv2 & Ho2).
  repeat split; try assumption.
  - congruence.
  - destruct (Ho2 k1 Hi1 Hne) as [_ E]. congruence.
  - destruct (Ho1 c' H H0) as [Hi' _]. now destruct (Ho2 c' Hi' H1).
  - destruct (Ho1 c' H H0) as [Hi' E1]. destruct (Ho2 c' Hi' H1) as [_ E2].
    congruence.
Qed.

(** [df[[k1, k2]] = frame] on a table: exactly two columns are accepted. *)
Lemma setitem_frame_pair (df : DataFrame) (k1 k2 : string) (e : Expanded) :
  table df = true ->
  setitem_frame df [k1; k2] e
  = if width e =? 2
    then Ok (setitem (setitem df k1 (ecolumn 0 e)) k2 (ecolumn 1 e))
    else Raise length_error.
Proof.
  intros Ht. apply table_spec in Ht as [_ Hu].
  unfold setitem_frame, check_key_length. rewrite Hu. cbn [List.length].
  destruct (Nat.eqb_spec 2 (width e)) as [E|E].
  - rewrite <- E. reflexivity.
  - destruct (Nat.eqb_spec (width e) 2); [congruence | reflexivity].
Qed.

Lemma split_lat_lon_table (df : DataFrame) :
  table df = true -> In "lat_lon" (columns df) ->
  etl.split_lat_lon df
  = if longest " " (col "lat_lon" df) =? 2
    then Ok (setitem (setitem df "latitude" (map (part " " 0) (col "lat_lon" df)))
                     "longitude" (map (part " " 1) (col "lat_lon" df)))
    else Raise length_error.
Proof.
  intros Ht Hin. unfold etl.split_lat_lon.
  apply mem_In in Hin as Hm. rewrite Hm.
  rewrite (table_str _ _ Ht Hin). cbn [bind].
  rewrite (setitem_frame_pair _ _ _ _ Ht), width_longest, !ecolumn_part.
  reflexivity.
Qed.

Lemma split_depth_table (df : DataFrame) :
  table df = true -> In "depth" (columns df) ->
  let depth := map (str_replace "-" " - ") (col "depth" df) in
  let df1 := setitem df "depth" depth in
  etl.split_depth df
  = if shape0 df =? 1
    then Ok (setitem_scalar
               (setitem_scalar df1 "minimum_depth" (hd None (map (part " - " 0) depth)))
               "maximum_depth" (hd None (map (part " - " 0) depth)))
    else if longest " - " depth =? 2
         then Ok (setitem (setitem df1 "minimum_depth" (map (part " - " 0) depth))
                          "maximum_depth" (map (part " - " 1) depth))
         else Raise length_error.
Proof.
  intros Ht Hin depth df1. unfold etl.split_depth.
  apply mem_In in Hin as Hm. rewrite Hm.
  rewrite (table_str _ _ Ht Hin). cbn [bind]. fold depth. fold df1.
  assert (Ld : List.length depth = shape0 df).
  { unfold depth. now rewrite length_map, col_length. }
  destruct (setitem_table df "depth" depth Ht Ld)
    as (Ht1 & Hs1 & Hc1 & Hi1 & Hv1 & Ho1). fold df1 in Ht1, Hs1, Hc1, Hi1, Hv1.
  rewrite (table_str _ _ Ht1 Hi1). cbn [bind]. rewrite Hv1.
  rewrite erows_length, Ld.
  destruct (shape0 df =? 1) eqn:E1.
  - rewrite ecolumn_part.
    apply Nat.eqb_eq in E1.
    assert (L1 : List.length (map (part " - " 0) depth) = 1)
      by (rewrite length_map; congruence).
    unfold setitem_list1.
    apply table_spec in Ht1 as Ht1'. destruct Ht1' as [Hw1 Hu1]. rewrite Hu1, L1.
    cbn [Nat.eqb bind].
    assert (Hu2 : is_unique (columns (setitem_scalar df1 "minimum_depth"
                     (hd None (map (part " - " 0) depth)))) = true).
    { cbn [columns setitem_scalar]. now apply set_label_unique. }
    rewrite Hu2. reflexivity.
  - rewrite (setitem_frame_pair _ _ _ _ Ht1), width_longest, !ecolumn_part.
    reflexivity.
Qed.

End Splitting.

(** ** Collection dates *)

Section Dates.

Import pd Props.

Lemma mapM_length {A B : Type} (f : A -> result B) :
  forall (l : list A) (l' : list B),
    mapM f l = Ok l' -> List.length l' = List.length l.
Proof.
  induction l as [|x l IH]; intros l' H; simpl in H.
  - injection H as <-. reflexivity.
  - destruct (f x) as [y|e]; simpl in H; [|discriminate].
    destruct (mapM f l) as [ys|e]; simpl in H; [|discriminate].
    injection H as <-. simpl. f_equal. now apply IH.
Qed.

Lemma split_collection_date_table (df : DataFrame) :
  table df = true -> In "collection_date" (columns df) ->
  let dates := col "collection_date" df in
  let df3 :=
    setitem
      (setitem
         (setitem df "collection_year" (map (str_split_get "-" 0) dates))
         "collection_month" (map (str_split_get "-" 1) dates))
      "collection_day" (map (str_split_get "-" 2) dates) in
  etl.split_collection_date df
  = (names <- mapM etl.month_name_of (map (str_split_get "-" 1) dates) ;;
     Ok (setitem df3 "collection_month_name" names))
  /\ table df3 = true
  /\ shape0 df3 = shape0 df
  /\ col "collection_year" df3 = map (str_split_get "-" 0) dates
  /\ col "collection_month" df3 = map (str_split_get "-" 1) dates
  /\ col "collection_day" df3 = map (str_split_get "-" 2) dates
  /\ In "collection_year" (columns df3)
  /\ In "collection_month" (columns df3)
  /\ In "collection_day" (columns df3).
Proof.
  intros Ht Hin dates df3.
  assert (Ly : forall j, List.length (map (str_split_get "-" j) dates) = shape0 df).
  { intros j. unfold dates. now rewrite length_map, col_length. }
  destruct (setitem_table df "collection_year" _ Ht (Ly 0))
    as (Ht1 & Hs1 & Hc1 & Hi1 & Hv1 & Ho1).
  destruct (Ho1 "collection_date" Hin ltac:(discriminate)) as [Hd1 Hcd1].
  set (df1 := setitem df "collection_year" _) in *.
  assert (Lm : List.length (map (str_split_get "-" 1) dates) = shape0 df1)
    by (rewrite Hs1; apply Ly).
  destruct (setitem_table df1 "collection_month" _ Ht1 Lm)
    as (Ht2 & Hs2 & Hc2 & Hi2 & Hv2 & Ho2).
  destruct (Ho2 "collection_date" Hd1 ltac:(discriminate)) as [Hd2 Hcd2].
  destruct (Ho2 "collection_year" Hi1 ltac:(discriminate)) as [Hy2 Hcy2].
  set (df2 := setitem df1 "collection_month" _) in *.
  assert (Lday : List.length (map (str_split_get "-" 2) dates) = shape0 df2)
    by (rewrite Hs2, Hs1; apply Ly).
  destruct (setitem_table df2 "collection_day" _ Ht2 Lday)
    as (Ht3 & Hs3 & Hc3 & Hi3 & Hv3 & Ho3).
  destruct (Ho3 "collection_year" Hy2 ltac:(discriminate)) as [Hy3 Hcy3].
  destruct (Ho3 "collection_month" Hi2 ltac:(discriminate)) as [Hm3 Hcm3].
  fold df3 in Ht3, Hs3, Hc3, Hi3, Hv3, Hy3, Hcy3, Hm3, Hcm3.
  repeat split; try assumption; try congruence.
  unfold etl.split_collection_date.
  apply mem_In in Hin as Hm. rewrite Hm.
  rewrite (table_str _ _ Ht Hin). cbn [bind]. fold dates. fold df1.
  rewrite (table_str _ _ Ht1 Hd1). cbn [bind]. rewrite Hcd1. fold dates. fold df2.
  rewrite (table_str _ _ Ht2 Hd2). cbn [bind]. rewrite Hcd2, Hcd1. fold dates.
  fold df3.
  rewrite (table_getitem _ _ Ht3 Hm3). cbn [bind]. rewrite Hcm3, Hv2.
  reflexivity.
Qed.

End Dates.

(** ** Properties of the retriever *)

Section Retriever.

Import pd etl Props.

(** C1.  When the facility group the selector resolves to is absent from
    [sampleData], or its record list is empty (and likewise when the selector
    resolves to no group), [retrieve_metadata_records] raises the error of
    line 80 and returns no table. *)
Theorem C1_missing_facility_group_raises
        (self : MetadataRetriever) (p : Portal) (unique_field : string)
        (sd : list (string * list record)) :
  is_ok (authenticate p) = true ->
  sampleData p = Some sd ->
  (forall group,
      dict_get USER_FACILITY_DICT (user_facility self) = Some group ->
      dict_get sd group = None \/ dict_get sd group = Some []) ->
  retrieve_metadata_records self p unique_field
  = Raise (missing_facility_data self)
  /\ forall df, retrieve_metadata_records self p unique_field <> Ok df.
Proof.
  intros Hauth Hsd Hgroup.
  assert (E : retrieve_metadata_records self p unique_field
              = Raise (missing_facility_data self)).
  { unfold retrieve_metadata_records.
    destruct (authenticate p) as [token|e]; [|discriminate]. cbn [bind].
    unfold load_common_df, response_sampleData. rewrite Hsd.
    destruct (dict_get USER_FACILITY_DICT (user_facility self)) as [group|] eqn:G;
      cbn [bind]; [|reflexivity].
    unfold group_frame.
    destruct (Hgroup group eq_refl) as [-> | ->]; reflexivity. }
  split; [exact E|]. intros df. rewrite E. discriminate.
Qed.

Lemma C1_missing_facility_group_raises_witness :
  retrieve_metadata_records Samples.emsl (Samples.serving Samples.no_emsl_records)
                            "samp_name"
  = Raise (ValueError "No key emsl exists in submission metadata record sub-1")
  /\ forall df,
      retrieve_metadata_records Samples.emsl
                                (Samples.serving Samples.no_emsl_records)
                                "samp_name" <> Ok df.
Proof.
  apply (C1_missing_facility_group_raises
           Samples.emsl (Samples.serving Samples.no_emsl_records) "samp_name"
           Samples.no_emsl_records).
  - reflexivity.
  - reflexivity.
  - intros group H. injection H as <-. right. reflexivity.
Defined.

(** C9.  The unique-field argument does not influence the result: with the
    same retriever and the same portal responses, any two values of it give
    the same outcome of [retrieve_metadata_records], hence of the whole
    command; the join key is the literal [samp_name]. *)
Theorem C9_unique_field_ignored
        (self : MetadataRetriever) (p : Portal) (unique_field1 unique_field2 : string) :
  retrieve_metadata_records self p unique_field1
  = retrieve_metadata_records self p unique_field2
  /\ forall header json_mapper,
      cli (metadata_submission_id self) (user_facility self) header json_mapper
          unique_field1 p
      = cli (metadata_submission_id self) (user_facility self) header json_mapper
            unique_field2 p.
Proof.
  split.
  - unfold retrieve_metadata_records. reflexivity.
  - intros header json_mapper. unfold cli, retrieve_metadata_records.
    reflexivity.
Qed.

(** C5, as the code has it.  On a table with a [lat_lon] column every value
    is split on each space.  When the longest split among the rows has two
    parts, [latitude] and [longitude] receive the first and second part of
    each row, a row with fewer parts getting a missing value; otherwise the
    assignment raises [ValueError]. *)
Theorem C5_lat_lon_split (df : DataFrame) :
  table df = true ->
  In "lat_lon" (columns df) ->
  (longest " " (col "lat_lon" df) = 2 ->
   exists df',
     split_lat_lon df = Ok df'
     /\ col "latitude" df' = map (part " " 0) (col "lat_lon" df)
     /\ col "longitude" df' = map (part " " 1) (col "lat_lon" df))
  /\ (longest " " (col "lat_lon" df) <> 2 ->
      split_lat_lon df = Raise length_error)
  /\ part " " 0 (Some "12.3 -45.6") = Some "12.3"
  /\ part " " 1 (Some "12.3 -45.6") = Some "-45.6".
Proof.
  intros Ht Hin. rewrite (split_lat_lon_table _ Ht Hin).
  repeat split.
  - intros E. rewrite E. cbn [Nat.eqb]. eexists. split; [reflexivity|].
    assert (L : forall j, List.length (map (part " " j) (col "lat_lon" df))
                          = shape0 df).
    { intros j. now rewrite length_map, col_length. }
    destruct (setitem2_table df "latitude" "longitude" _ _ Ht (L 0) (L 1)
                             ltac:(discriminate))
      as (_ & _ & Ha & Hb & _).
    now split.
  - intros E. destruct (Nat.eqb_spec (longest " " (col "lat_lon" df)) 2);
      [contradiction | reflexivity].
Qed.

Lemma C5_lat_lon_split_witness :
  exists df',
    split_lat_lon Samples.lat_lon_pair = Ok df'
    /\ col "latitude" df' = [Some "12.3"; Some "7.5"]
    /\ col "longitude" df' = [Some "-45.6"; Some "8.25"].
Proof.
  destruct (C5_lat_lon_split Samples.lat_lon_pair) as [H _].
  - reflexivity.
  - right. left. reflexivity.
  - apply H. reflexivity.
Defined.

(** C5 as claimed fails: a value with fewer than two parts is no error when
    another row has two; the short row gets a missing longitude. *)
Lemma C5_short_value_is_no_error :
  List.length (PyStr.split " " "12.3") < 2
  /\ retrieve_metadata_records Samples.emsl (Samples.serving Samples.lat_lon_short)
                               "samp_name"
     = Ok (mkDF ["samp_name"; "lat_lon"; "latitude"; "longitude"]
                [[Some "s1"; Some "12.3 -45.6"; Some "12.3"; Some "-45.6"];
                 [Some "s2"; Some "12.3"; Some "12.3"; None]]).
Proof. split; [vm_compute; lia | reflexivity]. Qed.

(** What lines 112-123 compute on a table with a [depth] column.  Every
    value has [" - "] written for each hyphen and is split on [" - "].  The
    dispatch is on the number of rows: with exactly one row the first part
    of the split goes to both [minimum_depth] and [maximum_depth]; with
    more rows parts 0 and 1 are assigned when the longest split has two
    parts, and the assignment fails otherwise. *)
Lemma split_depth_by_rows (df : DataFrame) :
  table df = true ->
  In "depth" (columns df) ->
  (shape0 df = 1 ->
   exists df',
     split_depth df = Ok df'
     /\ col "depth" df' = map (str_replace "-" " - ") (col "depth" df)
     /\ col "minimum_depth" df'
        = map (part " - " 0) (map (str_replace "-" " - ") (col "depth" df))
     /\ col "maximum_depth" df'
        = map (part " - " 0) (map (str_replace "-" " - ") (col "depth" df)))
  /\ (1 < shape0 df ->
      longest " - " (map (str_replace "-" " - ") (col "depth" df)) = 2 ->
      exists df',
        split_depth df = Ok df'
        /\ col "depth" df' = map (str_replace "-" " - ") (col "depth" df)
        /\ col "minimum_depth" df'
           = map (part " - " 0) (map (str_replace "-" " - ") (col "depth" df))
        /\ col "maximum_depth" df'
           = map (part " - " 1) (map (str_replace "-" " - ") (col "depth" df)))
  /\ (1 < shape0 df ->
      longest " - " (map (str_replace "-" " - ") (col "depth" df)) <> 2 ->
      split_depth df = Raise length_error)
  /\ str_replace "-" " - " (Some "0-10") = Some "0 - 10"
  /\ part " - " 0 (Some "0 - 10") = Some "0"
  /\ part " - " 1 (Some "0 - 10") = Some "10".
Proof.
  intros Ht Hin. rewrite (split_depth_table _ Ht Hin).
  set (depth := map (str_replace "-" " - ") (col "depth" df)).
  assert (Ld : List.length depth = shape0 df).
  { unfold depth. now rewrite length_map, col_length. }
  destruct (setitem_table df "depth" depth Ht Ld)
    as (Ht1 & Hs1 & Hc1 & Hi1 & Hv1 & Ho1).
  set (df1 := setitem df "depth" depth) in *.
  repeat split; try reflexivity.
  - intros E. rewrite E. cbn [Nat.eqb]. eexists. split; [reflexivity|].
    rewrite !setitem_scalar_setitem.
    set (h := hd None (map (part " - " 0) depth)).
    assert (La : List.length (repeat h (shape0 df1)) = shape0 df1)
      by apply repeat_length.
    assert (Lb : List.length
                   (repeat h (shape0 (setitem df1 "minimum_depth"
                                              (repeat h (shape0 df1)))))
                 = shape0 df1).
    { rewrite repeat_length. now apply shape0_setitem. }
    destruct (setitem2_table df1 "minimum_depth" "maximum_depth" _ _ Ht1 La Lb
                             ltac:(discriminate))
      as (_ & Hs & Ha & Hb & Ho).
    destruct (Ho "depth" Hi1 ltac:(discriminate) ltac:(discriminate)) as [_ Hd].
    assert (Hh : repeat h (shape0 df1) = map (part " - " 0) depth).
    { rewrite Hs1, <- Ld. unfold h. rewrite <- Ld in E.
      destruct depth as [|d [|d' depth']]; try discriminate. reflexivity. }
    repeat split.
    + now rewrite Hd.
    + now rewrite Ha.
    + rewrite Hb. rewrite shape0_setitem by assumption. assumption.
  - intros Hrows E.
    destruct (Nat.eqb_spec (shape0 df) 1) as [E1|_]; [lia|].
    fold depth in E. rewrite E. cbn [Nat.eqb]. eexists. split; [reflexivity|].
    assert (L : forall j, List.length (map (part " - " j) depth) = shape0 df1).
    { intros j. rewrite length_map. congruence. }
    destruct (setitem2_table df1 "minimum_depth" "maximum_depth" _ _ Ht1
                             (L 0) (L 1) ltac:(discriminate))
      as (_ & _ & Ha & Hb & Ho).
    destruct (Ho "depth" Hi1 ltac:(discriminate) ltac:(discriminate)) as [_ Hd].
    repeat split; congruence.
  - intros Hrows E.
    destruct (Nat.eqb_spec (shape0 df) 1) as [E1|_]; [lia|].
    fold depth in E.
    destruct (Nat.eqb_spec (longest " - " depth) 2); [contradiction | reflexivity].
Qed.

Example split_depth_by_rows_ranges :
  (exists df',
      split_depth Samples.depth_one_row = Ok df'
      /\ col "depth" df' = [Some "0 - 10"]
      /\ col "minimum_depth" df' = [Some "0"]
      /\ col "maximum_depth" df' = [Some "0"])
  /\ (exists df',
         split_depth Samples.depth_two_rows = Ok df'
         /\ col "depth" df' = [Some "0 - 10"; Some "5 - 7"]
         /\ col "minimum_depth" df' = [Some "0"; Some "5"]
         /\ col "maximum_depth" df' = [Some "10"; Some "7"]).
Proof.
  split.
  - destruct (split_depth_by_rows Samples.depth_one_row) as [H _].
    + reflexivity.
    + right. left. reflexivity.
    + apply H. reflexivity.
  - destruct (split_depth_by_rows Samples.depth_two_rows) as (_ & H & _).
    + reflexivity.
    + right. left. reflexivity.
    + apply H; [vm_compute; lia | reflexivity].
Qed.

(** C8.  For the facility [jgi_mg] every [dna_dnase] value ["yes"] becomes
    ["Y"], ["no"] becomes ["N"] and any other value stays, the other columns
    being untouched; for [jgi_mt] the same holds of [dnase_rna].  When the
    column is absent the facility's rewrite raises [KeyError]. *)
Theorem C8_dnase_normalization (self : MetadataRetriever) (df : DataFrame) (c : string) :
  table df = true ->
  (user_facility self = "jgi_mg" /\ c = "dna_dnase")
  \/ (user_facility self = "jgi_mt" /\ c = "dnase_rna") ->
  (In c (columns df) ->
   exists df',
     normalize_dnase self df = Ok df'
     /\ columns df' = columns df
     /\ col c df' = map Y_N (col c df)
     /\ (forall c', In c' (columns df) -> c' <> c -> col c' df' = col c' df))
  /\ (~ In c (columns df) -> normalize_dnase self df = Raise (KeyError c))
  /\ Y_N (Some "yes") = Some "Y"
  /\ Y_N (Some "no") = Some "N"
  /\ (forall v, v <> Some "yes" -> v <> Some "no" -> Y_N v = v).
Proof.
  intros Ht Hfac. repeat split; try reflexivity.
  - intros Hin.
    destruct (yes_no_to_Y_N_table df c Ht Hin) as (df' & E & _ & Hc & Hv & Ho).
    exists df'. unfold normalize_dnase.
    destruct Hfac as [[-> ->] | [-> ->]]; cbn [String.eqb Ascii.eqb Bool.eqb bind];
      rewrite E; cbn [bind]; repeat split; assumption.
  - intros Hn. unfold normalize_dnase, yes_no_to_Y_N, loc_replace.
    destruct Hfac as [[-> ->] | [-> ->]]; cbn [String.eqb Ascii.eqb Bool.eqb bind];
      rewrite (getitem_absent _ _ Hn); reflexivity.
  - intros v Hy Hn. unfold Y_N.
    destruct v as [s|]; cbn [cell_eqb]; [|reflexivity].
    destruct (String.eqb_spec s "yes") as [->|_]; [congruence|].
    destruct (String.eqb_spec s "no") as [->|_]; [congruence | reflexivity].
Qed.

Lemma C8_dnase_normalization_witness :
  (exists df',
      normalize_dnase Samples.jgi_mg Samples.dnase = Ok df'
      /\ col "dna_dnase" df' = [Some "Y"; Some "N"; Some "unknown"]
      /\ col "dnase_rna" df' = [Some "no"; Some "yes"; None])
  /\ normalize_dnase Samples.jgi_mt Samples.dated = Raise (KeyError "dnase_rna").
Proof.
  split.
  - destruct (C8_dnase_normalization Samples.jgi_mg Samples.dnase "dna_dnase")
      as [H _].
    + reflexivity.
    + left. split; reflexivity.
    + destruct H as (df' & E & _ & Hv & Ho).
      * right. left. reflexivity.
      * exists df'. split; [exact E|]. split; [exact Hv|].
        apply (Ho "dnase_rna"); [right; right; left; reflexivity | discriminate].
  - destruct (C8_dnase_normalization Samples.jgi_mt Samples.dated "dnase_rna")
      as (_ & H & _).
    + reflexivity.
    + right. split; reflexivity.
    + apply H. intros [E|[E|[]]]; discriminate.
Defined.

End Retriever.

(** ** Properties of the spreadsheet creator *)

Section Creator.

Import pd etl Props.

Lemma set_column_first (c : string) (vals : list cell) :
  set_column [] c vals
             (map (fun _ => repeat None (List.length (@nil string))) vals)
  = map (fun v => [v]) vals.
Proof.
  induction vals as [|v vals IH]; [reflexivity|].
  cbn [map set_column hd tl]. rewrite IH. reflexivity.
Qed.

(** The first column written into the empty frame of line 205. *)
Lemma setitem_empty_frame (c : string) (vals : list cell) :
  setitem empty_frame c vals = mkDF [c] (map (fun v => [v]) vals).
Proof.
  unfold setitem, empty_frame. cbn [rows columns].
  now rewrite set_column_first.
Qed.


(** C2 fails on the code.  [combine_headers_df] builds the header block
    whatever the flag; with the flag off the block is returned as built, so
    the spreadsheet starts with one row per header label.  On the mapper
    with labels [Lab]/[Analyte] under [A] and [Lab1]/[Lab2] under [B], the
    output without the flag has the two label rows above the two data
    rows. *)
Theorem C2_header_rows_without_flag :
  (forall self,
      combine_headers_df self false = of_dict (header_lists (json_mapper self)))
  /\ create_spreadsheet (mkCreator Samples.mapper_level Samples.two_samples) false
     = Ok (mkDF ["A"; "B"]
                [[Some "Lab"; Some "Lab1"];
                 [Some "Analyte"; Some "Lab2"];
                 [Some "s1"; None];
                 [Some "s2"; None]]).
Proof.
  split.
  - intros self. unfold combine_headers_df.
    destruct (of_dict (header_lists (json_mapper self))); reflexivity.
  - reflexivity.
Qed.




End Creator.

(** ** Joins *)

Section Joins.

Import pd etl Props.

Lemma list_ascii_app (x s : string) :
  list_ascii_of_string (x ++ s)
  = list_ascii_of_string x ++ list_ascii_of_string s.
Proof. induction x as [|a x IH]; simpl; [reflexivity | now rewrite IH]. Qed.

Lemma list_ascii_inj (x y : string) :
  list_ascii_of_string x = list_ascii_of_string y -> x = y.
Proof.
  intros H. rewrite <- (string_of_list_ascii_of_string x),
              <- (string_of_list_ascii_of_string y). now rewrite H.
Qed.

Lemma add_suffix_inj (s x y : string) : add_suffix s x = add_suffix s y -> x = y.
Proof.
  unfold add_suffix. intros H. apply list_ascii_inj.
  apply (f_equal list_ascii_of_string) in H. rewrite !list_ascii_app in H.
  now apply app_inv_tail in H.
Qed.

(** No renamed label is [sample_isolated_from]. *)
Lemma add_suffix_x_stamp (x : string) :
  add_suffix "_x" x <> "sample_isolated_from".
Proof.
  unfold add_suffix. intros H. apply (f_equal list_ascii_of_string) in H.
  rewrite list_ascii_app in H. apply (f_equal (@rev ascii)) in H.
  rewrite rev_app_distr in H. simpl in H. discriminate.
Qed.

Lemma length_remove_at {A : Type} (i : nat) (l : list A) :
  List.length (remove_at i l)
  = if i <? List.length l then List.length l - 1 else List.length l.
Proof.
  unfold remove_at. rewrite length_app, length_firstn, length_skipn.
  destruct (Nat.ltb_spec i (List.length l)); lia.
Qed.

Lemma NoDup_remove_at {A : Type} (i : nat) (l : list A) :
  NoDup l -> NoDup (remove_at i l).
Proof.
  unfold remove_at. intros H.
  rewrite <- (firstn_skipn i l) in H.
  destruct (skipn i l) as [|a t] eqn:E.
  - assert (E' : skipn (S i) l = []).
    { apply skipn_all2. apply (f_equal (@List.length A)) in E.
      rewrite length_skipn in E. simpl in E. lia. }
    rewrite E'. now rewrite app_nil_r in *.
  - assert (E' : skipn (S i) l = t).
    { change (S i) with (1 + i). rewrite <- skipn_skipn. now rewrite E. }
    rewrite E'. now apply NoDup_remove_1 in H.
Qed.

Lemma uniq_from_spec (l seen : list string) :
  NoDup (uniq_from seen l)
  /\ forall x, In x (uniq_from seen l) <-> In x l /\ ~ In x seen.
Proof.
  revert seen. induction l as [|a l IH]; intros seen; simpl.
  - split; [constructor | intros x; tauto].
  - destruct (mem a seen) eqn:E.
    + apply mem_In in E. destruct (IH seen) as [Hn Hi]. split; [assumption|].
      intros x. rewrite Hi. split; [tauto|].
      intros [[->|H] Hs]; [contradiction | tauto].
    + apply mem_false in E. destruct (IH (a :: seen)) as [Hn Hi]. split.
      * constructor; [|assumption]. rewrite Hi.
        intros [_ H]. apply H. now left.
      * intros x. simpl. rewrite Hi. simpl. split.
        -- intros [->|[H Hs]].
           ++ split; [now left | assumption].
           ++ split; [now right | tauto].
        -- intros [[->|H] Hs]; [now left|].
           destruct (string_dec a x) as [->|Hne]; [now left|].
           right. split; [assumption|]. intros [->|H']; tauto.
Qed.

Lemma of_records_unique (data : list record) :
  is_unique (columns (of_records data)) = true.
Proof. apply is_unique_NoDup. apply uniq_from_spec. Qed.

Lemma of_records_wf (data : list record) : wf (of_records data).
Proof.
  unfold wf, of_records. cbn [rows columns]. apply Forall_forall.
  intros r Hr. apply in_map_iff in Hr as [x [<- _]]. apply length_map.
Qed.

(** The frame of a record list satisfies the hypothesis [table] of the
    properties below. *)
Lemma of_records_table (data : list record) : table (of_records data) = true.
Proof.
  apply table_spec. split; [apply of_records_wf | apply of_records_unique].
Qed.

(** A join that raises no error, and the labels of its result. *)
Lemma merge_ok (left right : DataFrame) (on : string) :
  count on (columns right) = 1 ->
  count on (columns left) = 1 ->
  is_unique (map (renamed "_x" (shared left right on)) (columns left)) = true ->
  is_unique (map (renamed "_y" (shared left right on)) (right_columns right on))
  = true ->
  exists df,
    merge left right on = Ok df
    /\ columns df
       = map (renamed "_x" (shared left right on)) (columns left)
             ++ map (renamed "_y" (shared left right on)) (right_columns right on).
Proof.
  intros Hr Hl Ux Uy. unfold merge, key_position. rewrite Hr, Hl. cbn [bind].
  unfold suffix_dups.
  fold (right_columns right on). fold (shared left right on).
  change (fun x : string =>
            if mem x (shared left right on) then (x ++ "_x")%string else x)
    with (renamed "_x" (shared left right on)).
  change (fun x : string =>
            if mem x (shared left right on) then (x ++ "_y")%string else x)
    with (renamed "_y" (shared left right on)).
  rewrite Ux, Uy. cbn [app]. eexists. split; reflexivity.
Qed.

(** A join keeps rows well formed and keeps at least one row per row of the
    left frame. *)
Lemma merge_wf (left right : DataFrame) (on : string) (df : DataFrame) :
  wf left -> wf right -> merge left right on = Ok df ->
  wf df /\ (0 < shape0 left -> 0 < shape0 df).
Proof.
  intros Hl Hr. unfold merge, key_position.
  destruct (count on (columns right)) as [|[|n]]; cbn [bind]; try discriminate.
  destruct (count on (columns left)) as [|[|m]]; cbn [bind]; try discriminate.
  destruct (_ ++ _) as [|d ds]; [|discriminate].
  intros H. injection H as <-. unfold wf, shape0. cbn [rows columns]. split.
  - apply Forall_forall. intros row Hrow.
    apply in_flat_map in Hrow as [l [Hin Hrow]].
    unfold wf in Hl, Hr. rewrite Forall_forall in Hl, Hr.
    rewrite length_app, !length_map.
    destruct (filter _ (rows right)) as [|m0 ms] eqn:F.
    + destruct Hrow as [<-|[]]. rewrite length_app, repeat_length.
      now rewrite (Hl _ Hin).
    + assert (Hrow' : exists r, In r (m0 :: ms)
                               /\ row = l ++ remove_at (index_of on (columns right)) r).
      { destruct Hrow as [<-|Hrow].
        - exists m0. split; [now left | reflexivity].
        - apply in_map_iff in Hrow as [r [<- Hr0]]. exists r.
          split; [now right | reflexivity]. }
      destruct Hrow' as [r [Hr0 ->]].
      assert (Hr1 : In r (rows right)).
      { rewrite <- F in Hr0. now apply filter_In in Hr0. }
      rewrite length_app, (Hl _ Hin), !length_remove_at, (Hr _ Hr1).
      reflexivity.
  - destruct (rows left) as [|l ls]; [simpl; lia|]. intros _. cbn [flat_map].
    rewrite length_app.
    destruct (filter _ (rows right)) as [|m0 ms]; simpl; lia.
Qed.

Lemma shape0_setitem_scalar (df : DataFrame) (c : string) (v : cell) :
  shape0 (setitem_scalar df c v) = shape0 df.
Proof. unfold shape0, setitem_scalar. cbn [rows]. apply length_map. Qed.

Lemma stamped_setitem (c c' : string) (v : cell) (df : DataFrame)
      (vals : list cell) :
  stamped c v df -> c' <> c -> List.length vals = shape0 df ->
  stamped c v (setitem df c' vals).
Proof.
  intros (Hw & Hn & Hi & Hc) Hne Hlen. repeat split.
  - now apply wf_setitem.
  - now rewrite shape0_setitem.
  - cbn [columns setitem]. apply set_label_In_other; [congruence | assumption].
  - apply cells_under_setitem_other; try assumption. congruence.
Qed.

Lemma stamped_setitem_scalar (c c' : string) (v w : cell) (df : DataFrame) :
  stamped c v df -> c' <> c -> stamped c v (setitem_scalar df c' w).
Proof.
  intros H Hne. rewrite setitem_scalar_setitem.
  apply stamped_setitem; [assumption | assumption | apply repeat_length].
Qed.

Lemma getitem_length (df : DataFrame) (c : string) (v : list cell) :
  getitem df c = Ok (Series v) -> List.length v = shape0 df.
Proof.
  unfold getitem. destruct (count c (columns df)) as [|[|n]]; try discriminate.
  intros H. injection H as <-. unfold column_at, shape0. apply length_map.
Qed.

Lemma str_length (df : DataFrame) (c : string) (v : list cell) :
  str df c = Ok v -> List.length v = shape0 df.
Proof.
  unfold str. destruct (getitem df c) as [[w|]|e] eqn:E; cbn [bind];
    try discriminate.
  intros H. injection H as <-. now apply getitem_length in E.
Qed.

Lemma stamped_fold_setitem (c : string) (v : cell) (e : Expanded) :
  forall (l : list (string * nat)) (df : DataFrame),
    stamped c v df ->
    List.length (erows e) = shape0 df ->
    (forall kj, In kj l -> fst kj <> c) ->
    stamped c v (fold_left (fun d kj => setitem d (fst kj) (ecolumn (snd kj) e))
                           l df).
Proof.
  induction l as [|kj l IH]; intros df Hs Hlen Hne; cbn [fold_left];
    [assumption|].
  assert (L : List.length (ecolumn (snd kj) e) = shape0 df)
    by (rewrite ecolumn_length; assumption).
  apply IH.
  - apply stamped_setitem; [assumption | apply Hne; now left | assumption].
  - rewrite shape0_setitem; assumption.
  - intros kj' H. apply Hne. now right.
Qed.

Lemma stamped_setitem_frame (c : string) (v : cell) (df df' : DataFrame)
      (key : list string) (e : Expanded) :
  stamped c v df ->
  List.length (erows e) = shape0 df ->
  (forall k, In k key -> k <> c) ->
  setitem_frame df key e = Ok df' ->
  stamped c v df'.
Proof.
  intros Hs Hlen Hne. unfold setitem_frame.
  destruct (check_key_length _ _ _); cbn [bind]; [|discriminate].
  intros H. injection H as <-. apply stamped_fold_setitem; try assumption.
  intros [k j] Hin. apply Hne. now apply in_combine_l in Hin.
Qed.

Lemma set_occurrences_length (c : string) :
  forall (labels : list string) (vals row : list cell),
    List.length (set_occurrences labels c vals row) = List.length row.
Proof.
  induction labels as [|l labels IH]; intros vals [|x row]; cbn [set_occurrences];
    try reflexivity.
  destruct (String.eqb l c); cbn [List.length]; now rewrite IH.
Qed.

Lemma set_occurrences_other (c l : string) :
  l <> c ->
  forall (labels : list string) (vals row : list cell) (i : nat),
    nth_error labels i = Some l ->
    nth_error (set_occurrences labels c vals row) i = nth_error row i.
Proof.
  intros Hne. induction labels as [|a labels IH]; intros vals [|x row] [|i] H;
    cbn [set_occurrences]; try reflexivity; cbn [nth_error] in H; try discriminate.
  - injection H as ->.
    destruct (String.eqb_spec l c); [contradiction | reflexivity].
  - destruct (String.eqb a c); cbn [nth_error]; now apply IH.
Qed.

Lemma stamped_setitem_list1 (c c' : string) (v : cell) (df df' : DataFrame)
      (value : list cell) :
  stamped c v df -> c' <> c ->
  setitem_list1 df c' value = Ok df' ->
  stamped c v df'.
Proof.
  intros Hs Hne. unfold setitem_list1.
  destruct (is_unique (columns df)).
  - destruct (List.length value =? 1); [|discriminate].
    intros H. injection H as <-. now apply stamped_setitem_scalar.
  - destruct (count c' (columns df)) as [|n]; [discriminate|].
    destruct (List.length value =? S n); [|discriminate].
    intros H. injection H as <-.
    destruct Hs as (Hw & Hn & Hi & Hc). unfold stamped, wf, shape0, cells_under.
    cbn [rows columns]. repeat split.
    + apply Forall_forall. intros r Hr. apply in_map_iff in Hr as [r0 [<- Hr0]].
      rewrite set_occurrences_length. unfold wf in Hw.
      rewrite Forall_forall in Hw. now apply Hw.
    + now rewrite length_map.
    + assumption.
    + apply Forall_forall. intros r Hr. apply in_map_iff in Hr as [r0 [<- Hr0]].
      intros i Hpos. rewrite (set_occurrences_other c' c); try assumption.
      * unfold cells_under in Hc. rewrite Forall_forall in Hc. now apply Hc.
      * congruence.
Qed.

Lemma stamped_loc_replace (c c' : string) (v : cell) (df df' : DataFrame)
      (old new : string) :
  stamped c v df -> c' <> c ->
  loc_replace df c' old new = Ok df' ->
  stamped c v df'.
Proof.
  intros Hs Hne. unfold loc_replace.
  destruct (getitem df c') as [[w|]|e] eqn:E; cbn [bind]; try discriminate.
  intros H. injection H as <-. apply stamped_setitem; try assumption.
  rewrite length_map. now apply getitem_length in E.
Qed.

End Joins.

(** ** The stamp of the last annotation group *)

Section Stamp.

Import pd etl Props.

Variable v : cell.

Lemma stamped_split_lat_lon (df df' : DataFrame) :
  stamped "sample_isolated_from" v df -> split_lat_lon df = Ok df' ->
  stamped "sample_isolated_from" v df'.
Proof.
  intros Hs. unfold split_lat_lon.
  destruct (mem "lat_lon" (columns df)); [|intros H; now injection H as <-].
  destruct (str df "lat_lon") as [v0|e] eqn:E; cbn [bind]; [|discriminate].
  intros H. eapply stamped_setitem_frame; [exact Hs | | | exact H].
  - rewrite erows_length. eapply str_length; eassumption.
  - intros k [<-|[<-|[]]]; discriminate.
Qed.

Lemma stamped_split_depth (df df' : DataFrame) :
  stamped "sample_isolated_from" v df -> split_depth df = Ok df' ->
  stamped "sample_isolated_from" v df'.
Proof.
  intros Hs. unfold split_depth.
  destruct (mem "depth" (columns df)); [|intros H; now injection H as <-].
  destruct (str df "depth") as [v0|e] eqn:E0; cbn [bind]; [|discriminate].
  assert (Hs1 : stamped "sample_isolated_from" v
                        (setitem df "depth" (map (str_replace "-" " - ") v0))).
  { apply stamped_setitem; [assumption | discriminate |].
    rewrite length_map. eapply str_length; eassumption. }
  destruct (str (setitem df "depth" (map (str_replace "-" " - ") v0)) "depth")
    as [v1|e] eqn:E1; cbn [bind]; [|discriminate].
  destruct (List.length (erows (str_split_expand " - " v1)) =? 1).
  - destruct (setitem_list1 _ "minimum_depth" _) as [df2|e] eqn:E2; cbn [bind];
      [|discriminate].
    intros H.
    apply (stamped_setitem_list1 _ "maximum_depth" _ df2 _ (ecolumn 0 (str_split_expand " - " v1)));
      [ | discriminate | exact H].
    eapply stamped_setitem_list1; [exact Hs1 | | exact E2]. discriminate.
  - intros H. eapply stamped_setitem_frame; [exact Hs1 | | | exact H].
    + rewrite erows_length. eapply str_length; eassumption.
    + intros k [<-|[<-|[]]]; discriminate.
Qed.

Lemma stamped_split_geo_loc_name (df df' : DataFrame) :
  stamped "sample_isolated_from" v df -> split_geo_loc_name df = Ok df' ->
  stamped "sample_isolated_from" v df'.
Proof.
  intros Hs. unfold split_geo_loc_name.
  destruct (mem "geo_loc_name" (columns df)); [|intros H; now injection H as <-].
  destruct (str df "geo_loc_name") as [v0|e] eqn:E; cbn [bind]; [|discriminate].
  intros H. injection H as <-. apply stamped_setitem; [assumption | discriminate |].
  rewrite length_map. eapply str_length; eassumption.
Qed.

Lemma stamped_split_collection_date (df df' : DataFrame) :
  stamped "sample_isolated_from" v df -> split_collection_date df = Ok df' ->
  stamped "sample_isolated_from" v df'.
Proof.
  intros Hs. unfold split_collection_date.
  destruct (mem "collection_date" (columns df)); [|intros H; now injection H as <-].
  destruct (str df "collection_date") as [v0|e] eqn:E0; cbn [bind]; [|discriminate].
  set (df1 := setitem df "collection_year" _).
  assert (Hs1 : stamped "sample_isolated_from" v df1).
  { apply stamped_setitem; [assumption | discriminate |].
    rewrite length_map. eapply str_length; eassumption. }
  destruct (str df1 "collection_date") as [v1|e] eqn:E1; cbn [bind]; [|discriminate].
  set (df2 := setitem df1 "collection_month" _).
  assert (Hs2 : stamped "sample_isolated_from" v df2).
  { apply stamped_setitem; [assumption | discriminate |].
    rewrite length_map. eapply str_length; eassumption. }
  destruct (str df2 "collection_date") as [v2|e] eqn:E2; cbn [bind]; [|discriminate].
  set (df3 := setitem df2 "collection_day" _).
  assert (Hs3 : stamped "sample_isolated_from" v df3).
  { apply stamped_setitem; [assumption | discriminate |].
    rewrite length_map. eapply str_length; eassumption. }
  destruct (getitem df3 "collection_month") as [[months|]|e] eqn:E3; cbn [bind];
    try discriminate.
  destruct (mapM month_name_of months) as [names|e] eqn:E4; cbn [bind];
    [|discriminate].
  intros H. injection H as <-. apply stamped_setitem; [assumption | discriminate |].
  rewrite (mapM_length _ _ _ E4). now apply getitem_length in E3.
Qed.

Lemma stamped_yes_no_to_Y_N (df df' : DataFrame) (c : string) :
  c <> "sample_isolated_from" ->
  stamped "sample_isolated_from" v df -> yes_no_to_Y_N df c = Ok df' ->
  stamped "sample_isolated_from" v df'.
Proof.
  intros Hne Hs. unfold yes_no_to_Y_N.
  destruct (loc_replace df c "yes" "Y") as [df1|e] eqn:E1; cbn [bind];
    [|discriminate].
  intros H. eapply stamped_loc_replace; [ | exact Hne | exact H].
  eapply stamped_loc_replace; [exact Hs | exact Hne | exact E1].
Qed.

Lemma stamped_normalize_dnase (self : MetadataRetriever) (df df' : DataFrame) :
  stamped "sample_isolated_from" v df -> normalize_dnase self df = Ok df' ->
  stamped "sample_isolated_from" v df'.
Proof.
  intros Hs. unfold normalize_dnase.
  assert (Hs1 : forall df1,
             (if String.eqb (user_facility self) "jgi_mg"
              then yes_no_to_Y_N df "dna_dnase" else Ok df) = Ok df1 ->
             stamped "sample_isolated_from" v df1).
  { intros df1. destruct (String.eqb (user_facility self) "jgi_mg").
    - apply stamped_yes_no_to_Y_N; [discriminate | assumption].
    - intros H. now injection H as <-. }
  destruct (if String.eqb (user_facility self) "jgi_mg"
            then yes_no_to_Y_N df "dna_dnase" else Ok df) as [df1|e];
    cbn [bind]; [|discriminate].
  specialize (Hs1 df1 eq_refl).
  destruct (String.eqb (user_facility self) "jgi_mt").
  - apply stamped_yes_no_to_Y_N; [discriminate | assumption].
  - intros H. now injection H as <-.
Qed.

Lemma stamped_derive_columns (self : MetadataRetriever) (df df' : DataFrame) :
  stamped "sample_isolated_from" v df -> derive_columns self df = Ok df' ->
  stamped "sample_isolated_from" v df'.
Proof.
  intros Hs. unfold derive_columns.
  destruct (split_lat_lon df) as [df1|e] eqn:E1; cbn [bind]; [|discriminate].
  destruct (split_depth df1) as [df2|e] eqn:E2; cbn [bind]; [|discriminate].
  destruct (split_geo_loc_name df2) as [df3|e] eqn:E3; cbn [bind]; [|discriminate].
  destruct (split_collection_date df3) as [df4|e] eqn:E4; cbn [bind];
    [|discriminate].
  apply stamped_normalize_dnase.
  eapply stamped_split_collection_date; [|exact E4].
  eapply stamped_split_geo_loc_name; [|exact E3].
  eapply stamped_split_depth; [|exact E2].
  eapply stamped_split_lat_lon; [|exact E1]. exact Hs.
Qed.

End Stamp.

Section Loop.

Import pd etl Props.

Lemma group_frame_wf (sd : list (string * list record)) (key : string) :
  wf (group_frame sd key).
Proof.
  unfold group_frame. destruct (dict_get sd key); [apply of_records_wf|].
  constructor.
Qed.

(** One iteration stamps every row with its key, join or no join. *)
Lemma merge_step_stamped (sd : list (string * list record)) (df df' : DataFrame)
      (key : string) :
  wf df -> 0 < shape0 df -> merge_step sd df key = Ok df' ->
  stamped "sample_isolated_from" (Some key) df'.
Proof.
  intros Hw Hn. unfold merge_step.
  assert (H1 : forall df1,
             (if negb (empty (group_frame sd key))
              then merge df (group_frame sd key) "samp_name" else Ok df) = Ok df1 ->
             wf df1 /\ 0 < shape0 df1).
  { intros df1. destruct (negb (empty (group_frame sd key))).
    - intros H. destruct (merge_wf _ _ _ _ Hw (group_frame_wf sd key) H) as [A B].
      split; [assumption | now apply B].
    - intros H. injection H as <-. now split. }
  destruct (if negb (empty (group_frame sd key))
            then merge df (group_frame sd key) "samp_name" else Ok df)
    as [df1|e]; cbn [bind]; [|discriminate].
  destruct (H1 df1 eq_refl) as [Hw1 Hn1].
  intros H. injection H as <-. repeat split.
  - now apply wf_setitem_scalar.
  - now rewrite shape0_setitem_scalar.
  - cbn [columns setitem_scalar]. apply set_label_In.
  - now apply cells_under_setitem_scalar.
Qed.

Lemma merge_loop_stamped (sd : list (string * list record)) :
  forall (keys : list string) (df df' : DataFrame),
    keys <> [] -> wf df -> 0 < shape0 df ->
    merge_loop sd keys df = Ok df' ->
    stamped "sample_isolated_from" (Some (last keys EmptyString)) df'.
Proof.
  induction keys as [|key rest IH]; intros df df' Hne Hw Hn; [congruence|].
  cbn [merge_loop].
  destruct (merge_step sd df key) as [df1|e] eqn:E; cbn [bind]; [|discriminate].
  pose proof (merge_step_stamped _ _ _ _ Hw Hn E) as Hs.
  destruct rest as [|key2 rest'].
  - cbn [merge_loop last]. intros H. now injection H as <-.
  - intros H. change (last (key :: key2 :: rest') EmptyString)
      with (last (key2 :: rest') EmptyString).
    destruct Hs as (Hw1 & Hn1 & _). apply (IH df1 df'); try assumption.
    discriminate.
Qed.

Lemma cells_under_col (c : string) (v : cell) (df : DataFrame) :
  In c (columns df) -> cells_under c v df -> col c df = repeat v (shape0 df).
Proof.
  intros Hin Hc. unfold col, column_at, shape0, cells_under in *.
  apply index_of_nth_error in Hin.
  induction (rows df) as [|r rs IH]; [reflexivity|].
  inversion Hc; subst. cbn [map List.length repeat]. f_equal.
  - apply nth_error_nth. now apply H1.
  - now apply IH.
Qed.

Lemma facility_group_mem (k : string) :
  facility_group k <-> mem k user_facility_keys = true.
Proof.
  unfold facility_group, user_facility_keys, mem. cbn [existsb].
  rewrite !orb_true_iff, !String.eqb_eq. split.
  - intros [-> | [-> | ->]]; auto.
  - intros [<- | [<- | [<- | H]]]; auto. discriminate H.
Qed.

Lemma filter_none_facility (l : list string) :
  Forall facility_group l ->
  filter (fun k => negb (mem k user_facility_keys)) l = [].
Proof.
  induction 1 as [|k l Hk _ IH]; [reflexivity|]. cbn [filter].
  apply facility_group_mem in Hk. rewrite Hk. exact IH.
Qed.

(** The loop of line 94 ends on the last key of [sampleData] that is no
    facility group. *)
Lemma sample_data_keys_last (sd : list (string * list record))
      (pre post : list string) (key : string) :
  dict_keys sd = pre ++ key :: post ->
  ~ facility_group key ->
  Forall facility_group post ->
  sample_data_keys sd <> []
  /\ last (sample_data_keys sd) EmptyString = key.
Proof.
  intros Hk Hkey Hpost. unfold sample_data_keys. rewrite Hk, filter_app.
  cbn [filter].
  assert (E : mem key user_facility_keys = false).
  { destruct (mem key user_facility_keys) eqn:E; [|reflexivity].
    exfalso. apply Hkey. now apply facility_group_mem. }
  rewrite E. cbn [negb].
  assert (F : filter (fun k => negb (mem k user_facility_keys)) post = []).
  { apply filter_none_facility. exact Hpost. }
  rewrite F. split.
  - intros H. apply app_eq_nil in H as [_ H]. discriminate H.
  - apply last_last.
Qed.

End Loop.

(** ** Joining the same group twice *)

Section Twice.

Import pd etl Props.

Lemma filter_none {A : Type} (f : A -> bool) (l : list A) :
  (forall x, In x l -> f x = false) -> filter f l = [].
Proof.
  induction l as [|a l IH]; intros H; [reflexivity|]. cbn [filter].
  rewrite (H a (or_introl eq_refl)). apply IH. intros x Hx. apply H. now right.
Qed.

Lemma mem_filter (f : string -> bool) (l : list string) (x : string) :
  mem x (filter f l) = mem x l && f x.
Proof.
  destruct (mem x (filter f l)) eqn:E.
  - apply mem_In, filter_In in E as [Hi Hf]. apply mem_In in Hi.
    now rewrite Hi, Hf.
  - destruct (mem x l) eqn:El; [|reflexivity]. destruct (f x) eqn:Ef;
      [|reflexivity].
    apply mem_false in E. exfalso. apply E. apply filter_In.
    split; [now apply mem_In | assumption].
Qed.

Lemma mem_iff (c : string) (l1 l2 : list string) :
  (In c l1 <-> In c l2) -> mem c l1 = mem c l2.
Proof.
  intros H. destruct (mem c l2) eqn:E.
  - apply mem_In. apply H. now apply mem_In.
  - apply mem_false. intros Hi. apply H in Hi. apply mem_In in Hi. congruence.
Qed.

Lemma map_renamed_out (s : string) (sh l : list string) :
  (forall x, In x l -> mem x sh = false) -> map (renamed s sh) l = l.
Proof.
  intros H. rewrite <- (map_id l) at 2. apply map_ext_in. intros x Hx.
  unfold renamed. now rewrite (H x Hx).
Qed.

Lemma map_renamed_in (s : string) (sh l : list string) :
  (forall x, In x l -> mem x sh = true) ->
  map (renamed s sh) l = map (add_suffix s) l.
Proof.
  intros H. apply map_ext_in. intros x Hx. unfold renamed. now rewrite (H x Hx).
Qed.

Lemma NoDup_map_add_suffix (s : string) (l : list string) :
  NoDup l -> NoDup (map (add_suffix s) l).
Proof.
  induction 1 as [|x l Hx Hl IH]; cbn [map]; constructor; [|assumption].
  intros Hi. apply in_map_iff in Hi as [y [E Hy]].
  apply add_suffix_inj in E. now subst.
Qed.

Lemma map_set_label (f : string -> string) (labels : list string) (c : string) :
  f c = c -> mem c labels = mem c (map f labels) ->
  map f (set_label labels c) = set_label (map f labels) c.
Proof.
  intros Hc Hm. unfold set_label. rewrite <- Hm.
  destruct (mem c labels); [reflexivity|]. rewrite map_app. cbn [map].
  now rewrite Hc.
Qed.

(** The body of the loop on a group that has records. *)
Lemma merge_step_joined (sd : list (string * list record)) (df dm : DataFrame)
      (key : string) (recs : list record) :
  dict_get sd key = Some recs ->
  empty (of_records recs) = false ->
  merge df (of_records recs) "samp_name" = Ok dm ->
  merge_step sd df key = Ok (setitem_scalar dm "sample_isolated_from" (Some key)).
Proof.
  intros Hk He Hm. unfold merge_step, group_frame. rewrite Hk, He. cbn [negb].
  rewrite Hm. reflexivity.
Qed.

End Twice.

(** ** Properties of the merge loop *)

Section MergeLoop.

Import pd etl Props.

(** C10.  When [sampleData] has at least one annotation group and retrieval
    returns a table, the table has rows and a [sample_isolated_from] column,
    and every cell under that label holds the key of the last annotation
    group in enumeration order, whether or not that group has records.  The
    last annotation group is the key [key] of [sampleData] that is no
    facility group and has only facility groups after it. *)
Theorem C10_last_annotation_group_stamps
        (self : MetadataRetriever) (p : Portal) (unique_field : string)
        (sd : list (string * list record)) (pre post : list string)
        (key : string) (df : DataFrame) :
  sampleData p = Some sd ->
  dict_keys sd = pre ++ key :: post ->
  ~ facility_group key ->
  Forall facility_group post ->
  retrieve_metadata_records self p unique_field = Ok df ->
  0 < shape0 df
  /\ In "sample_isolated_from" (columns df)
  /\ (forall r i,
         In r (rows df) ->
         nth_error (columns df) i = Some "sample_isolated_from" ->
         nth_error r i = Some (Some key))
  /\ col "sample_isolated_from" df = repeat (Some key) (shape0 df).
Proof.
  intros Hsd Hdec Hkey Hpost.
  destruct (sample_data_keys_last sd pre post key Hdec Hkey Hpost)
    as [Hkeys Hlast].
  unfold retrieve_metadata_records.
  destruct (authenticate p) as [token|e]; cbn [bind]; [|discriminate].
  destruct (load_common_df self p) as [common_df|e] eqn:Ec; cbn [bind];
    [|discriminate].
  destruct (empty common_df) eqn:Ee; [discriminate|].
  unfold response_sampleData. rewrite Hsd. cbn [bind].
  destruct (merge_loop sd (sample_data_keys sd) common_df) as [dfm|e] eqn:El;
    cbn [bind]; [|discriminate].
  intros Hd.
  assert (Hw : wf common_df).
  { unfold load_common_df, response_sampleData in Ec. rewrite Hsd in Ec.
    destruct (dict_get USER_FACILITY_DICT (user_facility self));
      cbn [bind] in Ec; injection Ec as <-;
      [apply group_frame_wf | constructor]. }
  assert (Hn : 0 < shape0 common_df).
  { unfold empty in Ee. apply orb_false_iff in Ee as [_ Hr].
    apply Nat.eqb_neq in Hr. unfold shape0. lia. }
  pose proof (merge_loop_stamped sd _ _ _ Hkeys Hw Hn El) as Hs.
  rewrite Hlast in Hs.
  pose proof (stamped_derive_columns _ self _ _ Hs Hd) as (Hw' & Hn' & Hi' & Hc').
  repeat split; try assumption.
  - intros r i Hr Hpos. unfold cells_under in Hc'.
    rewrite Forall_forall in Hc'. now apply Hc'.
  - now apply cells_under_col.
Qed.

Lemma C10_last_annotation_group_stamps_witness :
  exists df,
    retrieve_metadata_records Samples.jgi_mg
                              (Samples.serving Samples.groups_around)
                              "samp_name" = Ok df
    /\ dict_get Samples.groups_around "air" = Some []
    /\ col "sample_isolated_from" df = [Some "air"; Some "air"].
Proof.
  destruct (retrieve_metadata_records Samples.jgi_mg
                                      (Samples.serving Samples.groups_around)
                                      "samp_name") as [df|e] eqn:E;
    [|vm_compute in E; discriminate E].
  exists df. split; [reflexivity|]. split; [reflexivity|].
  destruct (C10_last_annotation_group_stamps
              Samples.jgi_mg (Samples.serving Samples.groups_around)
              "samp_name" Samples.groups_around
              ["water"; "jgi_mg_data"; "soil"] ["emsl_data"] "air" df)
    as (_ & _ & _ & H).
  - reflexivity.
  - reflexivity.
  - intros [H|[H|H]]; discriminate H.
  - repeat constructor.
  - exact E.
  - rewrite H. f_equal.
    assert (S : shape0 df = 2)
      by (vm_compute in E; injection E as <-; reflexivity).
    now rewrite S.
Defined.

(** C4 as claimed fails: joining the same record list a second time renames
    the columns the first join brought in. *)
Lemma C4_second_join_changes_columns :
  exists once twice,
    merge_loop Samples.same_group_twice ["water"] Samples.one_sample = Ok once
    /\ merge_loop Samples.same_group_twice ["water"; "soil"] Samples.one_sample
       = Ok twice
    /\ columns once = ["samp_name"; "ph"; "sample_isolated_from"]
    /\ columns twice = ["samp_name"; "ph_x"; "sample_isolated_from"; "ph_y"]
    /\ ~ same_column_set once twice.
Proof.
  eexists. eexists. split; [vm_compute; reflexivity|].
  split; [vm_compute; reflexivity|].
  split; [reflexivity|]. split; [reflexivity|].
  intros H. destruct (H "ph") as [H1 _]. cbn [columns] in H1.
  destruct H1 as [E|[E|[E|[E|[]]]]]; try discriminate.
  right. left. reflexivity.
Qed.

(** C4, as the code has it.  Take a table with distinct labels and a group
    whose columns other than [samp_name] are new to the table.  The first
    join appends these columns.  Joining the same record list again keeps
    none of them: each such column [c] is replaced by [c_x] (the values of
    the first join) and [c_y] (those of the second); only
    [sample_isolated_from] stays single. *)
Theorem C4_second_join_renames_columns
        (sd : list (string * list record)) (df : DataFrame)
        (key1 key2 : string) (recs : list record) :
  is_unique (columns df) = true ->
  In "samp_name" (columns df) ->
  dict_get sd key1 = Some recs ->
  dict_get sd key2 = Some recs ->
  empty (of_records recs) = false ->
  In "samp_name" (columns (of_records recs)) ->
  (forall c, In c (right_columns (of_records recs) "samp_name") ->
             ~ In c (columns df)
             /\ ~ In (add_suffix "_x" c) (columns df)
             /\ c <> "sample_isolated_from") ->
  exists df1 df2,
    merge_step sd df key1 = Ok df1
    /\ merge_step sd df1 key2 = Ok df2
    /\ columns df1
       = set_label (columns df ++ right_columns (of_records recs) "samp_name")
                   "sample_isolated_from"
    /\ columns df2
       = set_label (columns df
                      ++ map (add_suffix "_x")
                             (right_columns (of_records recs) "samp_name"))
                   "sample_isolated_from"
           ++ map (add_suffix "_y") (right_columns (of_records recs) "samp_name").
Proof.
  intros Hu Hs Hk1 Hk2 He Hsg Hdisj.
  set (g := of_records recs) in *.
  set (extra := right_columns g "samp_name") in *.
  assert (Hcg : count "samp_name" (columns g) = 1).
  { apply unique_count_one; [apply of_records_unique | assumption]. }
  assert (Hcd : count "samp_name" (columns df) = 1)
    by now apply unique_count_one.
  assert (Hnd : NoDup extra).
  { apply NoDup_remove_at. apply is_unique_NoDup. apply of_records_unique. }
  assert (Hout : forall x, In x (columns df) -> mem x extra = false).
  { intros x Hx. apply mem_false. intros Hi.
    destruct (Hdisj x Hi) as [Hn _]. contradiction. }
  (* first join *)
  assert (Hsh1 : shared df g "samp_name" = []).
  { unfold shared. fold extra. now apply filter_none. }
  assert (Hid : forall s l, map (renamed s []) l = l).
  { intros s l. apply map_renamed_out. reflexivity. }
  destruct (merge_ok df g "samp_name" Hcg Hcd) as [dm [Em Ecm]].
  { now rewrite Hsh1, Hid. }
  { rewrite Hsh1, Hid. fold extra. now apply is_unique_NoDup. }
  rewrite Hsh1, !Hid in Ecm. fold extra in Ecm.
  set (df1 := setitem_scalar dm "sample_isolated_from" (Some key1)).
  assert (Hc1 : columns df1 = set_label (columns df ++ extra) "sample_isolated_from").
  { unfold df1. cbn [columns setitem_scalar]. now rewrite Ecm. }
  (* second join *)
  assert (Hstamp : ~ In "sample_isolated_from" extra).
  { intros Hi. destruct (Hdisj _ Hi) as (_ & _ & Hn). congruence. }
  assert (Hc1s : count "samp_name" (columns df1) = 1).
  { rewrite Hc1, count_set_label_other by discriminate.
    rewrite count_app, Hcd.
    assert (Z : count "samp_name" extra = 0).
    { apply count_zero. intros Hi. destruct (Hdisj _ Hi) as [Hn _]. contradiction. }
    rewrite Z. reflexivity. }
  set (sh2 := shared df1 g "samp_name").
  assert (Hsh2 : forall x, mem x sh2 = mem x (columns df1) && mem x extra).
  { intros x. unfold sh2, shared. fold extra.
    apply (mem_filter (fun c => mem c extra)). }
  assert (F1 : forall x, In x (columns df) -> mem x sh2 = false).
  { intros x Hx. rewrite Hsh2, (Hout x Hx). apply andb_false_r. }
  assert (F2 : forall x, In x extra -> mem x sh2 = true).
  { intros x Hx. rewrite Hsh2. apply andb_true_iff. split; apply mem_In.
    - rewrite Hc1. apply set_label_In_other.
      + intros ->. contradiction.
      + apply in_or_app. now right.
    - assumption. }
  assert (F3 : mem "sample_isolated_from" sh2 = false).
  { rewrite Hsh2. apply mem_false in Hstamp. rewrite Hstamp. apply andb_false_r. }
  assert (Hll : map (renamed "_x" sh2) (columns df1)
                = set_label (columns df ++ map (add_suffix "_x") extra)
                            "sample_isolated_from").
  { rewrite Hc1.
    assert (Hm : map (renamed "_x" sh2) (columns df ++ extra)
                 = columns df ++ map (add_suffix "_x") extra).
    { rewrite map_app, (map_renamed_out _ _ _ F1), (map_renamed_in _ _ _ F2).
      reflexivity. }
    rewrite map_set_label.
    - now rewrite Hm.
    - unfold renamed. now rewrite F3.
    - rewrite Hm. apply mem_iff. rewrite !in_app_iff. split.
      + intros [H|H]; [now left | contradiction].
      + intros [H|H]; [now left|].
        apply in_map_iff in H as [y [E _]]. now apply add_suffix_x_stamp in E. }
  assert (Hrl : map (renamed "_y" sh2) extra = map (add_suffix "_y") extra)
    by now apply map_renamed_in.
  destruct (merge_ok df1 g "samp_name" Hcg Hc1s) as [dm2 [Em2 Ecm2]].
  { fold sh2. rewrite Hll. apply set_label_unique. apply is_unique_NoDup.
    apply NoDup_app.
    - now apply is_unique_NoDup.
    - now apply NoDup_map_add_suffix.
    - intros a Ha Hi. apply in_map_iff in Hi as [y [<- Hy]].
      destruct (Hdisj y Hy) as (_ & Hn & _). contradiction. }
  { fold sh2. fold extra. rewrite Hrl. apply is_unique_NoDup.
    now apply NoDup_map_add_suffix. }
  fold sh2 in Ecm2. fold extra in Ecm2. rewrite Hll, Hrl in Ecm2.
  exists df1, (setitem_scalar dm2 "sample_isolated_from" (Some key2)).
  split; [now apply merge_step_joined with (recs := recs)|].
  split; [now apply merge_step_joined with (recs := recs)|].
  split; [exact Hc1|].
  cbn [columns setitem_scalar]. rewrite Ecm2. apply set_label_mem.
  apply in_or_app. left. apply set_label_In.
Qed.

Lemma C4_second_join_renames_columns_witness :
  exists df1 df2,
    merge_step Samples.same_group_twice Samples.one_sample "water" = Ok df1
    /\ merge_step Samples.same_group_twice df1 "soil" = Ok df2
    /\ columns df1 = ["samp_name"; "ph"; "sample_isolated_from"]
    /\ columns df2 = ["samp_name"; "ph_x"; "sample_isolated_from"; "ph_y"].
Proof.
  apply (C4_second_join_renames_columns
           Samples.same_group_twice Samples.one_sample "water" "soil"
           Samples.ph_records).
  - reflexivity.
  - left. reflexivity.
  - reflexivity.
  - reflexivity.
  - reflexivity.
  - left. reflexivity.
  - intros c [<-|[]]. repeat split.
    + intros [E|[]]. discriminate.
    + intros [E|[]]. discriminate.
    + discriminate.
Defined.

End MergeLoop.

(** ** A worked retrieval *)

Section Worked.

Import pd etl Props.

Example retrieve_full_submission :
  retrieve_metadata_records Samples.jgi_mg (Samples.serving Samples.full_submission)
                            "samp_name"
  = Ok (mkDF
          ["samp_name"; "dna_dnase"; "lat_lon"; "depth"; "collection_date";
           "geo_loc_name"; "sample_isolated_from"; "latitude"; "longitude";
           "minimum_depth"; "maximum_depth"; "country_name"; "collection_year";
           "collection_month"; "collection_day"; "collection_month_name"]
          [[Some "s1"; Some "Y"; Some "12.3 -45.6"; Some "0 - 10";
            Some "2020-05-17"; Some "USA: California"; Some "soil";
            Some "12.3"; Some "-45.6"; Some "0"; Some "10"; Some "USA";
            Some "2020"; Some "05"; Some "17"; Some "May"];
           [Some "s2"; Some "maybe"; Some "1 2"; Some "3 - 4";
            Some "2020-12-17"; None; Some "soil";
            Some "1"; Some "2"; Some "3"; Some "4"; None;
            Some "2020"; Some "12"; Some "17"; Some "December"]]).
Proof. vm_compute. reflexivity. Qed.

End Worked.

(** ** Frames of record lists *)

Section Records.

Import pd etl Props.

Lemma nth_map_dict_get (r : record) (cols : list string) (k : string) :
  In k cols -> nth (index_of k cols) (map (dict_get r) cols) None = dict_get r k.
Proof.
  intros H. apply nth_error_nth. rewrite nth_error_map.
  now rewrite (index_of_nth_error _ _ H).
Qed.

(** X1.  The frame built from a record list has one row per record, one
    column per key that occurs in some record, each once, and under a key
    the value of each record for it, missing where the record lacks the
    key. *)
Theorem X1_group_frame_lookup (sd : list (string * list record)) (key : string)
        (data : list record) :
  dict_get sd key = Some data ->
  shape0 (group_frame sd key) = List.length data
  /\ NoDup (columns (group_frame sd key))
  /\ (forall k, In k (columns (group_frame sd key))
                <-> exists r, In r data /\ In k (dict_keys r))
  /\ (forall k, In k (columns (group_frame sd key)) ->
                col k (group_frame sd key) = map (fun r => dict_get r k) data).
Proof.
  intros Hk. unfold group_frame. rewrite Hk. repeat split.
  - unfold shape0, of_records. cbn [rows]. apply length_map.
  - apply is_unique_NoDup, of_records_unique.
  - intros H. unfold of_records, uniq in H. cbn [columns] in H.
    apply uniq_from_spec in H as [H _]. apply in_flat_map in H. exact H.
  - intros H. unfold of_records, uniq. cbn [columns].
    apply uniq_from_spec. split; [|intros []]. apply in_flat_map. exact H.
  - intros k Hin. unfold col, column_at, of_records in *. cbn [rows columns] in *.
    rewrite map_map. apply map_ext. intros r. now apply nth_map_dict_get.
Qed.

Lemma X1_group_frame_lookup_witness :
  col "dna_dnase" (group_frame Samples.full_submission "jgi_mg_data")
  = [Some "yes"; Some "maybe"]
  /\ col "geo_loc_name" (group_frame Samples.full_submission "water")
     = [Some "USA: California"; None].
Proof.
  split.
  - destruct (X1_group_frame_lookup Samples.full_submission "jgi_mg_data" _ eq_refl)
      as (_ & _ & _ & H).
    apply (H "dna_dnase"). right. left. reflexivity.
  - destruct (X1_group_frame_lookup Samples.full_submission "water" _ eq_refl)
      as (_ & _ & _ & H).
    apply (H "geo_loc_name"). vm_compute. tauto.
Defined.

End Records.

(** ** More on the merge loop *)

Section MoreJoins.

Import pd etl Props.

Lemma group_frame_unique (sd : list (string * list record)) (key : string) :
  is_unique (columns (group_frame sd key)) = true.
Proof.
  unfold group_frame. destruct (dict_get sd key);
    [apply of_records_unique | reflexivity].
Qed.

Lemma merge_step_key_error (sd : list (string * list record)) (df : DataFrame)
      (key : string) :
  empty (group_frame sd key) = false ->
  ~ In "samp_name" (columns (group_frame sd key))
  \/ ~ In "samp_name" (columns df) ->
  merge_step sd df key = Raise (KeyError "samp_name").
Proof.
  intros He H. unfold merge_step. rewrite He. cbn [negb].
  unfold merge, key_position.
  destruct (in_dec string_dec "samp_name" (columns (group_frame sd key)))
    as [Hr|Hr].
  - rewrite (unique_count_one _ _ (group_frame_unique sd key) Hr). cbn [bind].
    destruct H as [H|H]; [contradiction|].
    apply count_zero in H. rewrite H. reflexivity.
  - apply count_zero in Hr. rewrite Hr. reflexivity.
Qed.

(** X2.  A table without [samp_name] cannot take any annotation records:
    when one of the remaining groups has a non-empty frame the loop raises
    [KeyError], whatever the groups before it hold. *)
Theorem X2_join_needs_samp_name
        (sd : list (string * list record)) (keys : list string)
        (df : DataFrame) (key : string) :
  ~ In "samp_name" (columns df) ->
  In key keys ->
  empty (group_frame sd key) = false ->
  merge_loop sd keys df = Raise (KeyError "samp_name").
Proof.
  revert df. induction keys as [|k keys IH]; intros df Hn Hk He; [destruct Hk|].
  cbn [merge_loop].
  destruct (empty (group_frame sd k)) eqn:E.
  - unfold merge_step. rewrite E. cbn [negb bind].
    apply IH.
    + cbn [columns setitem_scalar]. intros Hi.
      apply set_label_In_other in Hi; [contradiction | discriminate].
    + destruct Hk as [->|Hk]; [congruence | exact Hk].
    + exact He.
  - rewrite merge_step_key_error; [reflexivity | assumption | now right].
Qed.

Lemma X2_join_needs_samp_name_witness :
  merge_loop [("soil", []); ("water", [[("samp_name", "s1"); ("ph", "7")]])]
             ["soil"; "water"]
             (of_records [[("id", "1")]])
  = Raise (KeyError "samp_name").
Proof.
  apply (X2_join_needs_samp_name _ _ _ "water").
  - intros [E|[]]. discriminate E.
  - right. left. reflexivity.
  - reflexivity.
Defined.

(** X20.  An annotation group whose records carry no [samp_name] stops the
    loop with [KeyError], whatever the table, when the groups before it in
    the loop are empty. *)
Theorem X20_group_without_samp_name
        (sd : list (string * list record)) (pre rest : list string)
        (key : string) (df : DataFrame) :
  Forall (fun k => empty (group_frame sd k) = true) pre ->
  empty (group_frame sd key) = false ->
  ~ In "samp_name" (columns (group_frame sd key)) ->
  merge_loop sd (pre ++ key :: rest) df = Raise (KeyError "samp_name").
Proof.
  intros Hpre He Hn. revert df.
  induction Hpre as [|k pre Hk _ IH]; intros df; cbn [app merge_loop].
  - rewrite merge_step_key_error; [reflexivity | assumption | now left].
  - unfold merge_step. rewrite Hk. cbn [negb bind]. apply IH.
Qed.

Lemma X20_group_without_samp_name_witness :
  merge_loop [("soil", []); ("water", [[("ph", "7")]])]
             (["soil"] ++ "water" :: ["air"])
             (of_records [[("samp_name", "s1")]])
  = Raise (KeyError "samp_name").
Proof.
  apply X20_group_without_samp_name.
  - repeat constructor.
  - reflexivity.
  - intros [E|[]]. discriminate E.
Defined.

Lemma flat_map_single {A B : Type} (f : A -> list B) (g : A -> B) (l : list A) :
  (forall x, f x = [g x]) -> flat_map f l = map g l.
Proof.
  intros H. induction l as [|a l IH]; [reflexivity|].
  cbn [flat_map map]. now rewrite H, IH.
Qed.

Lemma cell_eqb_eq (a b : cell) : cell_eqb a b = true <-> a = b.
Proof.
  destruct a as [x|], b as [y|]; cbn [cell_eqb]; try (split; congruence).
  rewrite String.eqb_eq. split; congruence.
Qed.

Lemma filter_find_unique (rk : nat) (k : cell) :
  forall rs : list (list cell),
    NoDup (map (fun r => nth rk r None) rs) ->
    filter (fun r => cell_eqb k (nth rk r None)) rs
    = match find (fun r => cell_eqb k (nth rk r None)) rs with
      | Some r => [r]
      | None => []
      end.
Proof.
  induction rs as [|a rs IH]; intros Hnd; cbn [filter find map] in *;
    [reflexivity|].
  inversion Hnd as [|x l Hx Hl]; subst.
  destruct (cell_eqb k (nth rk a None)) eqn:E.
  - f_equal. apply filter_none. intros r Hr.
    destruct (cell_eqb k (nth rk r None)) eqn:E'; [|reflexivity].
    apply cell_eqb_eq in E, E'. exfalso. apply Hx. apply in_map_iff.
    exists r. split; [congruence | assumption].
  - now apply IH.
Qed.

(** A left join on a right frame with distinct keys gives one row per row
    of the left frame, in order: the cells of the left row, then those of
    the record with the same key, or missing cells when there is none. *)
Lemma merge_rows_distinct_keys (left right : DataFrame) (on : string)
        (df : DataFrame) :
  merge left right on = Ok df ->
  NoDup (map (fun r => nth (index_of on (columns right)) r None) (rows right)) ->
  rows df
  = map (fun l =>
           l ++ joined_cells (index_of on (columns right))
                             (List.length (right_columns right on))
                             (rows right)
                             (nth (index_of on (columns left)) l None))
        (rows left)
  /\ shape0 df = shape0 left.
Proof.
  intros Hm Hnd. unfold merge, key_position in Hm.
  destruct (count on (columns right)) as [|[|n]]; cbn [bind] in Hm;
    try discriminate.
  destruct (count on (columns left)) as [|[|m]]; cbn [bind] in Hm;
    try discriminate.
  destruct (_ ++ _) as [|d ds]; [|discriminate].
  injection Hm as <-. cbn [rows].
  assert (E : flat_map
                (fun l =>
                   match filter (fun r => cell_eqb (nth (index_of on (columns left)) l None)
                                                   (nth (index_of on (columns right)) r None))
                                (rows right) with
                   | [] => [l ++ repeat None
                                (List.length (remove_at (index_of on (columns right))
                                                        (columns right)))]
                   | ms => map (fun r => l ++ remove_at (index_of on (columns right)) r) ms
                   end) (rows left)
              = map (fun l =>
                       l ++ joined_cells (index_of on (columns right))
                                         (List.length (right_columns right on))
                                         (rows right)
                                         (nth (index_of on (columns left)) l None))
                    (rows left)).
  { apply flat_map_single. intros l.
    rewrite (filter_find_unique _ _ _ Hnd). unfold joined_cells, right_columns.
    destruct (find _ (rows right)); reflexivity. }
  split; [exact E|].
  unfold shape0. cbn [rows].
  etransitivity; [exact (f_equal (@List.length _) E) | apply length_map].
Qed.

End MoreJoins.

(** ** What the derivations keep *)

Section Grown.

Import pd etl Props.

Variable W : list string.

Lemma grown_refl (df : DataFrame) : wf df -> grown W df df.
Proof. intros H. repeat split; auto. Qed.

Lemma grown_trans (a b c : DataFrame) :
  grown W a b -> grown W b c -> grown W a c.
Proof.
  intros (_ & Hs1 & Hk1 & Ha1) (Hw2 & Hs2 & Hk2 & Ha2). repeat split.
  - assumption.
  - congruence.
  - auto.
  - intros x Hx. destruct (Ha2 x Hx) as [H|H]; auto.
Qed.

Lemma In_set_label (labels : list string) (c x : string) :
  In x (set_label labels c) <-> In x labels \/ x = c.
Proof.
  unfold set_label. destruct (mem c labels) eqn:E.
  - apply mem_In in E. split; [tauto|]. intros [H| ->]; assumption.
  - rewrite in_app_iff. cbn [In]. split.
    + intros [H|[<-|[]]]; auto.
    + intros [H| ->]; auto.
Qed.

Lemma grown_setitem (df : DataFrame) (c : string) (vals : list cell) :
  wf df -> List.length vals = shape0 df ->
  In c (columns df) \/ In c W ->
  grown W df (setitem df c vals).
Proof.
  intros Hw Hlen Hc. repeat split.
  - now apply wf_setitem.
  - now apply shape0_setitem.
  - intros x Hx. cbn [columns setitem]. apply In_set_label. now left.
  - intros x Hx. cbn [columns setitem] in Hx. apply In_set_label in Hx.
    destruct Hx as [Hx| ->]; [now left | assumption].
Qed.

Lemma grown_setitem_scalar (df : DataFrame) (c : string) (v : cell) :
  wf df -> In c (columns df) \/ In c W -> grown W df (setitem_scalar df c v).
Proof.
  intros Hw Hc. rewrite setitem_scalar_setitem.
  apply grown_setitem; [assumption | apply repeat_length | assumption].
Qed.

Lemma grown_fold_setitem (e : Expanded) :
  forall (l : list (string * nat)) (df : DataFrame),
    wf df ->
    List.length (erows e) = shape0 df ->
    (forall kj, In kj l -> In (fst kj) W) ->
    grown W df (fold_left (fun d kj => setitem d (fst kj) (ecolumn (snd kj) e))
                          l df).
Proof.
  induction l as [|kj l IH]; intros df Hw Hlen Hk; cbn [fold_left];
    [now apply grown_refl|].
  assert (L : List.length (ecolumn (snd kj) e) = shape0 df)
    by (rewrite ecolumn_length; assumption).
  assert (G : grown W df (setitem df (fst kj) (ecolumn (snd kj) e))).
  { apply grown_setitem; [assumption | assumption |]. right. apply Hk. now left. }
  eapply grown_trans; [exact G|]. apply IH.
  - apply G.
  - rewrite shape0_setitem; assumption.
  - intros kj' H. apply Hk. now right.
Qed.

Lemma grown_setitem_frame (df df' : DataFrame) (key : list string) (e : Expanded) :
  wf df -> List.length (erows e) = shape0 df ->
  (forall k, In k key -> In k W) ->
  setitem_frame df key e = Ok df' ->
  grown W df df'.
Proof.
  intros Hw Hlen Hk. unfold setitem_frame.
  destruct (check_key_length _ _ _); cbn [bind]; [|discriminate].
  intros H. injection H as <-. apply grown_fold_setitem; try assumption.
  intros [k j] Hin. apply Hk. now apply in_combine_l in Hin.
Qed.

Lemma grown_setitem_list1 (df df' : DataFrame) (c : string) (value : list cell) :
  wf df -> In c W ->
  setitem_list1 df c value = Ok df' ->
  grown W df df'.
Proof.
  intros Hw Hc. unfold setitem_list1.
  destruct (is_unique (columns df)).
  - destruct (List.length value =? 1); [|discriminate].
    intros H. injection H as <-. apply grown_setitem_scalar; auto.
  - destruct (count c (columns df)) as [|n]; [discriminate|].
    destruct (List.length value =? S n); [|discriminate].
    intros H. injection H as <-. unfold grown, wf, shape0. cbn [rows columns].
    repeat split; auto.
    + apply Forall_forall. intros r Hr. apply in_map_iff in Hr as [r0 [<- Hr0]].
      rewrite set_occurrences_length. unfold wf in Hw.
      rewrite Forall_forall in Hw. now apply Hw.
    + apply length_map.
Qed.

Lemma getitem_In (df : DataFrame) (c : string) (it : item) :
  getitem df c = Ok it -> In c (columns df).
Proof.
  unfold getitem. intros H. apply count_pos.
  destruct (count c (columns df)); [discriminate | lia].
Qed.

Lemma str_In (df : DataFrame) (c : string) (v : list cell) :
  str df c = Ok v -> In c (columns df).
Proof.
  unfold str. destruct (getitem df c) as [it|e] eqn:E; cbn [bind];
    [|discriminate].
  intros _. eapply getitem_In; eassumption.
Qed.

Lemma grown_loc_replace (df df' : DataFrame) (c old new : string) :
  wf df -> loc_replace df c old new = Ok df' -> grown W df df'.
Proof.
  intros Hw. unfold loc_replace.
  destruct (getitem df c) as [[w|]|e] eqn:E; cbn [bind]; try discriminate.
  intros H. injection H as <-. apply grown_setitem; [assumption | |].
  - rewrite length_map. now apply getitem_length in E.
  - left. eapply getitem_In; eassumption.
Qed.

Lemma grown_yes_no_to_Y_N (df df' : DataFrame) (c : string) :
  wf df -> yes_no_to_Y_N df c = Ok df' -> grown W df df'.
Proof.
  intros Hw. unfold yes_no_to_Y_N.
  destruct (loc_replace df c "yes" "Y") as [df1|e] eqn:E1; cbn [bind];
    [|discriminate].
  intros H. pose proof (grown_loc_replace _ _ _ _ _ Hw E1) as G1.
  eapply grown_trans; [exact G1|].
  eapply grown_loc_replace; [apply G1 | exact H].
Qed.

Lemma grown_normalize_dnase (self : MetadataRetriever) (df df' : DataFrame) :
  wf df -> normalize_dnase self df = Ok df' -> grown W df df'.
Proof.
  intros Hw. unfold normalize_dnase.
  assert (G1 : forall df1,
             (if String.eqb (user_facility self) "jgi_mg"
              then yes_no_to_Y_N df "dna_dnase" else Ok df) = Ok df1 ->
             grown W df df1).
  { intros df1. destruct (String.eqb (user_facility self) "jgi_mg").
    - now apply grown_yes_no_to_Y_N.
    - intros H. injection H as <-. now apply grown_refl. }
  destruct (if String.eqb (user_facility self) "jgi_mg"
            then yes_no_to_Y_N df "dna_dnase" else Ok df) as [df1|e];
    cbn [bind]; [|discriminate].
  specialize (G1 df1 eq_refl). intros H.
  eapply grown_trans; [exact G1|].
  destruct (String.eqb (user_facility self) "jgi_mt").
  - eapply grown_yes_no_to_Y_N; [apply G1 | exact H].
  - injection H as <-. apply grown_refl. apply G1.
Qed.

End Grown.

Section Derivations.

Import pd etl Props.

Ltac derived := unfold derived_labels; cbn [In]; tauto.

Lemma grown_split_lat_lon (df df' : DataFrame) :
  wf df -> split_lat_lon df = Ok df' -> grown derived_labels df df'.
Proof.
  intros Hw. unfold split_lat_lon.
  destruct (mem "lat_lon" (columns df));
    [|intros H; injection H as <-; now apply grown_refl].
  destruct (str df "lat_lon") as [v0|e] eqn:E; cbn [bind]; [|discriminate].
  intros H. eapply grown_setitem_frame; [exact Hw | | | exact H].
  - rewrite erows_length. eapply str_length; eassumption.
  - intros k [<-|[<-|[]]]; derived.
Qed.

Lemma grown_split_depth (df df' : DataFrame) :
  wf df -> split_depth df = Ok df' -> grown derived_labels df df'.
Proof.
  intros Hw. unfold split_depth.
  destruct (mem "depth" (columns df));
    [|intros H; injection H as <-; now apply grown_refl].
  destruct (str df "depth") as [v0|e] eqn:E0; cbn [bind]; [|discriminate].
  assert (G1 : grown derived_labels df
                     (setitem df "depth" (map (str_replace "-" " - ") v0))).
  { apply grown_setitem; [assumption | |].
    - rewrite length_map. eapply str_length; eassumption.
    - left. eapply str_In; eassumption. }
  destruct (str (setitem df "depth" (map (str_replace "-" " - ") v0)) "depth")
    as [v1|e] eqn:E1; cbn [bind]; [|discriminate].
  destruct (List.length (erows (str_split_expand " - " v1)) =? 1).
  - destruct (setitem_list1 _ "minimum_depth" _) as [df2|e] eqn:E2; cbn [bind];
      [|discriminate].
    intros H.
    assert (G2 : grown derived_labels
                       (setitem df "depth" (map (str_replace "-" " - ") v0)) df2).
    { eapply grown_setitem_list1; [apply G1 | | exact E2]. derived. }
    eapply grown_trans; [exact G1|]. eapply grown_trans; [exact G2|].
    eapply grown_setitem_list1; [apply G2 | | exact H]. derived.
  - intros H. eapply grown_trans; [exact G1|].
    eapply grown_setitem_frame; [apply G1 | | | exact H].
    + rewrite erows_length. eapply str_length; eassumption.
    + intros k [<-|[<-|[]]]; derived.
Qed.

Lemma grown_split_geo_loc_name (df df' : DataFrame) :
  wf df -> split_geo_loc_name df = Ok df' -> grown derived_labels df df'.
Proof.
  intros Hw. unfold split_geo_loc_name.
  destruct (mem "geo_loc_name" (columns df));
    [|intros H; injection H as <-; now apply grown_refl].
  destruct (str df "geo_loc_name") as [v0|e] eqn:E; cbn [bind]; [|discriminate].
  intros H. injection H as <-. apply grown_setitem; [assumption | |].
  - rewrite length_map. eapply str_length; eassumption.
  - right. derived.
Qed.

Lemma grown_split_collection_date (df df' : DataFrame) :
  wf df -> split_collection_date df = Ok df' -> grown derived_labels df df'.
Proof.
  intros Hw. unfold split_collection_date.
  destruct (mem "collection_date" (columns df));
    [|intros H; injection H as <-; now apply grown_refl].
  destruct (str df "collection_date") as [v0|e] eqn:E0; cbn [bind]; [|discriminate].
  set (df1 := setitem df "collection_year" _).
  assert (G1 : grown derived_labels df df1).
  { apply grown_setitem; [assumption | |].
    - rewrite length_map. eapply str_length; eassumption.
    - right. derived. }
  destruct (str df1 "collection_date") as [v1|e] eqn:E1; cbn [bind]; [|discriminate].
  set (df2 := setitem df1 "collection_month" _).
  assert (G2 : grown derived_labels df1 df2).
  { apply grown_setitem; [apply G1 | |].
    - rewrite length_map. eapply str_length; eassumption.
    - right. derived. }
  destruct (str df2 "collection_date") as [v2|e] eqn:E2; cbn [bind]; [|discriminate].
  set (df3 := setitem df2 "collection_day" _).
  assert (G3 : grown derived_labels df2 df3).
  { apply grown_setitem; [apply G2 | |].
    - rewrite length_map. eapply str_length; eassumption.
    - right. derived. }
  destruct (getitem df3 "collection_month") as [[months|]|e] eqn:E3; cbn [bind];
    try discriminate.
  destruct (mapM month_name_of months) as [names|e] eqn:E4; cbn [bind];
    [|discriminate].
  intros H. injection H as <-.
  eapply grown_trans; [exact G1|]. eapply grown_trans; [exact G2|].
  eapply grown_trans; [exact G3|].
  apply grown_setitem; [apply G3 | |].
  - rewrite (mapM_length _ _ _ E4). now apply getitem_length in E3.
  - right. derived.
Qed.

Lemma derive_columns_grown (self : MetadataRetriever) (df df' : DataFrame) :
  wf df -> derive_columns self df = Ok df' -> grown derived_labels df df'.
Proof.
  intros Hw. unfold derive_columns.
  destruct (split_lat_lon df) as [df1|e] eqn:E1; cbn [bind]; [|discriminate].
  destruct (split_depth df1) as [df2|e] eqn:E2; cbn [bind]; [|discriminate].
  destruct (split_geo_loc_name df2) as [df3|e] eqn:E3; cbn [bind]; [|discriminate].
  destruct (split_collection_date df3) as [df4|e] eqn:E4; cbn [bind];
    [|discriminate].
  intros E5.
  pose proof (grown_split_lat_lon _ _ Hw E1) as G1.
  pose proof (grown_split_depth _ _ (proj1 G1) E2) as G2.
  pose proof (grown_split_geo_loc_name _ _ (proj1 G2) E3) as G3.
  pose proof (grown_split_collection_date _ _ (proj1 G3) E4) as G4.
  pose proof (grown_normalize_dnase derived_labels _ _ _ (proj1 G4) E5) as G5.
  exact (grown_trans _ _ _ _ G1
           (grown_trans _ _ _ _ G2
              (grown_trans _ _ _ _ G3 (grown_trans _ _ _ _ G4 G5)))).
Qed.

(** X4.  The derivations of lines 107-144 keep the rows well formed and
    their number, keep every column label of the merged table, and add no
    label other than the nine derived ones. *)
Theorem X4_derivations_keep_rows_and_labels
        (self : MetadataRetriever) (df df' : DataFrame) :
  wfb df = true ->
  derive_columns self df = Ok df' ->
  wfb df' = true
  /\ shape0 df' = shape0 df
  /\ (forall c, In c (columns df) -> In c (columns df'))
  /\ (forall c, In c (columns df') -> In c (columns df) \/ In c derived_labels).
Proof.
  intros Hw E. apply wfb_wf in Hw.
  destruct (derive_columns_grown _ _ _ Hw E) as (Gw & Gs & Gk & Ga).
  repeat split; try assumption. now apply wfb_wf.
Qed.

Lemma X4_derivations_keep_rows_and_labels_witness :
  exists df',
    derive_columns Samples.jgi_mg Samples.dnase = Ok df'
    /\ shape0 df' = 3
    /\ In "dnase_rna" (columns df').
Proof.
  eexists. split; [vm_compute; reflexivity|].
  destruct (X4_derivations_keep_rows_and_labels
              Samples.jgi_mg Samples.dnase _ eq_refl eq_refl) as (_ & Hs & Hk & _).
  split; [exact Hs|]. apply Hk. vm_compute. tauto.
Defined.

End Derivations.

(** ** Rows through the retrieval *)

Section RowsKept.

Import pd etl Props.

Lemma length_flat_map_ge {A B : Type} (f : A -> list B) (l : list A) :
  (forall x, 0 < List.length (f x)) ->
  List.length l <= List.length (flat_map f l).
Proof.
  intros H. induction l as [|a l IH]; [apply Nat.le_refl|].
  cbn [flat_map List.length]. rewrite length_app. specialize (H a). lia.
Qed.

Lemma merge_shape_le (left right : DataFrame) (on : string) (df : DataFrame) :
  merge left right on = Ok df -> shape0 left <= shape0 df.
Proof.
  unfold merge, key_position.
  destruct (count on (columns right)) as [|[|n]]; cbn [bind]; try discriminate.
  destruct (count on (columns left)) as [|[|m]]; cbn [bind]; try discriminate.
  destruct (_ ++ _) as [|d ds]; [|discriminate].
  intros H. injection H as <-. unfold shape0. cbn [rows].
  apply length_flat_map_ge. intros l.
  destruct (filter _ (rows right)) as [|m0 ms]; cbn [List.length map]; lia.
Qed.

Lemma merge_step_rows (sd : list (string * list record)) (df df' : DataFrame)
      (key : string) :
  wf df -> merge_step sd df key = Ok df' ->
  wf df' /\ shape0 df <= shape0 df'.
Proof.
  intros Hw. unfold merge_step.
  destruct (negb (empty (group_frame sd key))).
  - destruct (merge df (group_frame sd key) "samp_name") as [df1|e] eqn:E;
      cbn [bind]; [|discriminate].
    intros H. injection H as <-.
    destruct (merge_wf _ _ _ _ Hw (group_frame_wf sd key) E) as [Hw1 _].
    split; [now apply wf_setitem_scalar|].
    rewrite shape0_setitem_scalar. eapply merge_shape_le; eassumption.
  - cbn [bind]. intros H. injection H as <-.
    split; [now apply wf_setitem_scalar|].
    rewrite shape0_setitem_scalar. apply Nat.le_refl.
Qed.

Lemma merge_loop_rows (sd : list (string * list record)) :
  forall (keys : list string) (df df' : DataFrame),
    wf df -> merge_loop sd keys df = Ok df' ->
    wf df' /\ shape0 df <= shape0 df'.
Proof.
  induction keys as [|key keys IH]; intros df df' Hw; cbn [merge_loop].
  - intros H. injection H as <-. split; [assumption | apply Nat.le_refl].
  - destruct (merge_step sd df key) as [df1|e] eqn:E; cbn [bind]; [|discriminate].
    intros H. destruct (merge_step_rows _ _ _ _ Hw E) as [Hw1 Hl1].
    destruct (IH _ _ Hw1 H) as [Hw2 Hl2]. split; [assumption | lia].
Qed.

(** The stages of a retrieval that returns a table. *)
Lemma retrieve_stages (self : MetadataRetriever) (p : Portal)
      (unique_field : string) (sd : list (string * list record))
      (group : string) (df : DataFrame) :
  sampleData p = Some sd ->
  dict_get USER_FACILITY_DICT (user_facility self) = Some group ->
  retrieve_metadata_records self p unique_field = Ok df ->
  exists dfm,
    empty (group_frame sd group) = false
    /\ merge_loop sd (sample_data_keys sd) (group_frame sd group) = Ok dfm
    /\ derive_columns self dfm = Ok df.
Proof.
  intros Hsd Hg. unfold retrieve_metadata_records.
  destruct (authenticate p) as [token|e]; cbn [bind]; [|discriminate].
  unfold load_common_df, response_sampleData. rewrite Hg, Hsd. cbn [bind].
  destruct (empty (group_frame sd group)) eqn:Ee; [discriminate|].
  destruct (merge_loop sd (sample_data_keys sd) (group_frame sd group))
    as [dfm|e] eqn:El; cbn [bind]; [|discriminate].
  intros Hd. exists dfm. now repeat split.
Qed.

(** X6.  Without annotation group nothing is joined and nothing is stamped:
    a retrieval that returns a table has exactly one row per record of the
    facility group, every column is a key of some record or a derived
    label, and [sample_isolated_from] is a column only if a record has that
    key. *)
Theorem X6_no_annotation_group
        (self : MetadataRetriever) (p : Portal) (unique_field : string)
        (sd : list (string * list record)) (group : string)
        (data : list record) (df : DataFrame) :
  sampleData p = Some sd ->
  dict_get USER_FACILITY_DICT (user_facility self) = Some group ->
  dict_get sd group = Some data ->
  sample_data_keys sd = [] ->
  retrieve_metadata_records self p unique_field = Ok df ->
  shape0 df = List.length data
  /\ (forall c, In c (columns df) ->
                (exists r, In r data /\ In c (dict_keys r)) \/ In c derived_labels)
  /\ ((forall r, In r data -> ~ In "sample_isolated_from" (dict_keys r)) ->
      ~ In "sample_isolated_from" (columns df)).
Proof.
  intros Hsd Hg Hd Hk Hr.
  destruct (retrieve_stages _ _ _ _ _ _ Hsd Hg Hr) as (dfm & _ & El & Ed).
  rewrite Hk in El. cbn [merge_loop] in El. injection El as <-.
  destruct (derive_columns_grown _ _ _ (group_frame_wf sd group) Ed)
    as (_ & Gs & _ & Ga).
  unfold group_frame in Gs, Ga. rewrite Hd in Gs, Ga.
  assert (Hcols : forall c, In c (columns df) ->
                            (exists r, In r data /\ In c (dict_keys r))
                            \/ In c derived_labels).
  { intros c Hc. destruct (Ga c Hc) as [H|H]; [left | now right].
    unfold of_records, uniq in H. cbn [columns] in H.
    apply uniq_from_spec in H as [H _]. now apply in_flat_map in H. }
  repeat split.
  - rewrite Gs. unfold shape0, of_records. cbn [rows]. apply length_map.
  - exact Hcols.
  - intros Hn Hc. destruct (Hcols _ Hc) as [[r [Hr1 Hr2]]|H].
    + now apply (Hn r).
    + unfold derived_labels in H. cbn [In] in H.
      repeat (destruct H as [H|H]; [discriminate|]). exact H.
Qed.

Lemma X6_no_annotation_group_witness :
  exists df,
    retrieve_metadata_records Samples.emsl (Samples.serving Samples.lat_lon_short)
                              "samp_name" = Ok df
    /\ shape0 df = 2
    /\ ~ In "sample_isolated_from" (columns df).
Proof.
  destruct (retrieve_metadata_records Samples.emsl
              (Samples.serving Samples.lat_lon_short) "samp_name")
    as [df|e] eqn:E; [|vm_compute in E; discriminate E].
  exists df. split; [reflexivity|].
  destruct (X6_no_annotation_group
              Samples.emsl (Samples.serving Samples.lat_lon_short) "samp_name"
              Samples.lat_lon_short "emsl_data"
              [[("samp_name", "s1"); ("lat_lon", "12.3 -45.6")];
               [("samp_name", "s2"); ("lat_lon", "12.3")]] df
              eq_refl eq_refl eq_refl eq_refl E) as (Hs & _ & Hn).
  split; [exact Hs|]. apply Hn.
  intros r [<-|[<-|[]]]; cbn [dict_keys map fst In];
    intros [H|[H|[]]]; discriminate H.
Defined.

End RowsKept.

(** ** The other facility groups *)

Section OtherFacilities.

Import pd etl Props.

Lemma merge_loop_ext (sd sd' : list (string * list record)) :
  forall (keys : list string) (df : DataFrame),
    (forall k, In k keys -> dict_get sd k = dict_get sd' k) ->
    merge_loop sd keys df = merge_loop sd' keys df.
Proof.
  induction keys as [|key keys IH]; intros df H; cbn [merge_loop];
    [reflexivity|].
  assert (E : merge_step sd df key = merge_step sd' df key).
  { unfold merge_step, group_frame. now rewrite (H key (or_introl eq_refl)). }
  rewrite E. destruct (merge_step sd' df key) as [df1|e]; cbn [bind];
    [|reflexivity].
  apply IH. intros k Hk. apply H. now right.
Qed.

(** X7.  The record lists of the facility groups that the selector does not
    resolve to are never read: two submissions with the same keys that
    agree on the selected group and on every annotation group give the same
    outcome. *)
Theorem X7_other_facility_groups_ignored
        (self : MetadataRetriever) (p p' : Portal) (unique_field : string)
        (sd sd' : list (string * list record)) :
  authenticate p = authenticate p' ->
  sampleData p = Some sd ->
  sampleData p' = Some sd' ->
  dict_keys sd = dict_keys sd' ->
  (forall k,
      dict_get USER_FACILITY_DICT (user_facility self) = Some k
      \/ mem k user_facility_keys = false ->
      dict_get sd k = dict_get sd' k) ->
  retrieve_metadata_records self p unique_field
  = retrieve_metadata_records self p' unique_field.
Proof.
  intros Ha Hsd Hsd' Hkeys Hagree. unfold retrieve_metadata_records.
  rewrite Ha. destruct (authenticate p') as [token|e]; cbn [bind]; [|reflexivity].
  unfold load_common_df, response_sampleData. rewrite Hsd, Hsd'.
  assert (Hk : sample_data_keys sd = sample_data_keys sd').
  { unfold sample_data_keys. now rewrite Hkeys. }
  assert (Hl : forall df, merge_loop sd (sample_data_keys sd) df
                          = merge_loop sd' (sample_data_keys sd') df).
  { intros df. rewrite <- Hk. apply merge_loop_ext. intros k Hin.
    apply Hagree. right. unfold sample_data_keys in Hin.
    apply filter_In in Hin as [_ Hin]. now apply negb_true_iff in Hin. }
  destruct (dict_get USER_FACILITY_DICT (user_facility self)) as [group|] eqn:G;
    cbn [bind]; [|reflexivity].
  assert (Hg : group_frame sd group = group_frame sd' group).
  { unfold group_frame. rewrite (Hagree group); [reflexivity | now left]. }
  rewrite Hg. destruct (empty (group_frame sd' group)); [reflexivity|].
  now rewrite Hl.
Qed.

Lemma X7_other_facility_groups_ignored_witness :
  retrieve_metadata_records Samples.jgi_mg
                            (Samples.serving Samples.full_submission_other_soil)
                            "samp_name"
  = retrieve_metadata_records Samples.jgi_mg
                              (Samples.serving Samples.full_submission_other_emsl)
                              "samp_name".
Proof.
  apply (X7_other_facility_groups_ignored
           Samples.jgi_mg _ _ "samp_name"
           Samples.full_submission_other_soil Samples.full_submission_other_emsl).
  - reflexivity.
  - reflexivity.
  - reflexivity.
  - reflexivity.
  - intros k [H|H].
    + injection H as <-. reflexivity.
    + unfold Samples.full_submission_other_soil,
        Samples.full_submission_other_emsl. cbn [dict_get].
      destruct (String.eqb "jgi_mg_data" k); [reflexivity|].
      destruct (String.eqb_spec "emsl_data" k) as [<-|_]; [discriminate H|].
      reflexivity.
Defined.

End OtherFacilities.

(** ** Columns the derivations leave alone *)

Section Untouched.

Import pd etl Props.

Variable W : list string.

Lemma touches_refl (df : DataFrame) : table df = true -> touches W df df.
Proof. intros H. repeat split; auto. Qed.

Lemma touches_trans (a b c : DataFrame) :
  touches W a b -> touches W b c -> touches W a c.
Proof.
  intros (_ & Hs1 & Ho1) (Ht2 & Hs2 & Ho2). repeat split.
  - assumption.
  - congruence.
  - destruct (Ho1 c0 H H0) as [Hi _]. now destruct (Ho2 c0 Hi H0).
  - destruct (Ho1 c0 H H0) as [Hi E1]. destruct (Ho2 c0 Hi H0) as [_ E2].
    congruence.
Qed.

Lemma touches_setitem (df : DataFrame) (c : string) (vals : list cell) :
  table df = true -> List.length vals = shape0 df -> In c W ->
  touches W df (setitem df c vals).
Proof.
  intros Ht Hlen Hc.
  destruct (setitem_table df c vals Ht Hlen) as (Ht1 & Hs1 & _ & _ & _ & Ho1).
  repeat split; try assumption.
  - apply Ho1; [assumption | intros ->; contradiction].
  - apply Ho1; [assumption | intros ->; contradiction].
Qed.

Lemma touches_setitem2 (df : DataFrame) (c1 c2 : string) (a b : list cell) :
  table df = true -> List.length a = shape0 df -> List.length b = shape0 df ->
  In c1 W -> In c2 W ->
  touches W df (setitem (setitem df c1 a) c2 b).
Proof.
  intros Ht La Lb H1 H2.
  pose proof (touches_setitem df c1 a Ht La H1) as T1.
  eapply touches_trans; [exact T1|].
  apply touches_setitem; [apply T1 | | assumption].
  destruct T1 as (_ & -> & _). assumption.
Qed.

End Untouched.

Section UntouchedSteps.

Import pd etl Props.

Ltac written := unfold written_labels, derived_labels; cbn [In app]; tauto.

Lemma touches_split_lat_lon (df df' : DataFrame) :
  table df = true -> split_lat_lon df = Ok df' -> touches written_labels df df'.
Proof.
  intros Ht. destruct (mem "lat_lon" (columns df)) eqn:Em.
  - apply mem_In in Em. rewrite (split_lat_lon_table _ Ht Em).
    destruct (_ =? 2); [|discriminate].
    intros H. injection H as <-.
    apply touches_setitem2; try assumption;
      try (now rewrite length_map, col_length); written.
  - unfold split_lat_lon. rewrite Em. intros H. injection H as <-.
    now apply touches_refl.
Qed.

Lemma touches_split_depth (df df' : DataFrame) :
  table df = true -> split_depth df = Ok df' -> touches written_labels df df'.
Proof.
  intros Ht. destruct (mem "depth" (columns df)) eqn:Em.
  - apply mem_In in Em. rewrite (split_depth_table _ Ht Em).
    set (depth := map (str_replace "-" " - ") (col "depth" df)).
    assert (Ld : List.length depth = shape0 df).
    { unfold depth. now rewrite length_map, col_length. }
    assert (T1 : touches written_labels df (setitem df "depth" depth)).
    { apply touches_setitem; [assumption | assumption | written]. }
    assert (Hs1 : shape0 (setitem df "depth" depth) = shape0 df) by apply T1.
    destruct (shape0 df =? 1).
    + intros H. injection H as <-. rewrite !setitem_scalar_setitem.
      eapply touches_trans; [exact T1|].
      apply touches_setitem2; [apply T1 | apply repeat_length | | written | written].
      rewrite repeat_length. apply shape0_setitem. apply repeat_length.
    + destruct (_ =? 2); [|discriminate].
      intros H. injection H as <-.
      eapply touches_trans; [exact T1|].
      apply touches_setitem2; [apply T1 | | | written | written];
        rewrite length_map; congruence.
  - unfold split_depth. rewrite Em. intros H. injection H as <-.
    now apply touches_refl.
Qed.

Lemma touches_split_geo_loc_name (df df' : DataFrame) :
  table df = true -> split_geo_loc_name df = Ok df' ->
  touches written_labels df df'.
Proof.
  intros Ht. unfold split_geo_loc_name.
  destruct (mem "geo_loc_name" (columns df)) eqn:Em.
  - apply mem_In in Em. rewrite (table_str _ _ Ht Em). cbn [bind].
    intros H. injection H as <-.
    apply touches_setitem; [assumption | | written].
    now rewrite length_map, col_length.
  - intros H. injection H as <-. now apply touches_refl.
Qed.

Lemma touches_split_collection_date (df df' : DataFrame) :
  table df = true -> split_collection_date df = Ok df' ->
  touches written_labels df df'.
Proof.
  intros Ht. destruct (mem "collection_date" (columns df)) eqn:Em.
  - apply mem_In in Em.
    destruct (split_collection_date_table df Ht Em) as (E & Ht3 & Hs3 & _).
    rewrite E.
    destruct (mapM month_name_of _) as [names|e] eqn:En; cbn [bind];
      [|discriminate].
    intros H. injection H as <-.
    assert (L : forall j, List.length (map (str_split_get "-" j)
                                           (col "collection_date" df)) = shape0 df).
    { intros j. now rewrite length_map, col_length. }
    pose proof (touches_setitem2 written_labels df "collection_year"
                  "collection_month" _ _ Ht (L 0) (L 1)
                  ltac:(written) ltac:(written)) as T2.
    assert (T3 : touches written_labels df
                   (setitem
                      (setitem
                         (setitem df "collection_year"
                                  (map (str_split_get "-" 0) (col "collection_date" df)))
                         "collection_month"
                         (map (str_split_get "-" 1) (col "collection_date" df)))
                      "collection_day"
                      (map (str_split_get "-" 2) (col "collection_date" df)))).
    { eapply touches_trans; [exact T2|].
      apply touches_setitem; [apply T2 | | written].
      destruct T2 as (_ & -> & _). apply L. }
    eapply touches_trans; [exact T3|].
    apply touches_setitem; [assumption | | written].
    rewrite (mapM_length _ _ _ En), Hs3. apply L.
  - unfold split_collection_date. rewrite Em. intros H. injection H as <-.
    now apply touches_refl.
Qed.

Lemma touches_yes_no_to_Y_N (df df' : DataFrame) (c : string) :
  table df = true -> In c written_labels ->
  yes_no_to_Y_N df c = Ok df' -> touches written_labels df df'.
Proof.
  intros Ht Hc H.
  destruct (in_dec string_dec c (columns df)) as [Hin|Hn].
  - destruct (yes_no_to_Y_N_table df c Ht Hin) as (df'' & E & Ht' & _ & _ & Ho).
    rewrite E in H. injection H as <-.
    apply table_spec in Ht as [Hw _].
    destruct (grown_yes_no_to_Y_N [] _ _ _ Hw E) as (_ & Hs & Hk & _).
    repeat split; try assumption.
    + now apply Hk.
    + apply Ho; [assumption | intros ->; contradiction].
  - unfold yes_no_to_Y_N, loc_replace in H.
    rewrite (getitem_absent _ _ Hn) in H. discriminate H.
Qed.

Lemma touches_normalize_dnase (self : MetadataRetriever) (df df' : DataFrame) :
  table df = true -> normalize_dnase self df = Ok df' ->
  touches written_labels df df'.
Proof.
  intros Ht. unfold normalize_dnase.
  assert (T1 : forall df1,
             (if String.eqb (user_facility self) "jgi_mg"
              then yes_no_to_Y_N df "dna_dnase" else Ok df) = Ok df1 ->
             touches written_labels df df1).
  { intros df1. destruct (String.eqb (user_facility self) "jgi_mg").
    - apply touches_yes_no_to_Y_N; [assumption | written].
    - intros H. injection H as <-. now apply touches_refl. }
  destruct (if String.eqb (user_facility self) "jgi_mg"
            then yes_no_to_Y_N df "dna_dnase" else Ok df) as [df1|e];
    cbn [bind]; [|discriminate].
  specialize (T1 df1 eq_refl). intros H.
  eapply touches_trans; [exact T1|].
  destruct (String.eqb (user_facility self) "jgi_mt").
  - apply (touches_yes_no_to_Y_N _ _ "dnase_rna"); [apply T1 | written | exact H].
  - injection H as <-. apply touches_refl. apply T1.
Qed.

(** X8.  On a table the derivations change no column other than the ones
    they write: a column whose label is neither derived nor [depth],
    [dna_dnase] or [dnase_rna] (such as [samp_name]) is in the result with
    the same values, and the result is a table again. *)
Theorem X8_derivations_leave_other_columns
        (self : MetadataRetriever) (df df' : DataFrame) :
  table df = true ->
  derive_columns self df = Ok df' ->
  table df' = true
  /\ forall c, In c (columns df) -> ~ In c written_labels ->
               In c (columns df') /\ col c df' = col c df.
Proof.
  intros Ht. unfold derive_columns.
  destruct (split_lat_lon df) as [df1|e] eqn:E1; cbn [bind]; [|discriminate].
  destruct (split_depth df1) as [df2|e] eqn:E2; cbn [bind]; [|discriminate].
  destruct (split_geo_loc_name df2) as [df3|e] eqn:E3; cbn [bind]; [|discriminate].
  destruct (split_collection_date df3) as [df4|e] eqn:E4; cbn [bind];
    [|discriminate].
  intros E5.
  pose proof (touches_split_lat_lon _ _ Ht E1) as T1.
  pose proof (touches_split_depth _ _ (proj1 T1) E2) as T2.
  pose proof (touches_split_geo_loc_name _ _ (proj1 T2) E3) as T3.
  pose proof (touches_split_collection_date _ _ (proj1 T3) E4) as T4.
  pose proof (touches_normalize_dnase _ _ _ (proj1 T4) E5) as T5.
  pose proof (touches_trans _ _ _ _ T1
                (touches_trans _ _ _ _ T2
                   (touches_trans _ _ _ _ T3 (touches_trans _ _ _ _ T4 T5)))) as T.
  destruct T as (Tt & _ & To). split; assumption.
Qed.

Lemma X8_derivations_leave_other_columns_witness :
  exists df',
    derive_columns Samples.jgi_mg Samples.dnase = Ok df'
    /\ col "samp_name" df' = [Some "s1"; Some "s2"; Some "s3"].
Proof.
  destruct (derive_columns Samples.jgi_mg Samples.dnase) as [df'|e] eqn:E;
    [|vm_compute in E; discriminate E].
  exists df'. split; [reflexivity|].
  destruct (X8_derivations_leave_other_columns Samples.jgi_mg Samples.dnase df'
              eq_refl E) as [_ H].
  apply (H "samp_name").
  - left. reflexivity.
  - unfold written_labels, derived_labels. cbn [In app].
    intros H0. repeat (destruct H0 as [H0|H0]; [discriminate H0|]). exact H0.
Defined.

End UntouchedSteps.

(** ** Single values and missing parts *)

Section SingleValues.

Import pd etl Props.

Lemma append_char (cur : string) (c : ascii) (s : string) :
  ((cur ++ String c EmptyString) ++ s)%string = (cur ++ String c s)%string.
Proof. induction cur as [|a cur IH]; simpl; [reflexivity | now rewrite IH]. Qed.

Lemma append_empty (s : string) : (s ++ EmptyString)%string = s.
Proof. induction s as [|a s IH]; simpl; [reflexivity | now rewrite IH]. Qed.

Lemma replace_no_hyphen (s : string) :
  no_hyphen s = true -> PyStr.replace "-" " - " s = s.
Proof.
  unfold PyStr.replace. induction s as [|c s IH]; cbn [no_hyphen PyStr.replace_go];
    [reflexivity|].
  intros H. apply andb_true_iff in H as [Hc Hs].
  apply negb_true_iff, Ascii.eqb_neq in Hc.
  cbn [prefix]. destruct (ascii_dec "-" c) as [E|_]; [congruence|].
  now rewrite IH.
Qed.

Lemma split_dash_no_hyphen (s : string) :
  no_hyphen s = true ->
  forall cur, PyStr.split_go "-" 0 cur s = [(cur ++ s)%string].
Proof.
  induction s as [|c s IH]; cbn [no_hyphen PyStr.split_go]; intros H cur.
  - now rewrite append_empty.
  - apply andb_true_iff in H as [Hc Hs].
    apply negb_true_iff, Ascii.eqb_neq in Hc.
    cbn [prefix]. destruct (ascii_dec "-" c) as [E|_]; [congruence|].
    rewrite (IH Hs). now rewrite append_char.
Qed.

Lemma split_spaced_dash_no_hyphen (s : string) :
  no_hyphen s = true ->
  forall cur, PyStr.split_go " - " 0 cur s = [(cur ++ s)%string].
Proof.
  induction s as [|c s IH]; cbn [no_hyphen PyStr.split_go]; intros H cur.
  - now rewrite append_empty.
  - apply andb_true_iff in H as [Hc Hs].
    assert (P : prefix " - " (String c s) = false).
    { cbn [prefix]. destruct (ascii_dec " " c) as [_|_]; [|reflexivity].
      destruct s as [|b s']; [reflexivity|].
      cbn [no_hyphen] in Hs. apply andb_true_iff in Hs as [Hb _].
      apply negb_true_iff, Ascii.eqb_neq in Hb. cbn [prefix].
      destruct (ascii_dec "-" b) as [E|_]; [congruence | reflexivity]. }
    rewrite P, (IH Hs). now rewrite append_char.
Qed.

Lemma hyphenless_replace (v : cell) :
  hyphenless v = true -> str_replace "-" " - " v = v.
Proof.
  destruct v as [s|]; cbn [hyphenless str_replace option_map]; [|reflexivity].
  intros H. now rewrite replace_no_hyphen.
Qed.

Lemma hyphenless_parts (v : cell) :
  hyphenless v = true -> split_cell " - " v = [v].
Proof.
  destruct v as [s|]; cbn [hyphenless split_cell]; [|reflexivity].
  intros H. unfold PyStr.split. now rewrite split_spaced_dash_no_hyphen.
Qed.

Lemma longest_single (vals : list cell) :
  forallb hyphenless vals = true -> vals <> [] -> longest " - " vals = 1.
Proof.
  unfold longest. induction vals as [|v vals IH]; [congruence|].
  cbn [forallb map fold_right]. intros H _.
  apply andb_true_iff in H as [Hv Hs]. rewrite (hyphenless_parts _ Hv).
  cbn [List.length]. destruct vals as [|v' vals']; [reflexivity|].
  rewrite IH; [reflexivity | assumption | discriminate].
Qed.

(** C6 fails on the code.  The comment of line 115 announces the case of a
    single depth value, which is to be both minimum and maximum, but line
    117 tests the number of rows of the split frame, not the number of
    parts.  In a frame of several rows whose depth values have no hyphen
    (or are missing) the split has one column, the two-column assignment
    of line 121 is reached, and it raises [ValueError]: no
    [minimum_depth] or [maximum_depth] is assigned. *)
Theorem C6_single_values_raise (df : DataFrame) :
  wf df ->
  count "depth" (columns df) = 1 ->
  1 < shape0 df ->
  forallb hyphenless (col "depth" df) = true ->
  split_depth df = Raise length_error.
Proof.
  intros Hw Hc Hrows Hall. unfold split_depth.
  assert (Hin : In "depth" (columns df)) by (apply count_pos; lia).
  assert (Hm : mem "depth" (columns df) = true) by now apply mem_In.
  rewrite Hm, (str_col _ _ Hc). cbn [bind].
  assert (Hn : map (str_replace "-" " - ") (col "depth" df) = col "depth" df).
  { rewrite <- (map_id (col "depth" df)) at 2. apply map_ext_in. intros v Hv.
    apply hyphenless_replace. rewrite forallb_forall in Hall. now apply Hall. }
  rewrite Hn.
  assert (Ld : List.length (col "depth" df) = shape0 df) by apply col_length.
  set (df1 := setitem df "depth" (col "depth" df)).
  assert (Hc1 : columns df1 = columns df).
  { unfold df1, setitem. cbn [columns]. unfold set_label. now rewrite Hm. }
  assert (Hcount : count "depth" (columns df1) = 1) by now rewrite Hc1.
  assert (Hcol1 : col "depth" df1 = col "depth" df)
    by apply (col_setitem_same _ _ _ Hw Ld).
  rewrite (str_col _ _ Hcount). cbn [bind]. rewrite !Hcol1.
  rewrite erows_length, Ld.
  destruct (Nat.eqb_spec (shape0 df) 1) as [E1|_]; [lia|].
  unfold setitem_frame, check_key_length.
  rewrite width_longest, longest_single; [|assumption|].
  - destruct (is_unique (columns df1)); [reflexivity|].
    cbn [map list_sum fold_right].
    match goal with
    | |- context [?a =? 1] => destruct (Nat.eqb_spec a 1) as [E|_]
    end; [lia | reflexivity].
  - intros E. rewrite E in Ld. cbn in Ld. lia.
Qed.

Lemma C6_single_values_raise_witness :
  split_depth Samples.depth_single_two_rows
  = Raise (ValueError "Columns must be same length as key")
  /\ retrieve_metadata_records Samples.emsl
                               (Samples.serving Samples.single_depths)
                               "samp_name"
     = Raise (ValueError "Columns must be same length as key").
Proof.
  split.
  - apply (C6_single_values_raise Samples.depth_single_two_rows).
    + repeat constructor.
    + reflexivity.
    + vm_compute. lia.
    + reflexivity.
  - reflexivity.
Defined.

(** X9.  Depth values without a range (no hyphen, or missing) are handled
    by the one-row branch only: in a table of one row the value goes to
    both [minimum_depth] and [maximum_depth]; in a table of several rows
    whose depth values are all single the assignment raises
    [ValueError]. *)
Theorem X9_hyphenless_values (df : DataFrame) :
  table df = true ->
  In "depth" (columns df) ->
  forallb hyphenless (col "depth" df) = true ->
  (shape0 df = 1 ->
   exists df',
     split_depth df = Ok df'
     /\ col "depth" df' = col "depth" df
     /\ col "minimum_depth" df' = col "depth" df
     /\ col "maximum_depth" df' = col "depth" df)
  /\ (1 < shape0 df -> split_depth df = Raise length_error).
Proof.
  intros Ht Hin Hall. rewrite (split_depth_table _ Ht Hin).
  assert (Hn : map (str_replace "-" " - ") (col "depth" df) = col "depth" df).
  { rewrite <- (map_id (col "depth" df)) at 2. apply map_ext_in. intros v Hv.
    apply hyphenless_replace. rewrite forallb_forall in Hall. now apply Hall. }
  assert (Hp : map (part " - " 0) (col "depth" df) = col "depth" df).
  { rewrite <- (map_id (col "depth" df)) at 2. apply map_ext_in. intros v Hv.
    unfold part. rewrite hyphenless_parts; [reflexivity|].
    rewrite forallb_forall in Hall. now apply Hall. }
  rewrite Hn, Hp.
  assert (Ld : List.length (col "depth" df) = shape0 df) by apply col_length.
  destruct (setitem_table df "depth" (col "depth" df) Ht Ld)
    as (Ht1 & Hs1 & Hc1 & Hi1 & Hv1 & Ho1).
  set (df1 := setitem df "depth" (col "depth" df)) in *.
  split.
  - intros E. rewrite E. cbn [Nat.eqb]. eexists. split; [reflexivity|].
    rewrite !setitem_scalar_setitem.
    set (h := hd None (col "depth" df)).
    assert (La : List.length (repeat h (shape0 df1)) = shape0 df1)
      by apply repeat_length.
    assert (Lb : List.length
                   (repeat h (shape0 (setitem df1 "minimum_depth"
                                              (repeat h (shape0 df1)))))
                 = shape0 df1).
    { rewrite repeat_length. now apply shape0_setitem. }
    destruct (setitem2_table df1 "minimum_depth" "maximum_depth" _ _ Ht1 La Lb
                             ltac:(discriminate))
      as (_ & Hs & Ha & Hb & Ho).
    destruct (Ho "depth" Hi1 ltac:(discriminate) ltac:(discriminate)) as [_ Hd].
    assert (Hh : repeat h (shape0 df1) = col "depth" df).
    { rewrite Hs1, <- Ld. unfold h. rewrite <- Ld in E.
      destruct (col "depth" df) as [|d [|d' l]]; try discriminate. reflexivity. }
    repeat split.
    + now rewrite Hd.
    + now rewrite Ha.
    + rewrite Hb. rewrite shape0_setitem by assumption. assumption.
  - intros Hrows.
    destruct (Nat.eqb_spec (shape0 df) 1) as [E1|_]; [lia|].
    rewrite longest_single; [reflexivity | assumption |].
    intros E. rewrite E in Ld. cbn in Ld. lia.
Qed.

Lemma X9_hyphenless_values_witness :
  (exists df',
      split_depth Samples.depth_single_one_row = Ok df'
      /\ col "minimum_depth" df' = [Some "5"]
      /\ col "maximum_depth" df' = [Some "5"])
  /\ split_depth Samples.depth_single_two_rows
     = Raise (ValueError "Columns must be same length as key").
Proof.
  split.
  - destruct (X9_hyphenless_values Samples.depth_single_one_row) as [H _];
      [reflexivity | right; left; reflexivity | reflexivity |].
    destruct (H eq_refl) as (df' & E & _ & Hmin & Hmax).
    exists df'. repeat split; assumption.
  - destruct (X9_hyphenless_values Samples.depth_single_two_rows) as [_ H];
      [reflexivity | right; left; reflexivity | reflexivity |].
    apply H. vm_compute. lia.
Defined.

Lemma first_part_before (c : ascii) (s : string) :
  forall cur,
    nth_error (PyStr.split_go (String c EmptyString) 0 cur s) 0
    = Some (cur ++ before c s)%string.
Proof.
  induction s as [|a s IH]; intros cur; cbn [PyStr.split_go before].
  - cbn [nth_error]. now rewrite append_empty.
  - cbn [prefix]. destruct (ascii_dec c a) as [<-|Hne].
    + rewrite Ascii.eqb_refl. destruct s; cbn [nth_error]; now rewrite append_empty.
    + assert (E : Ascii.eqb a c = false)
        by (apply Ascii.eqb_neq; congruence).
      rewrite E, IH. now rewrite append_char.
Qed.

(** X10.  On a table with a [geo_loc_name] column the country derivation
    never fails: [country_name] is the text before the first colon of each
    value (the whole value when it has no colon) and is missing exactly
    where [geo_loc_name] is; ["USA: California"] gives ["USA"]. *)
Theorem X10_country_name (df : DataFrame) :
  table df = true ->
  In "geo_loc_name" (columns df) ->
  exists df',
    split_geo_loc_name df = Ok df'
    /\ col "country_name" df'
       = map (option_map (before ":")) (col "geo_loc_name" df)
    /\ col "geo_loc_name" df' = col "geo_loc_name" df
    /\ before ":" "USA: California" = "USA".
Proof.
  intros Ht Hin. unfold split_geo_loc_name.
  apply mem_In in Hin as Hm. rewrite Hm, (table_str _ _ Ht Hin). cbn [bind].
  eexists. split; [reflexivity|].
  assert (L : List.length (map (str_split_get ":" 0) (col "geo_loc_name" df))
              = shape0 df) by now rewrite length_map, col_length.
  destruct (setitem_table df "country_name" _ Ht L) as (_ & _ & _ & _ & Hv & Ho).
  repeat split.
  - rewrite Hv. apply map_ext. intros [s|]; [|reflexivity].
    cbn [str_split_get option_map]. unfold PyStr.split.
    now rewrite first_part_before.
  - now apply Ho.
Qed.

Lemma X10_country_name_witness :
  exists df',
    split_geo_loc_name Samples.located = Ok df'
    /\ col "country_name" df' = [Some "USA"; Some "France"; None].
Proof.
  destruct (X10_country_name Samples.located) as (df' & E & Hc & _);
    [reflexivity | right; left; reflexivity |].
  exists df'. split; [exact E | exact Hc].
Defined.

Lemma mapM_raises {A B : Type} (f : A -> result B) (l : list A) (x : A) :
  In x l -> is_ok (f x) = false -> is_ok (mapM f l) = false.
Proof.
  induction l as [|a l IH]; intros Hin Hx; [destruct Hin|].
  cbn [mapM]. destruct (f a) as [y|e] eqn:E; cbn [bind]; [|reflexivity].
  destruct Hin as [->|Hin]; [rewrite E in Hx; discriminate|].
  specialize (IH Hin Hx). destruct (mapM f l); [discriminate | reflexivity].
Qed.

(** X11.  Once the table has a [collection_date] column, one value that is
    missing or has no hyphen is enough to make the date derivation raise:
    the month of that row is missing and [int] rejects it. *)
Theorem X11_incomplete_date_raises (df : DataFrame) (d : cell) :
  table df = true ->
  In "collection_date" (columns df) ->
  In d (col "collection_date" df) ->
  hyphenless d = true ->
  is_ok (split_collection_date df) = false.
Proof.
  intros Ht Hin Hd Hs.
  destruct (split_collection_date_table df Ht Hin) as (E & _).
  rewrite E.
  assert (Hm : str_split_get "-" 1 d = None).
  { destruct d as [s|]; [|reflexivity]. cbn [hyphenless] in Hs.
    cbn [str_split_get]. unfold PyStr.split.
    now rewrite split_dash_no_hyphen. }
  assert (R : is_ok (mapM month_name_of
                       (map (str_split_get "-" 1) (col "collection_date" df)))
              = false).
  { apply mapM_raises with (x := str_split_get "-" 1 d).
    - now apply in_map.
    - now rewrite Hm. }
  destruct (mapM month_name_of _); [discriminate R | reflexivity].
Qed.

Lemma X11_incomplete_date_raises_witness :
  is_ok (split_collection_date Samples.dated_incomplete) = false.
Proof.
  apply (X11_incomplete_date_raises Samples.dated_incomplete (Some "2020")).
  - reflexivity.
  - right. left. reflexivity.
  - right. left. reflexivity.
  - reflexivity.
Defined.

End SingleValues.

(** ** Calendar dates *)

Section CalendarDates.

Import pd etl Props.

















End CalendarDates.

(** ** The header block *)

Section HeaderBlock.

Import pd etl Props.

Lemma firstn_length_app {A : Type} (l1 l2 : list A) :
  firstn (List.length l1) (l1 ++ l2) = l1.
Proof.
  rewrite firstn_app, Nat.sub_diag, firstn_all. cbn [firstn]. apply app_nil_r.
Qed.

Lemma skipn_length_app {A : Type} (l1 l2 : list A) :
  skipn (List.length l1) (l1 ++ l2) = l2.
Proof.
  rewrite skipn_app, Nat.sub_diag, skipn_all. reflexivity.
Qed.

(** Lines 185-195 on a frame with at least one row. *)
Lemma promote_and_rotate_rows (cols : list string) (R : list (list cell))
      (l : list cell) :
  promote_and_rotate (mkDF cols (R ++ [l]))
  = Ok (mkDF (map label_of l) (map Some cols :: R)).
Proof.
  unfold promote_and_rotate, iloc_last. cbn [rows columns].
  assert (E : match R ++ [l] with
              | [] => Raise IndexError
              | r :: rs => Ok (last rs r)
              end = Ok l).
  { destruct R as [|r R']; [reflexivity|]. cbn [app]. now rewrite last_last. }
  rewrite E. cbn [bind]. rewrite removelast_last.
  rewrite length_app. cbn [List.length]. rewrite Nat.add_sub.
  now rewrite skipn_length_app, firstn_length_app.
Qed.

Lemma nth_error_last (l : list string) (n : nat) :
  List.length l = S n -> nth_error l n = Some (last l EmptyString).
Proof.
  revert n. induction l as [|a l IH]; intros n H; [discriminate|].
  destruct l as [|b l'].
  - cbn in H. injection H as <-. reflexivity.
  - destruct n as [|n]; [discriminate|]. cbn [nth_error].
    change (last (a :: b :: l') EmptyString) with (last (b :: l') EmptyString).
    apply IH. cbn in *. lia.
Qed.

Lemma header_lists_keys (m : mapper) : dict_keys (header_lists m) = dict_keys m.
Proof.
  unfold dict_keys, header_lists. rewrite map_map. apply map_ext. reflexivity.
Qed.

Lemma combine_headers_df_promoted (self : SpreadsheetCreator) (n : nat) :
  json_mapper self <> [] ->
  (forall kv, In kv (header_lists (json_mapper self)) ->
              List.length (snd kv) = S n) ->
  combine_headers_df self true
  = Ok (mkDF (map (fun kv => last (snd kv) EmptyString)
                  (header_lists (json_mapper self)))
             (map Some (dict_keys (json_mapper self))
                  :: map (fun i => map (fun kv => nth_error (snd kv) i)
                                       (header_lists (json_mapper self)))
                         (seq 0 n))).
Proof.
  intros Hne Hlen. unfold combine_headers_df.
  destruct (header_lists (json_mapper self)) as [|[k0 l0] d'] eqn:Ed.
  { destruct (json_mapper self); [congruence | discriminate Ed]. }
  assert (Hof : of_dict ((k0, l0) :: d')
                = Ok (mkDF (dict_keys ((k0, l0) :: d'))
                           (map (fun i => map (fun kv => nth_error (snd kv) i)
                                              ((k0, l0) :: d'))
                                (seq 0 n)
                                ++ [map (fun kv => nth_error (snd kv) n)
                                        ((k0, l0) :: d')]))).
  { unfold of_dict.
    assert (F : forallb (fun kv => List.length (snd kv) =? List.length l0)
                        ((k0, l0) :: d') = true).
    { apply forallb_forall. intros kv Hkv. apply Nat.eqb_eq.
      rewrite (Hlen kv Hkv). symmetry. apply (Hlen (k0, l0)). now left. }
    rewrite F. pose proof (Hlen (k0, l0) (or_introl eq_refl)) as H0.
    cbn [snd] in H0. rewrite H0.
    rewrite seq_S, map_app. reflexivity. }
  rewrite Hof. cbn [bind]. rewrite promote_and_rotate_rows.
  rewrite <- Ed, header_lists_keys. do 2 f_equal.
  rewrite map_map. apply map_ext_in. intros kv Hkv. rewrite Ed in Hkv.
  now rewrite (nth_error_last _ _ (Hlen kv Hkv)).
Qed.

(** X12.  With the header flag on and the same number [n+1] of header
    labels under every key of a non-empty mapper, the header block has
    [n+1] rows: its column names are the last label of every key, its first
    row is the row of mapper keys, then come the label rows 0 to [n-1] in
    declaration order. *)
Theorem X12_header_block (self : SpreadsheetCreator) (n : nat) :
  json_mapper self <> [] ->
  (forall kv, In kv (header_lists (json_mapper self)) ->
              List.length (snd kv) = S n) ->
  combine_headers_df self true
  = Ok (mkDF (map (fun kv => last (snd kv) EmptyString)
                  (header_lists (json_mapper self)))
             (map Some (dict_keys (json_mapper self))
                  :: map (fun i => map (fun kv => nth_error (snd kv) i)
                                       (header_lists (json_mapper self)))
                         (seq 0 n))).
Proof. apply combine_headers_df_promoted. Qed.

Lemma X12_header_block_witness :
  combine_headers_df (mkCreator Samples.mapper_level Samples.two_samples) true
  = Ok (mkDF ["Analyte"; "Lab2"]
             [[Some "A"; Some "B"]; [Some "Lab"; Some "Lab1"]]).
Proof.
  apply (X12_header_block
           (mkCreator Samples.mapper_level Samples.two_samples) 1).
  - discriminate.
  - intros kv [<-|[<-|[]]]; reflexivity.
Defined.

(** X21.  With the header flag on, a mapper none of whose keys declares a
    header label (an empty mapper too) has no row to promote: the header
    block raises [IndexError], and so does the spreadsheet, whatever the
    metadata table. *)
Theorem X21_no_header_label_raises (self : SpreadsheetCreator) :
  (forall kv, In kv (header_lists (json_mapper self)) -> snd kv = []) ->
  combine_headers_df self true = Raise IndexError
  /\ create_spreadsheet self true = Raise IndexError.
Proof.
  intros Hnil.
  assert (E : combine_headers_df self true = Raise IndexError).
  { unfold combine_headers_df, of_dict.
    destruct (header_lists (json_mapper self)) as [|[k0 l0] d'] eqn:Ed;
      [reflexivity|].
    assert (E0 : l0 = []) by apply (Hnil (k0, l0) (or_introl eq_refl)).
    subst l0. cbn [List.length].
    assert (F : forallb (fun kv : string * list string => List.length (snd kv) =? 0)
                        ((k0, []) :: d') = true).
    { apply forallb_forall. intros kv Hkv. now rewrite (Hnil kv Hkv). }
    rewrite F. reflexivity. }
  split; [exact E|]. unfold create_spreadsheet. rewrite E. reflexivity.
Qed.

Lemma X21_no_header_label_raises_witness :
  combine_headers_df (mkCreator Samples.mapper_bare Samples.two_samples) true
  = Raise IndexError
  /\ create_spreadsheet (mkCreator Samples.mapper_bare Samples.two_samples) true
     = Raise IndexError.
Proof.
  apply (X21_no_header_label_raises
           (mkCreator Samples.mapper_bare Samples.two_samples)).
  intros kv [<-|[]]. reflexivity.
Defined.

End HeaderBlock.

(** ** The row block *)

Section RowBlock.

Import pd etl Props.

Variable metadata : DataFrame.
Hypothesis metadata_table : table metadata = true.

Lemma add_sample_column_invalid (acc : DataFrame)
      (kv : string * list (string * string)) :
  valid_entry metadata kv = false -> add_sample_column metadata acc kv = Ok acc.
Proof.
  unfold valid_entry, entry_source, add_sample_column.
  destruct (dict_get (snd kv) "sub_port_mapping") as [source|]; [|reflexivity].
  now intros ->.
Qed.

Lemma add_sample_column_valid (acc : DataFrame)
      (kv : string * list (string * string)) :
  valid_entry metadata kv = true ->
  exists source,
    entry_source kv = Some source
    /\ In source (columns metadata)
    /\ add_sample_column metadata acc kv
       = Ok (setitem acc (entry_label kv) (col source metadata)).
Proof.
  unfold valid_entry, entry_source, add_sample_column, entry_label.
  destruct (dict_get (snd kv) "sub_port_mapping") as [source|]; [|discriminate].
  intros Hm. exists source. rewrite Hm. apply mem_In in Hm.
  rewrite (table_getitem _ _ metadata_table Hm). now repeat split.
Qed.

Lemma setitem_new (acc : DataFrame) (L : string) (vals : list cell) :
  rows_frame metadata acc -> ~ In L (columns acc) ->
  List.length vals = shape0 metadata ->
  table (setitem acc L vals) = true
  /\ shape0 (setitem acc L vals) = shape0 metadata
  /\ columns (setitem acc L vals) = columns acc ++ [L]
  /\ col L (setitem acc L vals) = vals
  /\ (forall c, In c (columns acc) -> col c (setitem acc L vals) = col c acc).
Proof.
  intros [->|[Ht Hs]] Hn Hlen.
  - rewrite setitem_empty_frame. repeat split.
    + apply table_spec. split; [|reflexivity]. unfold wf. cbn [rows columns].
      apply Forall_forall. intros r Hr. apply in_map_iff in Hr as [v [<- _]].
      reflexivity.
    + unfold shape0. cbn [rows]. now rewrite length_map.
    + unfold col, column_at. cbn [columns rows index_of].
      rewrite String.eqb_refl, map_map. cbn [nth]. apply map_id.
    + intros c [].
  - assert (Hlen' : List.length vals = shape0 acc) by congruence.
    destruct (setitem_table acc L vals Ht Hlen') as (Ht1 & Hs1 & Hc1 & _ & Hv1 & Ho1).
    repeat split; try assumption.
    + congruence.
    + rewrite Hc1. unfold set_label. apply mem_false in Hn. now rewrite Hn.
    + intros c Hc. apply Ho1; [assumption | intros ->; contradiction].
Qed.

Lemma foldM_add_sample_column :
  forall (m : mapper) (acc : DataFrame),
    rows_frame metadata acc ->
    NoDup (columns acc ++ map entry_label (filter (valid_entry metadata) m)) ->
    exists r,
      foldM (add_sample_column metadata) m acc = Ok r
      /\ rows_frame metadata r
      /\ columns r
         = columns acc ++ map entry_label (filter (valid_entry metadata) m)
      /\ (forall c, In c (columns acc) -> col c r = col c acc)
      /\ (forall kv source,
             In kv m -> valid_entry metadata kv = true ->
             entry_source kv = Some source ->
             col (entry_label kv) r = col source metadata).
Proof.
  induction m as [|kv m IH]; intros acc Hacc Hnd; cbn [foldM filter map].
  - exists acc. rewrite app_nil_r. repeat split; auto. intros kv source [].
  - destruct (valid_entry metadata kv) eqn:Ev.
    + destruct (add_sample_column_valid acc kv Ev) as (source & Es & Hin & Ea).
      rewrite Ea. cbn [bind].
      cbn [filter] in Hnd. rewrite Ev in Hnd. cbn [map] in Hnd.
      assert (HnL : ~ In (entry_label kv) (columns acc)).
      { apply NoDup_remove_2 in Hnd. intros Hi. apply Hnd.
        apply in_or_app. now left. }
      destruct (setitem_new acc (entry_label kv) (col source metadata) Hacc HnL
                            (col_length _ _))
        as (Ht1 & Hs1 & Hc1 & Hv1 & Ho1).
      set (acc1 := setitem acc (entry_label kv) (col source metadata)) in *.
      destruct (IH acc1) as (r & Er & Hr & Hcr & Hor & Hvr).
      * right. now split.
      * rewrite Hc1, <- app_assoc. exact Hnd.
      * exists r. split; [exact Er|]. split; [exact Hr|]. split.
        { rewrite Hcr, Hc1, <- app_assoc. reflexivity. }
        split.
        { intros c Hc. rewrite Hor.
          - now apply Ho1.
          - rewrite Hc1. apply in_or_app. now left. }
        intros kv' source' [<-|Hkv'] Hv' Es'.
        { rewrite Hor.
          - rewrite Hv1. congruence.
          - rewrite Hc1. apply in_or_app. right. now left. }
        now apply (Hvr kv' source').
    + rewrite (add_sample_column_invalid acc kv Ev). cbn [bind].
      cbn [filter] in Hnd. rewrite Ev in Hnd.
      destruct (IH acc Hacc Hnd) as (r & Er & Hr & Hcr & Hor & Hvr).
      exists r. repeat split; try assumption.
      intros kv' source' [<-|Hkv'] Hv' Es'; [congruence|].
      now apply (Hvr kv' source').
Qed.

End RowBlock.

Section RowBlockProperty.

Import pd etl Props.

(** X13.  On a metadata table the row block is built without error.  Keys
    without [sub_port_mapping], or mapped to a column the table lacks, add
    nothing.  When the labels of the remaining keys (the [header] field, or
    the key) are distinct, the block has exactly these labels as columns,
    in mapper order, each holding the values of its mapped column. *)
Theorem X13_row_block (self : SpreadsheetCreator) :
  table (metadata_df self) = true ->
  NoDup (map entry_label
             (filter (valid_entry (metadata_df self)) (json_mapper self))) ->
  exists rows_df,
    combine_sample_rows_df self = Ok rows_df
    /\ columns rows_df
       = map entry_label
             (filter (valid_entry (metadata_df self)) (json_mapper self))
    /\ (columns rows_df <> [] -> shape0 rows_df = shape0 (metadata_df self))
    /\ (forall kv source,
           In kv (json_mapper self) ->
           valid_entry (metadata_df self) kv = true ->
           entry_source kv = Some source ->
           col (entry_label kv) rows_df = col source (metadata_df self)).
Proof.
  intros Ht Hnd. unfold combine_sample_rows_df.
  destruct (foldM_add_sample_column (metadata_df self) Ht (json_mapper self)
                                    empty_frame)
    as (r & Er & Hr & Hcr & _ & Hvr).
  - now left.
  - exact Hnd.
  - exists r. split; [exact Er|]. split; [exact Hcr|]. split; [|exact Hvr].
    intros Hne. destruct Hr as [->|[_ Hs]]; [|exact Hs].
    exfalso. apply Hne. reflexivity.
Qed.

Lemma X13_row_block_witness :
  exists rows_df,
    combine_sample_rows_df (mkCreator Samples.mapper_headed Samples.two_samples)
    = Ok rows_df
    /\ columns rows_df = ["Sample Name"; "pH"]
    /\ col "pH" rows_df = [Some "7"; None].
Proof.
  destruct (X13_row_block (mkCreator Samples.mapper_headed Samples.two_samples))
    as (rows_df & E & Hc & _ & Hv).
  - reflexivity.
  - vm_compute. repeat constructor; simpl; intuition discriminate.
  - exists rows_df. split; [exact E|]. split; [exact Hc|].
    apply (Hv ("2", [("header", "pH"); ("sub_port_mapping", "ph")]) "ph").
    + right. left. reflexivity.
    + reflexivity.
    + reflexivity.
Defined.

End RowBlockProperty.

(** ** Stacking the two blocks *)

Section Stacking.

Import pd etl Props.

Lemma map_const_repeat {A B : Type} (b : B) (l : list A) :
  map (fun _ => b) l = repeat b (List.length l).
Proof. induction l as [|a l IH]; cbn; [reflexivity | now rewrite IH]. Qed.

Lemma In_uniq (l : list string) (c : string) : In c (uniq l) <-> In c l.
Proof.
  unfold uniq. destruct (uniq_from_spec l []) as [_ H]. rewrite H.
  cbn [In]. tauto.
Qed.

Lemma reindex_columns_unique (df : DataFrame) (labels : list string) :
  is_unique (columns df) = true ->
  exists df',
    reindex_columns df labels = Ok df'
    /\ shape0 df' = shape0 df
    /\ (forall c, In c labels ->
                  map (fun r => nth (index_of c labels) r None) (rows df')
                  = padded c df).
Proof.
  intros Hu. unfold reindex_columns.
  destruct (list_eq_dec string_dec (columns df) labels) as [E|_].
  - exists df. repeat split. intros c Hc. unfold padded. rewrite <- E in *.
    apply mem_In in Hc. now rewrite Hc.
  - rewrite Hu. eexists. split; [reflexivity|]. split.
    + unfold shape0. cbn [rows]. apply length_map.
    + intros c Hc. cbn [rows]. rewrite map_map. unfold padded.
      assert (N : forall r : list cell,
                 nth (index_of c labels)
                     (map (fun c0 => if mem c0 (columns df)
                                     then nth (index_of c0 (columns df)) r None
                                     else None) labels) None
                 = if mem c (columns df)
                   then nth (index_of c (columns df)) r None else None).
      { intros r. apply nth_error_nth. rewrite nth_error_map.
        now rewrite (index_of_nth_error _ _ Hc). }
      rewrite (map_ext _ _ N).
      destruct (mem c (columns df)); [reflexivity|].
      apply map_const_repeat.
Qed.

Lemma concat_unique (a b : DataFrame) :
  is_unique (columns a) = true ->
  is_unique (columns b) = true ->
  exists out,
    concat a b = Ok out
    /\ shape0 out = shape0 a + shape0 b
    /\ (forall c, In c (columns out) <-> In c (columns a) \/ In c (columns b))
    /\ (forall c, In c (columns out) -> col c out = padded c a ++ padded c b).
Proof.
  intros Ha Hb. unfold concat.
  set (labels := if list_eq_dec string_dec (columns a) (columns b)
                 then columns a
                 else match columns a, columns b with
                      | _, [] => columns a
                      | [], _ => columns b
                      | _, _ => uniq (columns a ++ columns b)
                      end).
  destruct (reindex_columns_unique a labels Ha) as (a' & Ea & Sa & Ca).
  destruct (reindex_columns_unique b labels Hb) as (b' & Eb & Sb & Cb).
  rewrite Ea, Eb. cbn [bind]. eexists. split; [reflexivity|]. repeat split.
  - unfold shape0 in *. cbn [rows]. rewrite length_app. congruence.
  - cbn [columns]. unfold labels.
    destruct (list_eq_dec string_dec (columns a) (columns b)) as [E|_];
      [now left|].
    destruct (columns b) as [|y ys]; [destruct (columns a); now left|].
    destruct (columns a) as [|x xs]; [now right|].
    intros H. apply (proj1 (In_uniq _ _)) in H. now apply in_app_or in H.
  - cbn [columns]. unfold labels.
    destruct (list_eq_dec string_dec (columns a) (columns b)) as [E|_].
    + rewrite <- E. tauto.
    + destruct (columns b) as [|y ys].
      * destruct (columns a); intros [H|[]]; assumption.
      * destruct (columns a) as [|x xs]; [intros [[]|H]; assumption|].
        intros H. apply (proj2 (In_uniq _ _)). now apply in_or_app.
  - intros c Hc. cbn [columns] in Hc. unfold col, column_at. cbn [columns rows].
    rewrite map_app, (Ca c Hc), (Cb c Hc). reflexivity.
Qed.

(** X14.  When the header block and the row block have distinct labels
    each, the spreadsheet is built without error and stacks them: its rows
    are those of the header block followed by those of the row block, its
    columns are the labels of either block, and under a label a block lacks
    its rows hold missing cells. *)
Theorem X14_blocks_stacked (self : SpreadsheetCreator) (header : bool)
        (headers_df rows_df : DataFrame) :
  combine_headers_df self header = Ok headers_df ->
  combine_sample_rows_df self = Ok rows_df ->
  is_unique (columns headers_df) = true ->
  is_unique (columns rows_df) = true ->
  exists out,
    create_spreadsheet self header = Ok out
    /\ shape0 out = shape0 headers_df + shape0 rows_df
    /\ (forall c, In c (columns out)
                  <-> In c (columns headers_df) \/ In c (columns rows_df))
    /\ (forall c, In c (columns out) ->
                  col c out = padded c headers_df ++ padded c rows_df).
Proof.
  intros Eh Er Hh Hr. unfold create_spreadsheet, combine_headers_and_rows.
  rewrite Eh, Er. cbn [bind]. now apply concat_unique.
Qed.

Lemma X14_blocks_stacked_witness :
  exists out,
    create_spreadsheet (mkCreator Samples.mapper_level Samples.two_samples) true
    = Ok out
    /\ shape0 out = 4
    /\ col "A" out = [None; None; Some "s1"; Some "s2"]
    /\ col "Lab2" out = [Some "B"; Some "Lab1"; None; None].
Proof.
  destruct (X14_blocks_stacked
              (mkCreator Samples.mapper_level Samples.two_samples) true
              (mkDF ["Analyte"; "Lab2"]
                    [[Some "A"; Some "B"]; [Some "Lab"; Some "Lab1"]])
              (mkDF ["A"] [[Some "s1"]; [Some "s2"]]))
    as (out & E & Hs & Hi & Hc); try reflexivity.
  exists out. split; [exact E|]. split; [exact Hs|]. split.
  - apply (Hc "A"). apply Hi. right. left. reflexivity.
  - apply (Hc "Lab2"). apply Hi. left. right. left. reflexivity.
Defined.

End Stacking.

(** ** Headers above their data *)

Section Aligned.

Import pd etl Props.

Lemma filter_all {A : Type} (f : A -> bool) (l : list A) :
  (forall x, In x l -> f x = true) -> filter f l = l.
Proof.
  induction l as [|a l IH]; intros H; [reflexivity|]. cbn [filter].
  rewrite (H a (or_introl eq_refl)). f_equal. apply IH. intros x Hx.
  apply H. now right.
Qed.

Lemma concat_same_columns (a b : DataFrame) :
  columns a = columns b ->
  concat a b = Ok (mkDF (columns a) (rows a ++ rows b)).
Proof.
  intros E. unfold concat, reindex_columns.
  destruct (list_eq_dec string_dec (columns a) (columns b)) as [_|N];
    [|contradiction].
  destruct (list_eq_dec string_dec (columns a) (columns a)) as [_|N];
    [|contradiction].
  destruct (list_eq_dec string_dec (columns b) (columns a)) as [_|N];
    [|congruence].
  reflexivity.
Qed.

(** X15.  The usual mapper: every key has a mapping to a column of the
    table and exactly one header label, which is also the label of its data
    column (a field named [header]); the labels are distinct.  With the flag
    on, the spreadsheet has these labels as column names, the row of mapper
    keys first, and below it the row block, each label holding the values
    of its mapped column: no cell is missing for want of a column. *)
Theorem X15_headers_above_data (self : SpreadsheetCreator) :
  table (metadata_df self) = true ->
  json_mapper self <> [] ->
  (forall kv, In kv (json_mapper self) ->
              valid_entry (metadata_df self) kv = true
              /\ entry_headers kv = [entry_label kv]) ->
  NoDup (map entry_label (json_mapper self)) ->
  exists rows_df,
    combine_sample_rows_df self = Ok rows_df
    /\ create_spreadsheet self true
       = Ok (mkDF (map entry_label (json_mapper self))
                  (map Some (dict_keys (json_mapper self)) :: rows rows_df))
    /\ columns rows_df = map entry_label (json_mapper self)
    /\ shape0 rows_df = shape0 (metadata_df self)
    /\ (forall kv source,
           In kv (json_mapper self) -> entry_source kv = Some source ->
           col (entry_label kv) rows_df = col source (metadata_df self)).
Proof.
  intros Ht Hne Hall Hnd.
  assert (Hf : filter (valid_entry (metadata_df self)) (json_mapper self)
               = json_mapper self).
  { apply filter_all. intros kv Hkv. now apply Hall. }
  destruct (foldM_add_sample_column (metadata_df self) Ht (json_mapper self)
                                    empty_frame)
    as (r & Er & Hrf & Hcr & _ & Hvr).
  { now left. }
  { rewrite Hf. exact Hnd. }
  rewrite Hf in Hcr. cbn [columns empty_frame app] in Hcr.
  assert (Eh : combine_headers_df self true
               = Ok (mkDF (map entry_label (json_mapper self))
                          [map Some (dict_keys (json_mapper self))])).
  { rewrite (combine_headers_df_promoted self 0 Hne).
    - do 2 f_equal. unfold header_lists. rewrite map_map.
      apply map_ext_in. intros kv Hkv. cbn [snd].
      destruct (Hall kv Hkv) as [_ E]. unfold entry_headers in E.
      now rewrite E.
    - intros kv' Hkv'. unfold header_lists in Hkv'.
      apply in_map_iff in Hkv' as [kv [<- Hkv]]. cbn [snd].
      destruct (Hall kv Hkv) as [_ E]. unfold entry_headers in E.
      now rewrite E. }
  exists r. split; [exact Er|]. split.
  - unfold create_spreadsheet, combine_headers_and_rows.
    unfold combine_sample_rows_df in Er |- *. rewrite Eh, Er. cbn [bind].
    rewrite concat_same_columns; [reflexivity|]. cbn [columns]. now rewrite Hcr.
  - split; [exact Hcr|]. split.
    + destruct Hrf as [->|[_ Hs]]; [|exact Hs].
      cbn [columns empty_frame] in Hcr. destruct (json_mapper self);
        [congruence | discriminate Hcr].
    + intros kv source Hkv Es.
      apply (Hvr kv source Hkv); [now apply Hall | exact Es].
Qed.

Lemma X15_headers_above_data_witness :
  create_spreadsheet (mkCreator Samples.mapper_headed Samples.two_samples) true
  = Ok (mkDF ["Sample Name"; "pH"]
             [[Some "1"; Some "2"];
              [Some "s1"; Some "7"];
              [Some "s2"; None]]).
Proof.
  destruct (X15_headers_above_data
              (mkCreator Samples.mapper_headed Samples.two_samples))
    as (rows_df & Er & Ec & _).
  - reflexivity.
  - discriminate.
  - intros kv [<-|[<-|[]]]; split; reflexivity.
  - vm_compute. repeat constructor; simpl; intuition discriminate.
  - rewrite Ec. vm_compute in Er. injection Er as <-. reflexivity.
Defined.

End Aligned.

(** ** Normalising twice *)

Section Idempotence.

Import pd etl Props.

Lemma relabel_same (c : string) (v : cell) :
  forall (labels : list string) (row : list cell),
    List.length row = List.length labels ->
    (forall j, nth_error labels j = Some c -> nth_error row j = Some v) ->
    map (fun lx => if String.eqb (fst lx) c then v else snd lx)
        (combine labels row) = row.
Proof.
  induction labels as [|l labels IH]; intros [|x row] Hlen H; cbn in Hlen;
    try discriminate; [reflexivity|].
  cbn [combine map fst snd]. f_equal.
  - destruct (String.eqb_spec l c) as [->|_]; [|reflexivity].
    specialize (H 0 eq_refl). cbn in H. congruence.
  - apply IH; [lia|]. intros j Hj. apply (H (S j)). exact Hj.
Qed.

Lemma unique_position (labels : list string) (c : string) (j : nat) :
  is_unique labels = true -> nth_error labels j = Some c ->
  j = index_of c labels.
Proof.
  intros Hu Hj. apply is_unique_NoDup in Hu.
  assert (Hin : In c labels) by (eapply nth_error_In; eassumption).
  pose proof (index_of_nth_error _ _ Hin) as Hi.
  rewrite NoDup_nth_error in Hu. apply Hu; [|congruence].
  apply nth_error_Some. congruence.
Qed.

(** Writing back the values of a column changes nothing. *)
Lemma setitem_col (df : DataFrame) (c : string) :
  table df = true -> In c (columns df) -> setitem df c (col c df) = df.
Proof.
  intros Ht Hin. apply table_spec in Ht as [Hw Hu].
  rewrite setitem_rows by apply col_length.
  rewrite (set_label_mem _ _ Hin). destruct df as [cols rs].
  cbn [columns rows] in *. f_equal. unfold col, column_at. cbn [columns rows].
  unfold wf in Hw. cbn [columns rows] in Hw.
  induction rs as [|r rs IH]; [reflexivity|].
  inversion Hw; subst. cbn [map set_column hd tl]. f_equal; [|now apply IH].
  unfold set_cell. apply mem_In in Hin as Hm. rewrite Hm.
  apply relabel_same; [assumption|].
  intros j Hj. rewrite (unique_position _ _ _ Hu Hj).
  apply nth_error_nth'. rewrite H1. apply nth_error_Some.
  rewrite (index_of_nth_error _ _ Hin). discriminate.
Qed.

Lemma Y_N_not_yes (x : cell) : cell_eqb (Y_N x) (Some "yes") = false.
Proof.
  unfold Y_N. destruct (cell_eqb x (Some "yes")) eqn:E1; [reflexivity|].
  destruct (cell_eqb x (Some "no")) eqn:E2; [reflexivity | exact E1].
Qed.

Lemma Y_N_not_no (x : cell) : cell_eqb (Y_N x) (Some "no") = false.
Proof.
  unfold Y_N. destruct (cell_eqb x (Some "yes")) eqn:E1; [reflexivity|].
  destruct (cell_eqb x (Some "no")) eqn:E2; [reflexivity | exact E2].
Qed.

Lemma yes_no_to_Y_N_again (df df' : DataFrame) (c : string) :
  table df = true -> yes_no_to_Y_N df c = Ok df' ->
  table df' = true /\ yes_no_to_Y_N df' c = Ok df'.
Proof.
  intros Ht H.
  destruct (in_dec string_dec c (columns df)) as [Hin|Hn].
  - destruct (yes_no_to_Y_N_table df c Ht Hin) as (df'' & E & Ht' & Hc & Hv & _).
    rewrite E in H. injection H as <-. split; [assumption|].
    assert (Hin' : In c (columns df'')) by now rewrite Hc.
    unfold yes_no_to_Y_N, loc_replace.
    rewrite (table_getitem _ _ Ht' Hin'). cbn [bind].
    assert (E1 : map (fun x => if cell_eqb x (Some "yes") then Some "Y" else x)
                     (col c df'') = col c df'').
    { rewrite Hv, map_map. apply map_ext. intros x. now rewrite Y_N_not_yes. }
    rewrite E1, (setitem_col _ _ Ht' Hin'), (table_getitem _ _ Ht' Hin').
    cbn [bind].
    assert (E2 : map (fun x => if cell_eqb x (Some "no") then Some "N" else x)
                     (col c df'') = col c df'').
    { rewrite Hv, map_map. apply map_ext. intros x. now rewrite Y_N_not_no. }
    now rewrite E2, (setitem_col _ _ Ht' Hin').
  - unfold yes_no_to_Y_N, loc_replace in H.
    rewrite (getitem_absent _ _ Hn) in H. discriminate H.
Qed.

(** X16.  The yes/no rewrite is idempotent: on a table, applying the
    facility's normalisation to its own result returns that result
    unchanged. *)
Theorem X16_normalize_dnase_idempotent
        (self : MetadataRetriever) (df df' : DataFrame) :
  table df = true ->
  normalize_dnase self df = Ok df' ->
  normalize_dnase self df' = Ok df'.
Proof.
  intros Ht. unfold normalize_dnase.
  destruct (String.eqb (user_facility self) "jgi_mg") eqn:Emg;
    destruct (String.eqb (user_facility self) "jgi_mt") eqn:Emt.
  - apply String.eqb_eq in Emg, Emt. congruence.
  - destruct (yes_no_to_Y_N df "dna_dnase") as [df1|e] eqn:E; cbn [bind];
      [|discriminate].
    intros H. injection H as <-.
    destruct (yes_no_to_Y_N_again _ _ _ Ht E) as [_ E']. now rewrite E'.
  - cbn [bind]. intros H.
    destruct (yes_no_to_Y_N_again _ _ _ Ht H) as [_ E']. exact E'.
  - cbn [bind]. intros H. injection H as <-. reflexivity.
Qed.

Lemma X16_normalize_dnase_idempotent_witness :
  exists df',
    normalize_dnase Samples.jgi_mg Samples.dnase = Ok df'
    /\ normalize_dnase Samples.jgi_mg df' = Ok df'.
Proof.
  destruct (normalize_dnase Samples.jgi_mg Samples.dnase) as [df'|e] eqn:E;
    [|vm_compute in E; discriminate E].
  exists df'. split; [reflexivity|].
  apply (X16_normalize_dnase_idempotent Samples.jgi_mg Samples.dnase df');
    [reflexivity | exact E].
Defined.

End Idempotence.

(** ** The join key through the loop *)

Section JoinKey.

Import pd etl Props.

Lemma add_suffix_not_samp_name (s x : string) :
  s = "_x" \/ s = "_y" -> add_suffix s x <> "samp_name".
Proof.
  unfold add_suffix. intros Hs H. apply (f_equal list_ascii_of_string) in H.
  rewrite list_ascii_app in H. apply (f_equal (@rev ascii)) in H.
  rewrite rev_app_distr in H. destruct Hs as [-> | ->]; simpl in H; discriminate.
Qed.

Lemma count_map_fix (f : string -> string) (c : string) (l : list string) :
  (forall x, In x l -> (f x = c <-> x = c)) ->
  count c (map f l) = count c l.
Proof.
  induction l as [|a l IH]; intros H; [reflexivity|].
  cbn [map]. rewrite !count_cons. rewrite IH by (intros x Hx; apply H; now right).
  f_equal. specialize (H a (or_introl eq_refl)).
  destruct (String.eqb_spec c (f a)) as [E|E], (String.eqb_spec c a) as [E'|E'];
    try reflexivity.
  - exfalso. apply E'. symmetry. apply H. now symmetry.
  - exfalso. apply E. symmetry. apply H. now symmetry.
Qed.

Lemma count_remove_at_index_of (c : string) (l : list string) :
  count c l = 1 -> count c (remove_at (index_of c l) l) = 0.
Proof.
  induction l as [|a l IH]; [discriminate|].
  rewrite count_cons. cbn [index_of].
  rewrite (String.eqb_sym c a). destruct (String.eqb a c) eqn:E.
  - intros H. unfold remove_at. cbn [firstn skipn app]. lia.
  - intros H. unfold remove_at in *. cbn [firstn skipn app].
    rewrite count_cons, (String.eqb_sym c a), E. cbn [Nat.add]. apply IH. lia.
Qed.

Lemma merge_keeps_key (left right : DataFrame) (df : DataFrame) :
  count "samp_name" (columns left) = 1 ->
  merge left right "samp_name" = Ok df ->
  count "samp_name" (columns df) = 1.
Proof.
  intros Hl. unfold merge, key_position. rewrite Hl.
  destruct (count "samp_name" (columns right)) as [|[|n]] eqn:Hr; cbn [bind];
    try discriminate.
  destruct (_ ++ _) as [|d ds]; [|discriminate].
  intros H. injection H as <-. cbn [columns].
  set (rc := remove_at (index_of "samp_name" (columns right)) (columns right)).
  assert (Hz : count "samp_name" rc = 0) by now apply count_remove_at_index_of.
  assert (Hout : mem "samp_name"
                     (filter (fun c => mem c rc) (columns left)) = false).
  { rewrite (mem_filter (fun c => mem c rc)).
    apply count_zero, mem_false in Hz. rewrite Hz. apply andb_false_r. }
  assert (Hfix : forall s, s = "_x" \/ s = "_y" ->
                   forall x,
                     (if mem x (filter (fun c => mem c rc) (columns left))
                      then (x ++ s)%string else x) = "samp_name"
                     <-> x = "samp_name").
  { intros s Hs x. split.
    - destruct (mem x _); [|trivial].
      intros E. now apply (add_suffix_not_samp_name s x Hs) in E.
    - intros ->. now rewrite Hout. }
  rewrite count_app.
  rewrite (count_map_fix _ "samp_name" (columns left))
    by (intros x _; apply Hfix; now left).
  rewrite (count_map_fix _ "samp_name" rc)
    by (intros x _; apply Hfix; now right).
  fold rc. rewrite Hl, Hz. reflexivity.
Qed.

(** X18.  The join key survives the loop: when the table has exactly one
    [samp_name] column before the loop, it has exactly one after it; no
    join renames or repeats the key, so the loop never fails on the key
    of the table. *)
Theorem X18_join_key_kept (sd : list (string * list record)) :
  forall (keys : list string) (df df' : DataFrame),
    count "samp_name" (columns df) = 1 ->
    merge_loop sd keys df = Ok df' ->
    count "samp_name" (columns df') = 1.
Proof.
  induction keys as [|key keys IH]; intros df df' Hc; cbn [merge_loop].
  - intros H. now injection H as <-.
  - unfold merge_step.
    destruct (negb (empty (group_frame sd key))).
    + destruct (merge df (group_frame sd key) "samp_name") as [df1|e] eqn:E;
        cbn [bind]; [|discriminate].
      apply IH. cbn [columns setitem_scalar].
      rewrite count_set_label_other by discriminate.
      eapply merge_keeps_key; eassumption.
    + cbn [bind]. apply IH. cbn [columns setitem_scalar].
      now rewrite count_set_label_other by discriminate.
Qed.

Lemma X18_join_key_kept_witness :
  exists df',
    merge_loop Samples.same_group_twice ["water"; "soil"] Samples.one_sample
    = Ok df'
    /\ count "samp_name" (columns df') = 1.
Proof.
  destruct (merge_loop Samples.same_group_twice ["water"; "soil"]
                       Samples.one_sample) as [df'|e] eqn:E;
    [|vm_compute in E; discriminate E].
  exists df'. split; [reflexivity|].
  apply (X18_join_key_kept Samples.same_group_twice ["water"; "soil"]
                           Samples.one_sample df'); [reflexivity | exact E].
Defined.

End JoinKey.

(** ** A mapper without header labels *)

Section Bare.

Import pd etl Props.

Lemma no_headers_no_header_field (fields : list (string * string)) :
  map snd (filter (fun h => negb (String.eqb (fst h) "sub_port_mapping")) fields)
  = [] ->
  dict_get fields "header" = None.
Proof.
  induction fields as [|[k v] t IH]; [reflexivity|]. cbn [filter fst].
  destruct (String.eqb_spec k "sub_port_mapping") as [->|_]; cbn [negb].
  - intros H. cbn [dict_get]. cbn [String.eqb Ascii.eqb Bool.eqb]. now apply IH.
  - discriminate.
Qed.

Lemma of_dict_no_labels (d : list (string * list string)) :
  (forall kv, In kv d -> snd kv = []) ->
  of_dict d = Ok (mkDF (dict_keys d) []).
Proof.
  intros H. unfold of_dict. destruct d as [|[k0 l0] d']; [reflexivity|].
  assert (E0 : l0 = []) by apply (H (k0, l0) (or_introl eq_refl)).
  subst l0. cbn [List.length].
  assert (F : forallb (fun kv : string * list string => List.length (snd kv) =? 0)
                      ((k0, []) :: d') = true).
  { apply forallb_forall. intros kv Hkv. now rewrite (H kv Hkv). }
  rewrite F. reflexivity.
Qed.

(** X19.  With the flag off, the output has no header row in the layout
    where the mapper declares no header label: when every key has a mapping to
    a column of the table and no header label, and the keys are distinct,
    the spreadsheet is the row block itself, its columns the mapper keys in
    order, each holding the values of its mapped column. *)
Theorem X19_no_labels_no_header_rows (self : SpreadsheetCreator) :
  table (metadata_df self) = true ->
  (forall kv, In kv (json_mapper self) ->
              valid_entry (metadata_df self) kv = true
              /\ entry_headers kv = []) ->
  NoDup (dict_keys (json_mapper self)) ->
  exists rows_df,
    combine_sample_rows_df self = Ok rows_df
    /\ create_spreadsheet self false = Ok rows_df
    /\ columns rows_df = dict_keys (json_mapper self)
    /\ (json_mapper self <> [] -> shape0 rows_df = shape0 (metadata_df self))
    /\ (forall kv source,
           In kv (json_mapper self) -> entry_source kv = Some source ->
           col (fst kv) rows_df = col source (metadata_df self)).
Proof.
  intros Ht Hall Hnd.
  assert (Hlab : forall kv, In kv (json_mapper self) -> entry_label kv = fst kv).
  { intros kv Hkv. destruct (Hall kv Hkv) as [_ E]. unfold entry_label.
    unfold entry_headers in E. now rewrite (no_headers_no_header_field _ E). }
  assert (Hlabs : map entry_label (json_mapper self) = dict_keys (json_mapper self)).
  { unfold dict_keys. now apply map_ext_in. }
  assert (Hf : filter (valid_entry (metadata_df self)) (json_mapper self)
               = json_mapper self).
  { apply filter_all. intros kv Hkv. now apply Hall. }
  destruct (foldM_add_sample_column (metadata_df self) Ht (json_mapper self)
                                    empty_frame)
    as (r & Er & Hrf & Hcr & _ & Hvr).
  { now left. }
  { rewrite Hf, Hlabs. exact Hnd. }
  rewrite Hf, Hlabs in Hcr. cbn [columns empty_frame app] in Hcr.
  assert (Eh : combine_headers_df self false
               = Ok (mkDF (dict_keys (json_mapper self)) [])).
  { unfold combine_headers_df. rewrite of_dict_no_labels.
    - cbn [bind]. now rewrite header_lists_keys.
    - intros kv' Hkv'. unfold header_lists in Hkv'.
      apply in_map_iff in Hkv' as [kv [<- Hkv]]. cbn [snd].
      now destruct (Hall kv Hkv). }
  exists r. split; [exact Er|]. split.
  - unfold create_spreadsheet, combine_headers_and_rows.
    unfold combine_sample_rows_df in Er |- *. rewrite Eh, Er. cbn [bind].
    rewrite concat_same_columns by (cbn [columns]; now rewrite Hcr).
    cbn [columns rows app]. destruct r as [cols rs]. cbn [columns rows] in *.
    now rewrite Hcr.
  - split; [exact Hcr|]. split.
    + intros Hne. destruct Hrf as [->|[_ Hs]]; [|exact Hs].
      cbn [columns empty_frame] in Hcr. destruct (json_mapper self);
        [congruence | discriminate Hcr].
    + intros kv source Hkv Es. rewrite <- (Hlab kv Hkv).
      apply (Hvr kv source Hkv); [now apply Hall | exact Es].
Qed.

Lemma X19_no_labels_no_header_rows_witness :
  create_spreadsheet (mkCreator Samples.mapper_bare Samples.two_samples) false
  = Ok (mkDF ["Sample Name"] [[Some "s1"]; [Some "s2"]]).
Proof.
  destruct (X19_no_labels_no_header_rows
              (mkCreator Samples.mapper_bare Samples.two_samples))
    as (rows_df & Er & Ec & _).
  - reflexivity.
  - intros kv [<-|[]]. split; reflexivity.
  - repeat constructor. intros [].
  - rewrite Ec. vm_compute in Er. injection Er as <-. reflexivity.
Defined.

End Bare.

(** ** The values a join brings *)

Section JoinValues.

Import pd etl Props.

Lemma find_map {A B : Type} (p : B -> bool) (F : A -> B) (l : list A) :
  find p (map F l) = option_map F (find (fun x => p (F x)) l).
Proof.
  induction l as [|a l IH]; [reflexivity|]. cbn [map find].
  destruct (p (F a)); [reflexivity | exact IH].
Qed.

Lemma find_ext {A : Type} (p q : A -> bool) (l : list A) :
  (forall x, p x = q x) -> find p l = find q l.
Proof.
  intros H. induction l as [|a l IH]; [reflexivity|]. cbn [find].
  rewrite H, IH. reflexivity.
Qed.

Lemma remove_at_map {A B : Type} (f : A -> B) (i : nat) (l : list A) :
  remove_at i (map f l) = map f (remove_at i l).
Proof. unfold remove_at. now rewrite map_app, firstn_map, skipn_map. Qed.

Lemma index_of_app_r (c : string) (l1 l2 : list string) :
  ~ In c l1 -> index_of c (l1 ++ l2) = List.length l1 + index_of c l2.
Proof.
  induction l1 as [|a l1 IH]; intros H; [reflexivity|]. cbn [app index_of].
  destruct (String.eqb_spec a c) as [->|_].
  - exfalso. apply H. now left.
  - cbn [List.length Nat.add]. f_equal. apply IH. intros Hi. apply H. now right.
Qed.

(** X3.  Joining an annotation group with distinct [samp_name]s whose other
    columns are new onto a table is a left join on the records: the table
    keeps its rows and the values of its columns, and each new column [c]
    holds, for every row, the value of [c] in the record with the same
    [samp_name], missing when no record matches.  Records that match no
    row are dropped. *)
Theorem X3_join_values
        (sd : list (string * list record)) (df : DataFrame) (key : string)
        (recs : list record) :
  table df = true ->
  In "samp_name" (columns df) ->
  dict_get sd key = Some recs ->
  empty (of_records recs) = false ->
  In "samp_name" (columns (of_records recs)) ->
  (forall c, In c (right_columns (of_records recs) "samp_name") ->
             ~ In c (columns df)) ->
  NoDup (map (fun r => dict_get r "samp_name") recs) ->
  exists df1,
    merge_step sd df key = Ok df1
    /\ shape0 df1 = shape0 df
    /\ (forall c, In c (columns df) -> c <> "sample_isolated_from" ->
                  col c df1 = col c df)
    /\ (forall c, In c (right_columns (of_records recs) "samp_name") ->
                  c <> "sample_isolated_from" ->
                  col c df1 = map (joined_value recs c) (col "samp_name" df)).
Proof.
  intros Ht Hs Hk He Hsg Hdisj Hkeys.
  apply table_spec in Ht as Ht'. destruct Ht' as [Hw Hu].
  set (g := of_records recs) in *.
  set (extra := right_columns g "samp_name") in *.
  assert (Hcg : count "samp_name" (columns g) = 1).
  { apply unique_count_one; [apply of_records_unique | assumption]. }
  assert (Hcd : count "samp_name" (columns df) = 1)
    by now apply unique_count_one.
  assert (Hnd : NoDup extra).
  { apply NoDup_remove_at. apply is_unique_NoDup. apply of_records_unique. }
  assert (Hsh : shared df g "samp_name" = []).
  { unfold shared. fold extra. apply filter_none. intros x Hx.
    apply mem_false. intros Hi. now apply (Hdisj x). }
  assert (Hid : forall s l, map (renamed s []) l = l).
  { intros s l. apply map_renamed_out. reflexivity. }
  destruct (merge_ok df g "samp_name" Hcg Hcd) as [dm [Em Ecm]].
  { now rewrite Hsh, Hid. }
  { rewrite Hsh, Hid. fold extra. now apply is_unique_NoDup. }
  rewrite Hsh, !Hid in Ecm. fold extra in Ecm.
  destruct (merge_wf _ _ _ _ Hw (of_records_wf recs) Em) as [Hwm _].
  (* the rows of the join, in terms of the records *)
  assert (Hrk : forall r : record,
             nth (index_of "samp_name" (columns g)) (map (dict_get r) (columns g)) None
             = dict_get r "samp_name").
  { intros r. now apply nth_map_dict_get. }
  assert (Hrows : rows g = map (fun r => map (dict_get r) (columns g)) recs)
    by reflexivity.
  assert (Hnd' : NoDup (map (fun r => nth (index_of "samp_name" (columns g)) r None)
                            (rows g))).
  { rewrite Hrows, map_map. rewrite (map_ext _ _ Hrk). exact Hkeys. }
  destruct (merge_rows_distinct_keys _ _ _ _ Em Hnd') as [Erows Eshape].
  assert (Hjoin : forall k,
             joined_cells (index_of "samp_name" (columns g)) (List.length extra)
                          (rows g) k
             = match record_of recs k with
               | Some r => map (dict_get r) extra
               | None => repeat None (List.length extra)
               end).
  { intros k. unfold joined_cells. rewrite Hrows, find_map.
    rewrite (find_ext
               (fun r : record =>
                  cell_eqb k (nth (index_of "samp_name" (columns g))
                                  (map (dict_get r) (columns g)) None))
               (fun r : record => cell_eqb k (dict_get r "samp_name")))
      by (intros r; cbv beta; now rewrite Hrk).
    change (find (fun r : record => cell_eqb k (dict_get r "samp_name")) recs)
      with (record_of recs k).
    destruct (record_of recs k) as [r|]; cbn [option_map]; [|reflexivity].
    unfold extra, right_columns. now rewrite remove_at_map. }
  set (df1 := setitem_scalar dm "sample_isolated_from" (Some key)).
  assert (Hcol1 : forall c, In c (columns dm) -> c <> "sample_isolated_from" ->
                            col c df1 = col c dm).
  { intros c Hc Hne. unfold df1. rewrite setitem_scalar_setitem.
    apply col_setitem_other; [assumption | apply repeat_length | assumption
                              | assumption]. }
  exists df1. split; [now apply merge_step_joined with (recs := recs)|].
  split; [unfold df1; now rewrite shape0_setitem_scalar|]. split.
  - intros c Hc Hne. rewrite Hcol1; [|rewrite Ecm; apply in_or_app; now left
                                     |assumption].
    unfold col, column_at. rewrite Ecm, Erows, map_map.
    rewrite (index_of_app _ _ _ Hc). apply map_ext_in. intros l Hl.
    apply app_nth1. unfold wf in Hw. rewrite Forall_forall in Hw.
    rewrite (Hw l Hl). apply nth_error_Some.
    rewrite (index_of_nth_error _ _ Hc). discriminate.
  - intros c Hc Hne. rewrite Hcol1; [|rewrite Ecm; apply in_or_app; now right
                                     |assumption].
    unfold col at 1, column_at. rewrite Ecm, Erows, map_map.
    rewrite (index_of_app_r _ _ _ (Hdisj c Hc)).
    unfold col, column_at. rewrite map_map. apply map_ext_in. intros l Hl.
    unfold wf in Hw. rewrite Forall_forall in Hw. rewrite <- (Hw l Hl).
    rewrite app_nth2_plus. fold extra. rewrite Hjoin. unfold joined_value.
    destruct (record_of recs _) as [r|].
    + now apply nth_map_dict_get.
    + apply nth_repeat.
Qed.

Lemma X3_join_values_witness :
  exists df1,
    merge_step Samples.ph_of_s3_s1 Samples.two_named "water" = Ok df1
    /\ col "samp_name" df1 = [Some "s1"; Some "s2"]
    /\ col "ph" df1 = [Some "7"; None].
Proof.
  destruct (X3_join_values Samples.ph_of_s3_s1 Samples.two_named "water"
                           [[("samp_name", "s3"); ("ph", "8")];
                            [("samp_name", "s1"); ("ph", "7")]])
    as (df1 & E & _ & Hold & Hnew).
  - reflexivity.
  - left. reflexivity.
  - reflexivity.
  - reflexivity.
  - left. reflexivity.
  - intros c [<-|[]] [E|[]]. discriminate E.
  - repeat constructor; simpl; intuition discriminate.
  - exists df1. split; [exact E|]. split.
    + apply (Hold "samp_name"); [left; reflexivity | discriminate].
    + apply (Hnew "ph"); [left; reflexivity | discriminate].
Defined.

End JoinValues.

(** ** A column the derivations leave alone *)

Section Held.

Import pd etl Props.

Lemma nth_of_nth_error {A : Type} (d : A) (i : nat) :
  forall l l' : list A, nth_error l i = nth_error l' i -> nth i l d = nth i l' d.
Proof.
  intros l l' H. destruct (nth_error l i) as [a|] eqn:E; symmetry in H.
  - now rewrite (nth_error_nth _ _ d E), (nth_error_nth _ _ d H).
  - apply nth_error_None in E, H. now rewrite !nth_overflow.
Qed.

Lemma held_setitem (c c' : string) (vals : list cell) (df : DataFrame)
      (w : list cell) :
  held c vals df -> c' <> c -> List.length w = shape0 df ->
  held c vals (setitem df c' w).
Proof.
  intros (Hw & Hi & Hc) Hne Hlen. repeat split.
  - now apply wf_setitem.
  - cbn [columns setitem]. apply set_label_In_other; [congruence | assumption].
  - rewrite col_setitem_other; [assumption | assumption | assumption | assumption
                                | congruence].
Qed.

Lemma held_setitem_scalar (c c' : string) (vals : list cell) (w : cell)
      (df : DataFrame) :
  held c vals df -> c' <> c -> held c vals (setitem_scalar df c' w).
Proof.
  intros H Hne. rewrite setitem_scalar_setitem.
  apply held_setitem; [assumption | assumption | apply repeat_length].
Qed.

Lemma held_fold_setitem (c : string) (vals : list cell) (e : Expanded) :
  forall (l : list (string * nat)) (df : DataFrame),
    held c vals df ->
    List.length (erows e) = shape0 df ->
    (forall kj, In kj l -> fst kj <> c) ->
    held c vals (fold_left (fun d kj => setitem d (fst kj) (ecolumn (snd kj) e))
                           l df).
Proof.
  induction l as [|kj l IH]; intros df Hs Hlen Hne; cbn [fold_left];
    [assumption|].
  assert (L : List.length (ecolumn (snd kj) e) = shape0 df)
    by (rewrite ecolumn_length; assumption).
  apply IH.
  - apply held_setitem; [assumption | apply Hne; now left | assumption].
  - rewrite shape0_setitem; assumption.
  - intros kj' H. apply Hne. now right.
Qed.

Lemma held_setitem_frame (c : string) (vals : list cell) (df df' : DataFrame)
      (key : list string) (e : Expanded) :
  held c vals df ->
  List.length (erows e) = shape0 df ->
  (forall k, In k key -> k <> c) ->
  setitem_frame df key e = Ok df' ->
  held c vals df'.
Proof.
  intros Hs Hlen Hne. unfold setitem_frame.
  destruct (check_key_length _ _ _); cbn [bind]; [|discriminate].
  intros H. injection H as <-. apply held_fold_setitem; try assumption.
  intros [k j] Hin. apply Hne. now apply in_combine_l in Hin.
Qed.

Lemma held_setitem_list1 (c c' : string) (vals : list cell) (df df' : DataFrame)
      (value : list cell) :
  held c vals df -> c' <> c ->
  setitem_list1 df c' value = Ok df' ->
  held c vals df'.
Proof.
  intros Hs Hne. unfold setitem_list1.
  destruct (is_unique (columns df)).
  - destruct (List.length value =? 1); [|discriminate].
    intros H. injection H as <-. now apply held_setitem_scalar.
  - destruct (count c' (columns df)) as [|n]; [discriminate|].
    destruct (List.length value =? S n); [|discriminate].
    intros H. injection H as <-.
    destruct Hs as (Hw & Hi & Hc). unfold held, wf, col, column_at in *.
    cbn [rows columns]. repeat split.
    + apply Forall_forall. intros r Hr. apply in_map_iff in Hr as [r0 [<- Hr0]].
      rewrite set_occurrences_length.
      rewrite Forall_forall in Hw. now apply Hw.
    + assumption.
    + rewrite map_map, <- Hc. apply map_ext. intros r.
      apply nth_of_nth_error. apply (set_occurrences_other c' c);
        [congruence | now apply index_of_nth_error].
Qed.

Lemma held_loc_replace (c c' : string) (vals : list cell) (df df' : DataFrame)
      (old new : string) :
  held c vals df -> c' <> c ->
  loc_replace df c' old new = Ok df' ->
  held c vals df'.
Proof.
  intros Hs Hne. unfold loc_replace.
  destruct (getitem df c') as [[w|]|e] eqn:E; cbn [bind]; try discriminate.
  intros H. injection H as <-. apply held_setitem; try assumption.
  rewrite length_map. now apply getitem_length in E.
Qed.

Variable vals : list cell.

Lemma held_split_lat_lon (df df' : DataFrame) :
  held "samp_name" vals df -> split_lat_lon df = Ok df' ->
  held "samp_name" vals df'.
Proof.
  intros Hs. unfold split_lat_lon.
  destruct (mem "lat_lon" (columns df)); [|intros H; now injection H as <-].
  destruct (str df "lat_lon") as [v0|e] eqn:E; cbn [bind]; [|discriminate].
  intros H. eapply held_setitem_frame; [exact Hs | | | exact H].
  - rewrite erows_length. eapply str_length; eassumption.
  - intros k [<-|[<-|[]]]; discriminate.
Qed.

Lemma held_split_depth (df df' : DataFrame) :
  held "samp_name" vals df -> split_depth df = Ok df' ->
  held "samp_name" vals df'.
Proof.
  intros Hs. unfold split_depth.
  destruct (mem "depth" (columns df)); [|intros H; now injection H as <-].
  destruct (str df "depth") as [v0|e] eqn:E0; cbn [bind]; [|discriminate].
  assert (Hs1 : held "samp_name" vals
                        (setitem df "depth" (map (str_replace "-" " - ") v0))).
  { apply held_setitem; [assumption | discriminate |].
    rewrite length_map. eapply str_length; eassumption. }
  destruct (str (setitem df "depth" (map (str_replace "-" " - ") v0)) "depth")
    as [v1|e] eqn:E1; cbn [bind]; [|discriminate].
  destruct (List.length (erows (str_split_expand " - " v1)) =? 1).
  - destruct (setitem_list1 _ "minimum_depth" _) as [df2|e] eqn:E2; cbn [bind];
      [|discriminate].
    intros H.
    apply (held_setitem_list1 _ "maximum_depth" _ df2 _ (ecolumn 0 (str_split_expand " - " v1)));
      [ | discriminate | exact H].
    eapply held_setitem_list1; [exact Hs1 | | exact E2]. discriminate.
  - intros H. eapply held_setitem_frame; [exact Hs1 | | | exact H].
    + rewrite erows_length. eapply str_length; eassumption.
    + intros k [<-|[<-|[]]]; discriminate.
Qed.

Lemma held_split_geo_loc_name (df df' : DataFrame) :
  held "samp_name" vals df -> split_geo_loc_name df = Ok df' ->
  held "samp_name" vals df'.
Proof.
  intros Hs. unfold split_geo_loc_name.
  destruct (mem "geo_loc_name" (columns df)); [|intros H; now injection H as <-].
  destruct (str df "geo_loc_name") as [v0|e] eqn:E; cbn [bind]; [|discriminate].
  intros H. injection H as <-. apply held_setitem; [assumption | discriminate |].
  rewrite length_map. eapply str_length; eassumption.
Qed.

Lemma held_split_collection_date (df df' : DataFrame) :
  held "samp_name" vals df -> split_collection_date df = Ok df' ->
  held "samp_name" vals df'.
Proof.
  intros Hs. unfold split_collection_date.
  destruct (mem "collection_date" (columns df)); [|intros H; now injection H as <-].
  destruct (str df "collection_date") as [v0|e] eqn:E0; cbn [bind]; [|discriminate].
  set (df1 := setitem df "collection_year" _).
  assert (Hs1 : held "samp_name" vals df1).
  { apply held_setitem; [assumption | discriminate |].
    rewrite length_map. eapply str_length; eassumption. }
  destruct (str df1 "collection_date") as [v1|e] eqn:E1; cbn [bind]; [|discriminate].
  set (df2 := setitem df1 "collection_month" _).
  assert (Hs2 : held "samp_name" vals df2).
  { apply held_setitem; [assumption | discriminate |].
    rewrite length_map. eapply str_length; eassumption. }
  destruct (str df2 "collection_date") as [v2|e] eqn:E2; cbn [bind]; [|discriminate].
  set (df3 := setitem df2 "collection_day" _).
  assert (Hs3 : held "samp_name" vals df3).
  { apply held_setitem; [assumption | discriminate |].
    rewrite length_map. eapply str_length; eassumption. }
  destruct (getitem df3 "collection_month") as [[months|]|e] eqn:E3; cbn [bind];
    try discriminate.
  destruct (mapM month_name_of months) as [names|e] eqn:E4; cbn [bind];
    [|discriminate].
  intros H. injection H as <-. apply held_setitem; [assumption | discriminate |].
  rewrite (mapM_length _ _ _ E4). now apply getitem_length in E3.
Qed.

Lemma held_yes_no_to_Y_N (df df' : DataFrame) (c : string) :
  c <> "samp_name" ->
  held "samp_name" vals df -> yes_no_to_Y_N df c = Ok df' ->
  held "samp_name" vals df'.
Proof.
  intros Hne Hs. unfold yes_no_to_Y_N.
  destruct (loc_replace df c "yes" "Y") as [df1|e] eqn:E1; cbn [bind];
    [|discriminate].
  intros H. eapply held_loc_replace; [ | exact Hne | exact H].
  eapply held_loc_replace; [exact Hs | exact Hne | exact E1].
Qed.

Lemma held_normalize_dnase (self : MetadataRetriever) (df df' : DataFrame) :
  held "samp_name" vals df -> normalize_dnase self df = Ok df' ->
  held "samp_name" vals df'.
Proof.
  intros Hs. unfold normalize_dnase.
  assert (Hs1 : forall df1,
             (if String.eqb (user_facility self) "jgi_mg"
              then yes_no_to_Y_N df "dna_dnase" else Ok df) = Ok df1 ->
             held "samp_name" vals df1).
  { intros df1. destruct (String.eqb (user_facility self) "jgi_mg").
    - apply held_yes_no_to_Y_N; [discriminate | assumption].
    - intros H. now injection H as <-. }
  destruct (if String.eqb (user_facility self) "jgi_mg"
            then yes_no_to_Y_N df "dna_dnase" else Ok df) as [df1|e];
    cbn [bind]; [|discriminate].
  specialize (Hs1 df1 eq_refl).
  destruct (String.eqb (user_facility self) "jgi_mt").
  - apply held_yes_no_to_Y_N; [discriminate | assumption].
  - intros H. now injection H as <-.
Qed.

Lemma held_derive_columns (self : MetadataRetriever) (df df' : DataFrame) :
  held "samp_name" vals df -> derive_columns self df = Ok df' ->
  held "samp_name" vals df'.
Proof.
  intros Hs. unfold derive_columns.
  destruct (split_lat_lon df) as [df1|e] eqn:E1; cbn [bind]; [|discriminate].
  destruct (split_depth df1) as [df2|e] eqn:E2; cbn [bind]; [|discriminate].
  destruct (split_geo_loc_name df2) as [df3|e] eqn:E3; cbn [bind]; [|discriminate].
  destruct (split_collection_date df3) as [df4|e] eqn:E4; cbn [bind];
    [|discriminate].
  apply held_normalize_dnase.
  eapply held_split_collection_date; [|exact E4].
  eapply held_split_geo_loc_name; [|exact E3].
  eapply held_split_depth; [|exact E2].
  eapply held_split_lat_lon; [|exact E1]. exact Hs.
Qed.

End Held.

(** ** Rows that a join repeats *)

Section Copies.

Import pd etl Props.

Lemma copies_same {A : Type} (l : list A) : copies eq l l.
Proof.
  induction l as [|a l IH]; [constructor|].
  apply (copies_cons eq a l a [] l); [reflexivity | constructor | exact IH].
Qed.

Lemma copies_map {A B A' B' : Type} (R : A -> B -> Prop) (R' : A' -> B' -> Prop)
      (f : A -> A') (g : B -> B') (l : list A) (l' : list B) :
  (forall x y, R x y -> R' (f x) (g y)) ->
  copies R l l' -> copies R' (map f l) (map g l').
Proof.
  intros H. induction 1 as [|x l y ys l' Hr Hf _ IH]; cbn [map]; [constructor|].
  rewrite map_app. constructor; [now apply H | | exact IH].
  apply Forall_forall. intros b Hb. apply in_map_iff in Hb as [b0 [<- Hb0]].
  apply H. rewrite Forall_forall in Hf. now apply Hf.
Qed.

Lemma copies_Forall {A B : Type} (R : A -> B -> Prop) (P : B -> Prop)
      (l : list A) (l' : list B) :
  copies R l l' -> Forall P l' -> copies (fun x y => R x y /\ P y) l l'.
Proof.
  induction 1 as [|x l y ys l' Hr Hf _ IH]; intros HP; [constructor|].
  inversion HP as [|y0 t Py Pt]; subst. apply Forall_app in Pt as [Pys Pl'].
  constructor; [now split | | now apply IH].
  rewrite Forall_forall in *. intros b Hb. split; [now apply Hf | now apply Pys].
Qed.

Lemma copies_length {A B : Type} (R : A -> B -> Prop) (l : list A) (l' : list B) :
  copies R l l' -> List.length l <= List.length l'.
Proof.
  induction 1 as [|x l y ys l' _ _ _ IH]; [apply Nat.le_refl|].
  cbn [List.length]. rewrite length_app. lia.
Qed.

(** The rows that follow a run. *)
Lemma copies_run {A B : Type} (R : A -> B -> Prop) (x : A) (l' : list B) :
  forall (ys c : list B),
    Forall (R x) ys -> copies eq (ys ++ l') c ->
    exists zs c',
      c = zs ++ c' /\ Forall (R x) zs /\ copies eq l' c'
      /\ (ys <> [] -> zs <> []).
Proof.
  induction ys as [|y ys IH]; intros c Hys Hc.
  - exists [], c. repeat split; [constructor | exact Hc | congruence].
  - cbn [app] in Hc.
    inversion Hc as [|y0 t y1 ws c1 Hy Hws Hc1]; subst.
    inversion Hys as [|y2 t2 Ry Rys]; subst.
    destruct (IH c1 Rys Hc1) as (zs & c' & -> & Hzs & Hc' & _).
    exists (y1 :: ws ++ zs), c'. repeat split.
    + cbn [app]. now rewrite app_assoc.
    + constructor; [exact Ry|]. apply Forall_app. split; [|exact Hzs].
      rewrite Forall_forall in *. intros b Hb. now rewrite <- (Hws b Hb).
    + exact Hc'.
    + discriminate.
Qed.

Lemma copies_then {A B : Type} (R : A -> B -> Prop) (a : list A) (b : list B) :
  copies R a b -> forall c, copies eq b c -> copies R a c.
Proof.
  induction 1 as [|x l y ys l' Hr Hf _ IH]; intros c Hc.
  - inversion Hc. constructor.
  - destruct (copies_run R x l' (y :: ys) c (Forall_cons _ Hr Hf) Hc)
      as (zs & c' & -> & Hzs & Hc' & Hne).
    destruct zs as [|z zs]; [exfalso; now apply Hne|].
    inversion Hzs as [|z0 t Rz Rzs]; subst. cbn [app].
    constructor; [exact Rz | exact Rzs | now apply IH].
Qed.

(** A left join lists the rows of the left frame in order, each one at
    least once, with cells appended. *)
Lemma merge_rows_copies (left right : DataFrame) (on : string) (df : DataFrame) :
  merge left right on = Ok df ->
  copies (fun l l' => exists t, l' = l ++ t) (rows left) (rows df).
Proof.
  unfold merge, key_position.
  destruct (count on (columns right)) as [|[|n]]; cbn [bind]; try discriminate.
  destruct (count on (columns left)) as [|[|m]]; cbn [bind]; try discriminate.
  destruct (_ ++ _) as [|d ds]; [|discriminate].
  intros H. injection H as <-. cbn [rows].
  induction (rows left) as [|l ls IH]; [constructor|]. cbn [flat_map].
  destruct (filter _ (rows right)) as [|m0 ms].
  - apply (copies_cons _ l ls _ []); [now eexists | constructor | exact IH].
  - cbn [map app]. constructor; [now eexists | | exact IH].
    apply Forall_forall. intros b Hb. apply in_map_iff in Hb as [r [<- _]].
    now eexists.
Qed.

Lemma index_of_map_fix (f : string -> string) (c : string) (r : list string) :
  forall l : list string,
    (forall x, f x = c <-> x = c) -> In c l ->
    index_of c (map f l ++ r) = index_of c l.
Proof.
  induction l as [|a l IH]; intros H Hin; [destruct Hin|].
  cbn [map app index_of].
  destruct (String.eqb_spec (f a) c) as [E|E], (String.eqb_spec a c) as [E'|E'];
    try reflexivity.
  - exfalso. now apply E', H.
  - exfalso. now apply E, H.
  - f_equal. apply IH; [assumption|]. destruct Hin as [->|Hin]; [congruence|].
    assumption.
Qed.

Lemma merge_key_position (left right : DataFrame) (df : DataFrame) :
  count "samp_name" (columns left) = 1 ->
  merge left right "samp_name" = Ok df ->
  index_of "samp_name" (columns df) = index_of "samp_name" (columns left).
Proof.
  intros Hl. unfold merge, key_position. rewrite Hl.
  destruct (count "samp_name" (columns right)) as [|[|n]] eqn:Hr; cbn [bind];
    try discriminate.
  destruct (_ ++ _) as [|d ds]; [|discriminate].
  intros H. injection H as <-. cbn [columns].
  set (rc := remove_at (index_of "samp_name" (columns right)) (columns right)).
  assert (Hz : count "samp_name" rc = 0) by now apply count_remove_at_index_of.
  assert (Hout : mem "samp_name"
                     (filter (fun c => mem c rc) (columns left)) = false).
  { rewrite (mem_filter (fun c => mem c rc)).
    apply count_zero, mem_false in Hz. rewrite Hz. apply andb_false_r. }
  apply index_of_map_fix.
  - intros x. split.
    + destruct (mem x _); [|trivial].
      intros E. now apply (add_suffix_not_samp_name "_x" x (or_introl eq_refl)) in E.
    + intros ->. now rewrite Hout.
  - apply count_pos. lia.
Qed.

Lemma nth_app_prefix (l t : list cell) (i : nat) :
  i < List.length l -> nth i (l ++ t) None = nth i l None.
Proof. intros H. now apply app_nth1. Qed.

(** The key column after a join lists the keys of the left frame in
    order, each one at least once. *)
Lemma merge_key_copies (left right : DataFrame) (df : DataFrame) :
  wf left ->
  count "samp_name" (columns left) = 1 ->
  merge left right "samp_name" = Ok df ->
  copies eq (col "samp_name" left) (col "samp_name" df).
Proof.
  intros Hw Hc Hm. unfold col, column_at.
  rewrite (merge_key_position _ _ _ Hc Hm).
  assert (Hin : In "samp_name" (columns left)) by (apply count_pos; lia).
  assert (Hi : index_of "samp_name" (columns left) < List.length (columns left)).
  { apply nth_error_Some. rewrite (index_of_nth_error _ _ Hin). discriminate. }
  pose proof (merge_rows_copies _ _ _ _ Hm) as Hcp.
  assert (Hl : copies (fun l l' => (exists t, l' = l ++ t)
                                   /\ List.length l = List.length (columns left))
                      (rows left) (rows df)).
  { clear Hm. unfold wf in Hw. induction Hcp as [|x l y ys l' Hr Hf _ IH];
      [constructor|].
    inversion Hw as [|x0 t Hx Ht]; subst.
    constructor; [now split | | now apply IH].
    rewrite Forall_forall in *. intros b Hb. split; [now apply Hf | exact Hx]. }
  refine (copies_map _ eq _ _ _ _ _ Hl).
  intros l l' [[t ->] Hlen]. symmetry. apply nth_app_prefix. now rewrite Hlen.
Qed.

End Copies.

(** ** What a retrieval keeps of the facility group *)

Section Kept.

Import pd etl Props.

Lemma copies_Forall_l {A B : Type} (R : A -> B -> Prop) (P : A -> Prop)
      (l : list A) (l' : list B) :
  copies R l l' -> Forall P l -> copies (fun x y => R x y /\ P x) l l'.
Proof.
  induction 1 as [|x l y ys l' Hr Hf _ IH]; intros HP; [constructor|].
  inversion HP as [|x0 t Px Pt]; subst.
  constructor; [now split | | now apply IH].
  rewrite Forall_forall in *. intros b Hb. split; [now apply Hf | exact Px].
Qed.

Lemma copies_map_r {A B B' : Type} (R : A -> B -> Prop) (R' : A -> B' -> Prop)
      (g : B -> B') (l : list A) (l' : list B) :
  (forall x y, R x y -> R' x (g y)) ->
  copies R l l' -> copies R' l (map g l').
Proof.
  intros H Hc. rewrite <- (map_id l).
  now apply (copies_map R R' (fun x => x) g).
Qed.

(** Stamping the group key keeps the cells of a joined row under the
    labels of the left frame. *)
Lemma row_kept_set_cell (labels extra : list string) (v : cell)
      (x t : list cell) :
  List.length x = List.length labels ->
  List.length (x ++ t) = List.length (labels ++ extra) ->
  row_kept labels x
           (set_cell (labels ++ extra) "sample_isolated_from" v (x ++ t)).
Proof.
  intros Hx Hy i c Hi Hne.
  assert (Hlt : i < List.length labels).
  { apply nth_error_Some. rewrite Hi. discriminate. }
  assert (Hl : nth_error (set_label (labels ++ extra) "sample_isolated_from") i
               = Some c).
  { unfold set_label. destruct (mem _ _).
    - now rewrite nth_error_app1.
    - rewrite nth_error_app1 by (rewrite length_app; lia).
      now rewrite nth_error_app1. }
  rewrite (nth_error_set_cell _ _ _ _ _ _ Hy Hl).
  destruct (String.eqb_spec c "sample_isolated_from"); [contradiction|].
  rewrite app_nth1 by lia. symmetry. apply nth_error_nth'. lia.
Qed.

(** One iteration of the loop keeps the join key and lists the keys of the
    table in order, each one at least once. *)
Lemma merge_step_key_copies (sd : list (string * list record))
      (df df' : DataFrame) (key : string) :
  wf df -> count "samp_name" (columns df) = 1 ->
  merge_step sd df key = Ok df' ->
  wf df' /\ count "samp_name" (columns df') = 1
  /\ copies eq (col "samp_name" df) (col "samp_name" df').
Proof.
  intros Hw Hc. unfold merge_step.
  assert (Hstamp : forall d,
             wf d -> count "samp_name" (columns d) = 1 ->
             wf (setitem_scalar d "sample_isolated_from" (Some key))
             /\ count "samp_name"
                      (columns (setitem_scalar d "sample_isolated_from" (Some key)))
                = 1
             /\ col "samp_name" (setitem_scalar d "sample_isolated_from" (Some key))
                = col "samp_name" d).
  { intros d Hd Hcd. repeat split.
    - now apply wf_setitem_scalar.
    - cbn [columns setitem_scalar].
      now rewrite count_set_label_other by discriminate.
    - rewrite setitem_scalar_setitem.
      apply col_setitem_other;
        [assumption | apply repeat_length | apply count_pos; lia | discriminate]. }
  destruct (negb (empty (group_frame sd key))).
  - destruct (merge df (group_frame sd key) "samp_name") as [df1|e] eqn:E;
      cbn [bind]; [|discriminate].
    intros H. injection H as <-.
    destruct (merge_wf _ _ _ _ Hw (group_frame_wf sd key) E) as [Hw1 _].
    pose proof (merge_keeps_key _ _ _ Hc E) as Hc1.
    destruct (Hstamp df1 Hw1 Hc1) as (A & B & C).
    repeat split; [assumption | assumption|].
    rewrite C. now apply (merge_key_copies _ _ _ Hw Hc E).
  - cbn [bind]. intros H. injection H as <-.
    destruct (Hstamp df Hw Hc) as (A & B & C).
    repeat split; [assumption | assumption|]. rewrite C. apply copies_same.
Qed.

Lemma merge_loop_key_copies (sd : list (string * list record)) :
  forall (keys : list string) (df df' : DataFrame),
    wf df -> count "samp_name" (columns df) = 1 ->
    merge_loop sd keys df = Ok df' ->
    wf df' /\ count "samp_name" (columns df') = 1
    /\ copies eq (col "samp_name" df) (col "samp_name" df').
Proof.
  induction keys as [|key keys IH]; intros df df' Hw Hc; cbn [merge_loop].
  - intros H. injection H as <-. repeat split; try assumption. apply copies_same.
  - destruct (merge_step sd df key) as [df1|e] eqn:E; cbn [bind]; [|discriminate].
    intros H.
    destruct (merge_step_key_copies _ _ _ _ Hw Hc E) as (Hw1 & Hc1 & Hcp1).
    destruct (IH _ _ Hw1 Hc1 H) as (Hw2 & Hc2 & Hcp2).
    repeat split; try assumption. now apply (copies_then eq _ _ Hcp1).
Qed.

(** X5.  A retrieval that returns a table drops no sample of the facility
    group: the table has well-formed rows, at least one per record of the
    group, and, when the records have a [samp_name], its [samp_name]
    column lists the [samp_name]s of the records in order, each one at
    least once, and nothing else. *)
Theorem X5_no_facility_sample_dropped
        (self : MetadataRetriever) (p : Portal) (unique_field : string)
        (sd : list (string * list record)) (group : string)
        (data : list record) (df : DataFrame) :
  sampleData p = Some sd ->
  dict_get USER_FACILITY_DICT (user_facility self) = Some group ->
  dict_get sd group = Some data ->
  retrieve_metadata_records self p unique_field = Ok df ->
  wfb df = true
  /\ List.length data <= shape0 df
  /\ ((exists r, In r data /\ In "samp_name" (dict_keys r)) ->
      copies (fun r v => v = dict_get r "samp_name") data (col "samp_name" df)).
Proof.
  intros Hsd Hg Hd Hr.
  destruct (retrieve_stages _ _ _ _ _ _ Hsd Hg Hr) as (dfm & _ & El & Ed).
  destruct (merge_loop_rows _ _ _ _ (group_frame_wf sd group) El) as [Hw Hl].
  destruct (derive_columns_grown _ _ _ Hw Ed) as (Gw & Gs & _).
  split; [now apply wfb_wf|]. split.
  - rewrite Gs. unfold group_frame in Hl. rewrite Hd in Hl.
    unfold shape0 at 1, of_records in Hl. cbn [rows] in Hl.
    now rewrite length_map in Hl.
  - intros Hsamp. unfold group_frame in El. rewrite Hd in El.
    assert (Hin : In "samp_name" (columns (of_records data))).
    { unfold of_records. cbn [columns]. apply In_uniq, in_flat_map. exact Hsamp. }
    assert (Hc : count "samp_name" (columns (of_records data)) = 1).
    { apply unique_count_one; [apply of_records_unique | exact Hin]. }
    destruct (merge_loop_key_copies _ _ _ _ (of_records_wf data) Hc El)
      as (Hwm & Hcm & Hcp).
    assert (Hh : held "samp_name" (col "samp_name" dfm) dfm).
    { repeat split; [assumption | apply count_pos; lia]. }
    destruct (held_derive_columns _ _ _ _ Hh Ed) as (_ & _ & Hcol).
    rewrite Hcol.
    refine (copies_then _ _ _ _ _ Hcp).
    assert (Hbase : col "samp_name" (of_records data)
                    = map (fun r => dict_get r "samp_name") data).
    { unfold col, column_at, of_records in *. cbn [rows columns] in *.
      rewrite map_map. apply map_ext. intros r. now apply nth_map_dict_get. }
    rewrite Hbase. apply copies_map_r with (R := eq); [|apply copies_same].
    intros x y ->. reflexivity.
Qed.

Lemma X5_no_facility_sample_dropped_witness :
  exists df,
    retrieve_metadata_records Samples.jgi_mg
                              (Samples.serving Samples.full_submission)
                              "samp_name" = Ok df
    /\ 2 <= shape0 df
    /\ copies (fun r v => v = dict_get r "samp_name")
              [[("samp_name", "s1"); ("dna_dnase", "yes")];
               [("samp_name", "s2"); ("dna_dnase", "maybe")]]
              (col "samp_name" df).
Proof.
  destruct (retrieve_metadata_records Samples.jgi_mg
              (Samples.serving Samples.full_submission) "samp_name")
    as [df|e] eqn:E; [|vm_compute in E; discriminate E].
  exists df. split; [reflexivity|].
  destruct (X5_no_facility_sample_dropped
              Samples.jgi_mg (Samples.serving Samples.full_submission) "samp_name"
              Samples.full_submission "jgi_mg_data"
              [[("samp_name", "s1"); ("dna_dnase", "yes")];
               [("samp_name", "s2"); ("dna_dnase", "maybe")]] df)
    as (_ & Hn & Hc); [reflexivity | reflexivity | reflexivity | exact E |].
  split; [exact Hn|]. apply Hc.
  exists [("samp_name", "s1"); ("dna_dnase", "yes")].
  split; [left; reflexivity | cbn [dict_keys map fst]; left; reflexivity].
Defined.

(** X17.  Joining an annotation group that has records and a [samp_name]
    column onto a table with [samp_name] succeeds when the other columns of
    the group are new to the table: no label is renamed, the columns of the
    group are appended in order, then [sample_isolated_from]; the result is
    a table again, and no row of the table is lost: its rows are the rows
    of the table in order, each one at least once, with the same cells
    under every column of the table but [sample_isolated_from]. *)
Theorem X17_join_new_columns
        (sd : list (string * list record)) (df : DataFrame) (key : string)
        (recs : list record) :
  table df = true ->
  In "samp_name" (columns df) ->
  dict_get sd key = Some recs ->
  empty (of_records recs) = false ->
  In "samp_name" (columns (of_records recs)) ->
  (forall c, In c (right_columns (of_records recs) "samp_name") ->
             ~ In c (columns df)) ->
  exists df1,
    merge_step sd df key = Ok df1
    /\ table df1 = true
    /\ columns df1
       = set_label (columns df ++ right_columns (of_records recs) "samp_name")
                   "sample_isolated_from"
    /\ shape0 df <= shape0 df1
    /\ copies (row_kept (columns df)) (rows df) (rows df1).
Proof.
  intros Ht Hs Hk He Hsg Hdisj.
  apply table_spec in Ht as Ht'. destruct Ht' as [Hw Hu].
  set (g := of_records recs) in *.
  set (extra := right_columns g "samp_name") in *.
  assert (Hcg : count "samp_name" (columns g) = 1).
  { apply unique_count_one; [apply of_records_unique | assumption]. }
  assert (Hcd : count "samp_name" (columns df) = 1)
    by now apply unique_count_one.
  assert (Hnd : NoDup extra).
  { apply NoDup_remove_at. apply is_unique_NoDup. apply of_records_unique. }
  assert (Hsh : shared df g "samp_name" = []).
  { unfold shared. fold extra. apply filter_none. intros x Hx.
    apply mem_false. intros Hi. now apply (Hdisj x). }
  assert (Hid : forall s l, map (renamed s []) l = l).
  { intros s l. apply map_renamed_out. reflexivity. }
  destruct (merge_ok df g "samp_name" Hcg Hcd) as [dm [Em Ecm]].
  { now rewrite Hsh, Hid. }
  { rewrite Hsh, Hid. fold extra. now apply is_unique_NoDup. }
  rewrite Hsh, !Hid in Ecm. fold extra in Ecm.
  destruct (merge_wf _ _ _ _ Hw (of_records_wf recs) Em) as [Hwm _].
  exists (setitem_scalar dm "sample_isolated_from" (Some key)).
  split; [now apply merge_step_joined with (recs := recs)|]. repeat split.
  - apply table_spec. split; [now apply wf_setitem_scalar|].
    cbn [columns setitem_scalar]. apply set_label_unique. rewrite Ecm.
    apply is_unique_NoDup. apply NoDup_app.
    + now apply is_unique_NoDup.
    + assumption.
    + intros a Ha Hi. now apply (Hdisj a).
  - cbn [columns setitem_scalar]. now rewrite Ecm.
  - rewrite shape0_setitem_scalar. eapply merge_shape_le; eassumption.
  - cbn [rows setitem_scalar]. rewrite Ecm.
    pose proof (merge_rows_copies _ _ _ _ Em) as Hcp.
    apply (copies_Forall_l _ (fun l => List.length l = List.length (columns df)))
      in Hcp; [|exact Hw].
    apply (copies_Forall _ (fun l => List.length l = List.length (columns dm)))
      in Hcp; [|exact Hwm].
    refine (copies_map_r _ _ _ _ _ _ Hcp).
    intros x y [[[t ->] Hx] Hy]. rewrite Ecm in Hy.
    now apply row_kept_set_cell.
Qed.

Lemma X17_join_new_columns_witness :
  exists df1,
    merge_step Samples.same_group_twice Samples.one_sample "water" = Ok df1
    /\ table df1 = true
    /\ columns df1 = ["samp_name"; "ph"; "sample_isolated_from"]
    /\ copies (row_kept (columns Samples.one_sample))
              (rows Samples.one_sample) (rows df1).
Proof.
  destruct (X17_join_new_columns Samples.same_group_twice Samples.one_sample
                                 "water" Samples.ph_records)
    as (df1 & E & Ht & Hc & _ & Hk).
  - reflexivity.
  - left. reflexivity.
  - reflexivity.
  - reflexivity.
  - left. reflexivity.
  - intros c [<-|[]] [E|[]]. discriminate E.
  - exists df1. repeat split; assumption.
Defined.

End Kept.
